(** * MonthlyPortfolioBot: retirement projection and snapshot period change

    A shallow embedding of [src/retirement_tracker.py],
    [src/snapshot_service.py] and the period-change part of
    [src/portfolio_analyzer.py] / [src/robinhood_client.py].

    Numbers.  The Python code computes with [float].  Here a float is a
    rational ([Q]); sums, differences, products and quotients are exact,
    so a formula of the embedding is the formula of the code, operation
    by operation, without the rounding of each step.  Two quantities of
    the retirement projection are the exception, because their rounding
    decides which branch runs and which exception is raised: the monthly
    return [annual_return / 12], which can underflow to [0.0], and the
    growth factor [(1 + r) ** n], which can be [1.0] for a positive [r]
    and can overflow.  Both are rounded to binary64 as the code rounds
    them ([py_div_float], [py_pow]), and the power raises
    [OverflowError] as Python does.  Infinities and NaN are left out.
    Equality of amounts is [Qeq] ([==]).  Python integers ([int]) are [Z].

    Exceptions.  A Python function that can raise returns a [result]; the
    [try]/[except] blocks of the code are written out with [catch]. *)

From Stdlib Require Import QArith Qround Qpower Qabs Lia Lqa ZArith Ascii String.
From stdpp Require Import gmap strings list fin_maps sorting.

(** ** Exceptions and the error monad *)

Inductive exn : Type :=
  | ZeroDivisionError
  | KeyError (key : string)
  | ValueError
  | TypeError
  | AttributeError
  | RuntimeError (msg : string)
  | ClientError (code : string)
  | OverflowError.

Inductive result (A : Type) : Type :=
  | Ok (a : A)
  | Err (e : exn).
Arguments Ok {A} a.
Arguments Err {A} e.

Definition rbind {A B : Type} (r : result A) (k : A -> result B) : result B :=
  match r with
  | Ok a => k a
  | Err e => Err e
  end.

(** [try: r  except Exception as e: h e] *)
Definition catch {A : Type} (r : result A) (h : exn -> A) : A :=
  match r with
  | Ok a => a
  | Err e => h e
  end.

Declare Scope result_scope.
Delimit Scope result_scope with result.
Notation "'let*' x ':=' r 'in' k" := (rbind r (fun x => k))
  (at level 10, x name, r at level 100, k at level 200) : result_scope.
Local Open Scope result_scope.

(** ** Python arithmetic on the rationals *)

Module PyNum.
Local Open Scope Q_scope.

(** [a / b] on floats: raises [ZeroDivisionError] when [b] is zero. *)
Definition py_div (a b : Q) : result Q :=
  if Qeq_bool b 0 then Err ZeroDivisionError else Ok (a / b).

(** Comparisons [a > b], [a <= b], [a >= b]. *)
Definition py_gt (a b : Q) : bool := negb (Qle_bool a b).
Definition py_le (a b : Q) : bool := Qle_bool a b.
Definition py_ge (a b : Q) : bool := Qle_bool b a.

(** [max(a, b)]: the second argument wins only when strictly greater. *)
Definition py_max (a b : Q) : Q :=
  if py_gt b a then b else a.

(** Round to the nearest integer, ties to the even one. *)
Definition round_half_even (x : Q) : Z :=
  let f := Qfloor x in
  match Qcompare (x - inject_Z f) (1 # 2) with
  | Lt => f
  | Gt => (f + 1)%Z
  | Eq => if Z.even f then f else (f + 1)%Z
  end.

(** [round(x, ndigits)]. *)
Definition py_round (x : Q) (ndigits : Z) : Q :=
  inject_Z (round_half_even (x * 10 ^ ndigits)) / 10 ^ ndigits.

(** [floor(log2 x)] for a positive [x]. *)
Definition ilog2 (x : Q) : Z :=
  let d := (Z.log2 (Qnum x) - Z.log2 (Zpos (Qden x)))%Z in
  if Qle_bool (2 ^ d) x then d else (d - 1)%Z.

(** The binary64 number nearest to [x], ties to the even significand:
    53 significant bits, exponents from -1074 (the subnormal numbers) up
    and not bounded above; the caller checks the range. *)
Definition binary64 (x : Q) : Q :=
  let x := Qred x in
  if Qeq_bool x 0 then 0
  else
    let e := Z.max (ilog2 (Qabs x) - 52) (-1074) in
    Qred (inject_Z (round_half_even (x / 2 ^ e)) * 2 ^ e).

(** [a / b] on floats with the quotient rounded to binary64. *)
Definition py_div_float (a b : Q) : result Q :=
  let* q := py_div a b in Ok (binary64 q).

(** The least magnitude that is no longer a finite binary64 number. *)
Definition FLOAT_OVERFLOW : Q := 2 ^ 1024.

(** [x ** n] on a float [x] with an [int] exponent.  The base is the
    float nearest to [x]; the result is the float nearest to the power,
    which is what a correctly rounded [pow] returns (the C library may
    differ from it in the last place; it agrees whenever the power is
    itself a float, as for a base of [1.0]).  A zero base with a
    negative exponent raises [ZeroDivisionError], a result out of range
    raises [OverflowError]; a result too small to represent is [0.0]. *)
Definition py_pow (x : Q) (n : Z) : result Q :=
  let b := binary64 x in
  if ((n <? 0)%Z && Qeq_bool b 0)%bool then Err ZeroDivisionError
  else
    let p := binary64 (b ^ n) in
    if Qle_bool FLOAT_OVERFLOW (Qabs p) then Err OverflowError else Ok p.

End PyNum.
Import PyNum.

(** ** retirement_tracker.py *)

Module Retirement.
Local Open Scope Q_scope.

Record RetirementConfig : Type := mkRetirementConfig {
  target_amount : Q;
  target_age : Z;
  current_age : Z;
  monthly_contribution : Q;
  assumed_annual_return : Q;
  birth_year : option Z
}.

(** The dataclass constructor followed by [__post_init__]; [now_year] is
    [datetime.now().year] at construction time. *)
Definition post_init (now_year : Z) (self : RetirementConfig) : RetirementConfig :=
  match birth_year self with
  | Some by_ =>
      mkRetirementConfig (target_amount self) (target_age self)
        (now_year - by_)%Z
        (monthly_contribution self) (assumed_annual_return self)
        (birth_year self)
  | None => self
  end.

Definition new_RetirementConfig (now_year : Z)
    (target_amount : Q) (target_age : Z) (current_age : Z)
    (monthly_contribution : Q) (assumed_annual_return : Q)
    (birth_year : option Z) : RetirementConfig :=
  post_init now_year
    (mkRetirementConfig target_amount target_age current_age
       monthly_contribution assumed_annual_return birth_year).

Record RetirementProgress : Type := mkRetirementProgress {
  current_value : Q;
  progress_target_amount : Q;
  percent_complete : Q;
  years_remaining : Z;
  monthly_needed : Q;
  on_track : bool;
  projected_value : Q;
  surplus_or_deficit : Q
}.

Definition _project_future_value
    (current monthly_contribution : Q) (years : Z) (annual_return : Q)
    : result Q :=
  if (years <=? 0)%Z then Ok current
  else
    let months := (years * 12)%Z in
    let* monthly_return := py_div_float annual_return 12 in
    let* growth := py_pow (1 + monthly_return) months in
    let fv_current := current * growth in
    let* fv_contributions :=
      if py_gt monthly_return 0 && py_gt monthly_contribution 0
      then
        let* growth' := py_pow (1 + monthly_return) months in
        let* annuity := py_div (growth' - 1) monthly_return in
        Ok (monthly_contribution * annuity)
      else Ok (monthly_contribution * inject_Z months) in
    Ok (fv_current + fv_contributions).

Definition _calculate_monthly_needed
    (current target : Q) (years : Z) (annual_return : Q) : result Q :=
  if (years <=? 0)%Z then Ok (py_max 0 (target - current))
  else
    let months := (years * 12)%Z in
    let* monthly_return := py_div_float annual_return 12 in
    let* growth := py_pow (1 + monthly_return) months in
    let fv_current := current * growth in
    let needed_from_contributions := target - fv_current in
    if py_le needed_from_contributions 0 then Ok 0
    else if py_gt monthly_return 0 then
      let* growth' := py_pow (1 + monthly_return) months in
      py_div (needed_from_contributions * monthly_return) (growth' - 1)
    else py_div needed_from_contributions (inject_Z months).

Definition calculate_progress (config : RetirementConfig)
    (current_portfolio_value : Q) : result RetirementProgress :=
  let years_remaining := Z.max 0 (target_age config - current_age config) in
  let* ratio := py_div current_portfolio_value (target_amount config) in
  let percent_complete := ratio * 100 in
  let* projected_value :=
    _project_future_value current_portfolio_value
      (monthly_contribution config) years_remaining
      (assumed_annual_return config) in
  let* monthly_needed :=
    _calculate_monthly_needed current_portfolio_value
      (target_amount config) years_remaining
      (assumed_annual_return config) in
  let on_track := py_ge projected_value (target_amount config) in
  let surplus_or_deficit := projected_value - target_amount config in
  Ok (mkRetirementProgress
        (py_round current_portfolio_value 2)
        (py_round (target_amount config) 2)
        (py_round percent_complete 1)
        years_remaining
        (py_round (py_max 0 monthly_needed) 2)
        on_track
        (py_round projected_value 2)
        (py_round surplus_or_deficit 2)).

(** [years_remaining] as [calculate_progress] computes it from a config,
    the month count both helpers derive from it, and the monthly rate
    [r] of the formulas. *)
Definition years_left (config : RetirementConfig) : Z :=
  Z.max 0 (target_age config - current_age config).

Definition monthly_rate (config : RetirementConfig) : Q :=
  assumed_annual_return config / 12.

(** The monthly return as both helpers hold it: the quotient rounded to
    a float. *)
Definition float_monthly_return (config : RetirementConfig) : Q :=
  binary64 (assumed_annual_return config / 12).

Definition months_left (config : RetirementConfig) : Z :=
  (years_left config * 12)%Z.

(** The projection formula in the words of the specification (for a
    non-zero rate [r]):
    [current_value * (1+r)^months
     + monthly_contribution * (((1+r)^months - 1) / r)]. *)
Definition annuity_future_value (current contribution r : Q) (months : Z) : Q :=
  current * (1 + r) ^ months + contribution * (((1 + r) ^ months - 1) / r).


(** The specification's projection rule at one input: whenever years
    remain and the monthly rate is non-zero, the projected value is the
    annuity formula, rounded to cents in the returned record. *)
Definition projection_is_annuity_formula (config : RetirementConfig) (v : Q) : Prop :=
  (0 < years_left config)%Z ->
  ~ monthly_rate config == 0 ->
  exists fv res,
    _project_future_value v (monthly_contribution config)
      (years_left config) (assumed_annual_return config) = Ok fv /\
    fv == annuity_future_value v (monthly_contribution config)
            (monthly_rate config) (months_left config) /\
    calculate_progress config v = Ok res /\
    projected_value res == py_round fv 2.

(** The specification's rule at the target age, read on the returned
    record and the supplied amounts. *)
Definition returns_unrounded_at_target_age (config : RetirementConfig) (v : Q) : Prop :=
  years_left config = 0%Z ->
  exists res,
    calculate_progress config v = Ok res /\
    projected_value res == v /\
    monthly_needed res == py_max 0 (target_amount config - v).

End Retirement.

(** ** Dates and their string forms *)

Module PyDate.

Record date : Type := mkDate { year : Z; month : Z; day : Z }.

Record datetime : Type := mkDatetime {
  dt_date : date;
  hour : Z;
  minute : Z;
  second : Z;
  microsecond : Z
}.

(** [d.replace(day=1)] and [d.replace(month=1, day=1)] *)
Definition replace_day (d : date) (new_day : Z) : date :=
  mkDate (year d) (month d) new_day.

Definition replace_month_day (d : date) (new_month new_day : Z) : date :=
  mkDate (year d) new_month new_day.

Definition digit (n : Z) : ascii :=
  ascii_of_nat (48 + Z.to_nat (n mod 10)).

(** Decimal digits of [n], zero-padded to [width] characters. *)
Fixpoint zfill (width : nat) (n : Z) : string :=
  match width with
  | O => EmptyString
  | S w => zfill w (n / 10) +:+ String (digit n) EmptyString
  end.

(** [d.strftime("%Y-%m-%d")] *)
Definition strftime_ymd (d : date) : string :=
  zfill 4 (year d) +:+ "-" +:+ zfill 2 (month d) +:+ "-" +:+ zfill 2 (day d).

(** [t.isoformat()] *)
Definition isoformat (t : datetime) : string :=
  strftime_ymd (dt_date t) +:+ "T" +:+ zfill 2 (hour t) +:+ ":"
  +:+ zfill 2 (minute t) +:+ ":" +:+ zfill 2 (second t)
  +:+ (if (microsecond t =? 0)%Z then EmptyString
       else "." +:+ zfill 6 (microsecond t)).

(** The ranges Python's [date] keeps: years 1 to 9999, months 1 to 12,
    days 1 to 31. *)
Definition date_in_range (d : date) : bool :=
  (1 <=? year d)%Z && (year d <=? 9999)%Z &&
  (1 <=? month d)%Z && (month d <=? 12)%Z &&
  (1 <=? day d)%Z && (day d <=? 31)%Z.

(** Dates compare by year, then month, then day. *)
Definition date_compare (d1 d2 : date) : comparison :=
  match Z.compare (year d1) (year d2) with
  | Eq =>
      match Z.compare (month d1) (month d2) with
      | Eq => Z.compare (day d1) (day d2)
      | c => c
      end
  | c => c
  end.

(** [d1 <= d2] *)
Definition date_le (d1 d2 : date) : bool :=
  match date_compare d1 d2 with
  | Gt => false
  | _ => true
  end.

End PyDate.
Import PyDate.

(** ** snapshot_service.py *)

(** JSON values as [json.loads] hands them to Python. *)
Inductive jvalue : Type :=
  | JNull
  | JBool (b : bool)
  | JNum (x : Q)
  | JStr (s : string)
  | JCompound.

(** The body of a stored object after [json.loads]: not JSON at all, a
    JSON object, or some other JSON value.  [json.dumps] of a dict is the
    [JsonObject] holding it. *)
Inductive document : Type :=
  | NotJson
  | JsonObject (d : gmap string jvalue)
  | JsonOther.

(** The S3 client: the stored objects by (bucket, key), and whether the
    service answers; when it does not, every call raises [ClientError]. *)
Record S3 : Type := mkS3 {
  objects : gmap (string * string) document;
  reachable : bool
}.

Definition put_object (s : S3) (bucket key : string) (body : document) : result S3 :=
  if reachable s then Ok (mkS3 (<[(bucket, key) := body]> (objects s)) (reachable s))
  else Err (ClientError "ServiceUnavailable").

Definition get_object (s : S3) (bucket key : string) : result document :=
  if reachable s then
    match objects s !! (bucket, key) with
    | Some body => Ok body
    | None => Err (ClientError "NoSuchKey")
    end
  else Err (ClientError "ServiceUnavailable").

(** The order of keys in a listing: byte-wise lexicographic. *)
Definition key_le (a b : string) : Prop := String.leb a b = true.

#[global] Instance key_le_dec (a b : string) : Decision (key_le a b).
Proof. unfold key_le. apply _. Defined.

(** One page of a listing holds at most 1000 keys. *)
Definition MAX_KEYS : nat := 1000.

(** The keys stored in [bucket] that start with [prefix]. *)
Definition keys_with_prefix (s : S3) (bucket prefix : string) : list string :=
  (filter (fun k : string * string =>
             k.1 = bucket /\ String.prefix prefix k.2 = true)
          (map_to_list (objects s)).*1).*2.

(** [list_objects_v2(Bucket, Prefix)]: the keys of the first page, in
    ascending order; the response has no ["Contents"] when the list is
    empty. *)
Definition list_objects_v2 (s : S3) (bucket prefix : string) : result (list string) :=
  if reachable s then
    Ok (take MAX_KEYS (merge_sort key_le (keys_with_prefix s bucket prefix)))
  else Err (ClientError "ServiceUnavailable").

Definition json_dumps (d : gmap string jvalue) : document := JsonObject d.

Definition SNAPSHOT_PREFIX : string := "portfolio-snapshots".

Module Snapshot.
Section WithFloat.

(** [float(s)] for a string [s]: the parser of the Python runtime. *)
Variable float_of_str : string -> result Q.

Local Open Scope Q_scope.

Record PortfolioSnapshot : Type := mkPortfolioSnapshot {
  account_number : jvalue;
  timestamp : jvalue;
  equity : Q;
  cash : Q
}.

Definition to_dict (self : PortfolioSnapshot) : gmap string jvalue :=
  <["account_number" := account_number self]>
    (<["timestamp" := timestamp self]>
       (<["equity" := JNum (equity self)]>
          (<["cash" := JNum (cash self)]> ∅))).

(** [data[key]] *)
Definition getitem (data : gmap string jvalue) (key : string) : result jvalue :=
  match data !! key with
  | Some v => Ok v
  | None => Err (KeyError key)
  end.

(** [float(v)] *)
Definition py_float (v : jvalue) : result Q :=
  match v with
  | JNum x => Ok x
  | JBool b => Ok (if b then 1 else 0)
  | JStr s => float_of_str s
  | JNull | JCompound => Err TypeError
  end.

Definition from_dict (data : gmap string jvalue) : result PortfolioSnapshot :=
  let* account_number := getitem data "account_number" in
  let* timestamp := getitem data "timestamp" in
  let* equity_raw := getitem data "equity" in
  let* equity := py_float equity_raw in
  let* cash_raw := getitem data "cash" in
  let* cash := py_float cash_raw in
  Ok (mkPortfolioSnapshot account_number timestamp equity cash).

(** [json.loads(body)] followed by the use of the result as a dict. *)
Definition json_loads (body : document) : result (gmap string jvalue) :=
  match body with
  | NotJson => Err ValueError
  | JsonObject d => Ok d
  | JsonOther => Err TypeError
  end.

Record SnapshotService : Type := mkSnapshotService {
  bucket : string;
  s3 : S3
}.

Definition snapshot_key (account_number date_str : string) : string :=
  SNAPSHOT_PREFIX +:+ "/account-" +:+ account_number +:+ "/" +:+ date_str +:+ ".json".

(** [save_snapshot]: the service after the call, and the returned bool.
    [now] is [datetime.now()]. *)
Definition save_snapshot (self : SnapshotService) (now : datetime)
    (account_number : string) (equity cash : Q) (timestamp : option datetime)
    : SnapshotService * bool :=
  let timestamp := match timestamp with Some t => t | None => now end in
  catch
    (let snapshot :=
       mkPortfolioSnapshot (JStr account_number) (JStr (isoformat timestamp))
         equity cash in
     let date_str := strftime_ymd (dt_date timestamp) in
     let key := snapshot_key account_number date_str in
     let* s3' := put_object (s3 self) (bucket self) key
                   (json_dumps (to_dict snapshot)) in
     Ok (mkSnapshotService (bucket self) s3', true))
    (fun e =>
       match e with
       | ClientError _ => (self, false)
       | _ => (self, false)
       end).

Definition get_snapshot (self : SnapshotService) (account_number : string)
    (snapshot_date : date) : option PortfolioSnapshot :=
  catch
    (let date_str := strftime_ymd snapshot_date in
     let key := snapshot_key account_number date_str in
     let* response := get_object (s3 self) (bucket self) key in
     let* data := json_loads response in
     let* snapshot := from_dict data in
     Ok (Some snapshot))
    (fun e =>
       match e with
       | ClientError _ => None
       | _ => None
       end).

Definition get_latest_snapshot (self : SnapshotService)
    (account_number : string) : option PortfolioSnapshot :=
  catch
    (let prefix := SNAPSHOT_PREFIX +:+ "/account-" +:+ account_number +:+ "/" in
     let* contents := list_objects_v2 (s3 self) (bucket self) prefix in
     match contents with
     | [] => Ok None
     | first_key :: _ =>
         let latest_key := List.last (merge_sort key_le contents) first_key in
         let* response := get_object (s3 self) (bucket self) latest_key in
         let* data := json_loads response in
         let* snapshot := from_dict data in
         Ok (Some snapshot)
     end)
    (fun e =>
       match e with
       | ClientError _ => None
       | _ => None
       end).

Record PeriodChange : Type := mkPeriodChange {
  change_dollars : Q;
  change_percent : Q;
  start_equity : Q;
  end_equity : Q
}.

(** [today] is [date.today()]. *)
Definition calculate_period_change (self : SnapshotService) (today : date)
    (account_number : string) (start_date : date) (end_date : option date)
    : result (option PeriodChange) :=
  let end_date := match end_date with Some d => d | None => today end in
  let start_snapshot := get_snapshot self account_number start_date in
  let end_snapshot := get_snapshot self account_number end_date in
  match start_snapshot, end_snapshot with
  | Some start_snapshot, Some end_snapshot =>
      let change_dollars := equity end_snapshot - equity start_snapshot in
      let* change_percent :=
        if py_gt (equity start_snapshot) 0 then
          let* ratio := py_div change_dollars (equity start_snapshot) in
          Ok (ratio * 100)
        else Ok 0 in
      Ok (Some (mkPeriodChange change_dollars change_percent
                  (equity start_snapshot) (equity end_snapshot)))
  | _, _ => Ok None
  end.

End WithFloat.
End Snapshot.

(** ** robinhood_client.py: the per-account performance path *)

Module Client.
Local Open Scope Q_scope.

(** The dict returned by [get_portfolio_value_for_account]. *)
Record PortfolioValue : Type := mkPortfolioValue {
  pv_equity : Q;
  pv_extended_hours_equity : Q;
  pv_market_value : Q;
  pv_cash : Q;
  pv_buying_power : Q;
  pv_account_number : string
}.

(** One dict of the list returned by [get_holdings_for_account]. *)
Record HoldingData : Type := mkHoldingData {
  hd_symbol : string;
  hd_name : string;
  hd_quantity : Q;
  hd_average_buy_price : Q;
  hd_current_price : Q;
  hd_equity : Q;
  hd_percent_change : Q;
  hd_percentage_of_portfolio : Q
}.

(** The client.  The calls into the brokerage library are outside the
    repository; what they answer for an account is part of the client:
    [api_portfolio_value] is the outcome of the [try] block of
    [get_portfolio_value_for_account] (its exception is re-raised), and
    [api_holdings] the list [get_holdings_for_account] ends up
    returning (it returns the empty list on any exception). *)
Record RobinhoodClient : Type := mkRobinhoodClient {
  _logged_in : bool;
  api_portfolio_value : string -> result PortfolioValue;
  api_holdings : string -> list HoldingData
}.

Definition _ensure_logged_in (self : RobinhoodClient) : result unit :=
  if negb (_logged_in self)
  then Err (RuntimeError "Not logged in. Call login() first.")
  else Ok tt.

Definition get_portfolio_value_for_account (self : RobinhoodClient)
    (account_number : string) : result PortfolioValue :=
  let* _ := _ensure_logged_in self in
  api_portfolio_value self account_number.

Definition get_holdings_for_account (self : RobinhoodClient)
    (account_number : string) : result (list HoldingData) :=
  let* _ := _ensure_logged_in self in
  Ok (api_holdings self account_number).

Record AccountPerformance : Type := mkAccountPerformance {
  cost_basis : Q;
  perf_current_value : Q;
  gain_loss_dollars : Q;
  gain_loss_percent : Q;
  holdings_count : nat
}.

(** The accumulation loop over the holdings:
    [(total_cost_basis, total_current_value, total_gain_loss)]. *)
Definition accumulate_holding (acc : Q * Q * Q) (holding : HoldingData) : Q * Q * Q :=
  let '(total_cost_basis, total_current_value, total_gain_loss) := acc in
  let quantity := hd_quantity holding in
  let avg_cost := hd_average_buy_price holding in
  let current_price := hd_current_price holding in
  let cost := quantity * avg_cost in
  let current_val := quantity * current_price in
  (total_cost_basis + cost, total_current_value + current_val,
   total_gain_loss + (current_val - cost)).

Definition calculate_account_performance (self : RobinhoodClient)
    (account_number : string) : result (option AccountPerformance) :=
  let* _ := _ensure_logged_in self in
  Ok (catch
        (let* portfolio := get_portfolio_value_for_account self account_number in
         let* holdings := get_holdings_for_account self account_number in
         let '(total_cost_basis, total_current_value, total_gain_loss) :=
           fold_left accumulate_holding holdings (0, 0, 0) in
         let cash := pv_cash portfolio in
         let total_current_with_cash := total_current_value + cash in
         let* percent_change :=
           if py_gt total_cost_basis 0 then
             let* ratio := py_div total_gain_loss total_cost_basis in
             Ok (ratio * 100)
           else Ok 0 in
         Ok (Some (mkAccountPerformance total_cost_basis
                     total_current_with_cash total_gain_loss percent_change
                     (length holdings))))
        (fun _ => None)).

Record Historical : Type := mkHistorical {
  start_value : Q;
  end_value : Q;
  hist_change_dollars : Q;
  hist_change_percent : Q;
  data_points : nat;
  method : string
}.

Definition get_historical_portfolio_for_account (self : RobinhoodClient)
    (account_number span : string) : result (option Historical) :=
  let* _ := _ensure_logged_in self in
  Ok (catch
        (let* holdings_perf := calculate_account_performance self account_number in
         match holdings_perf with
         | None => Ok None
         | Some perf =>
             Ok (Some (mkHistorical (cost_basis perf) (perf_current_value perf)
                         (gain_loss_dollars perf) (gain_loss_percent perf)
                         (holdings_count perf) "holdings_based"))
         end)
        (fun _ => None)).

(** The exception of [_ensure_logged_in]. *)
Definition NOT_LOGGED_IN : exn := RuntimeError "Not logged in. Call login() first.".

End Client.

(** ** portfolio_analyzer.py: the per-account report *)

Module Analyzer.
Import Snapshot Client.
Section WithFloat.

Variable float_of_str : string -> result Q.

Local Open Scope Q_scope.

Record Holding : Type := mkHolding {
  symbol : string;
  name : string;
  quantity : Q;
  current_price : Q;
  average_cost : Q;
  holding_total_value : Q;
  percent_change : Q;
  portfolio_percent : Q
}.

Record AccountReport : Type := mkAccountReport {
  account_type : string;
  report_account_number : string;
  total_value : Q;
  cash_balance : Q;
  monthly_change_dollars : Q;
  monthly_change_percent : Q;
  ytd_change_dollars : Q;
  ytd_change_percent : Q;
  top_holdings : list Holding;
  total_holdings_count : nat
}.

Record PortfolioAnalyzer : Type := mkPortfolioAnalyzer {
  client : RobinhoodClient;
  snapshot_service : option SnapshotService
}.

(** The dict [{"dollars": ..., "percent": ...}]. *)
Record Change : Type := mkChange { dollars : Q; percent : Q }.

Definition _convert_holdings (holdings_data : list HoldingData) : list Holding :=
  map (fun h =>
         mkHolding (hd_symbol h) (hd_name h) (hd_quantity h)
           (hd_current_price h) (hd_average_buy_price h) (hd_equity h)
           (hd_percent_change h) (hd_percentage_of_portfolio h))
      holdings_data.

(** [today] is [date.today()].  A missing service makes the attribute
    access inside the [try] raise, which the handler turns into [None]. *)
Definition _calculate_period_change_from_snapshots (self : PortfolioAnalyzer)
    (today : date) (account_number span : string) : option Change :=
  let from_start (start_date : date) : option Change :=
    catch
      (let* service :=
         match snapshot_service self with
         | Some service => Ok service
         | None => Err AttributeError
         end in
       let* period_change :=
         calculate_period_change float_of_str service today account_number
           start_date (Some today) in
       match period_change with
       | Some pc => Ok (Some (mkChange (change_dollars pc) (change_percent pc)))
       | None => Ok None
       end)
      (fun _ => None) in
  if String.eqb span "month" then from_start (replace_day today 1)
  else if String.eqb span "year" then from_start (replace_month_day today 1 1)
  else None.

Definition _calculate_period_change_for_account (self : PortfolioAnalyzer)
    (today : date) (account_number span : string) : result Change :=
  let first_try :=
    match snapshot_service self with
    | Some _ => _calculate_period_change_from_snapshots self today account_number span
    | None => None
    end in
  match first_try with
  | Some period_change => Ok period_change
  | None =>
      let* historical :=
        get_historical_portfolio_for_account (client self) account_number span in
      match historical with
      | Some h => Ok (mkChange (hist_change_dollars h) (hist_change_percent h))
      | None => Ok (mkChange 0 0)
      end
  end.

(** [_analyze_account]: the analyzer after the call (its snapshot store
    may have a new object) and the report or the exception raised.
    [now] is the clock of the run. *)
Definition _analyze_account (self : PortfolioAnalyzer) (now : datetime)
    (account_number account_type : string) (top_n : Z)
    : PortfolioAnalyzer * result AccountReport :=
  match get_portfolio_value_for_account (client self) account_number with
  | Err e => (self, Err e)
  | Ok portfolio_value =>
      let total_value := pv_equity portfolio_value in
      let cash_balance := pv_cash portfolio_value in
      let self' :=
        match snapshot_service self with
        | Some service =>
            mkPortfolioAnalyzer (client self)
              (Some (fst (save_snapshot service now account_number
                            total_value cash_balance None)))
        | None => self
        end in
      (self',
       let* holdings_data := get_holdings_for_account (client self') account_number in
       let holdings := _convert_holdings holdings_data in
       let top_holdings := holdings in
       let* monthly_change :=
         _calculate_period_change_for_account self' (dt_date now)
           account_number "month" in
       let* ytd_change :=
         _calculate_period_change_for_account self' (dt_date now)
           account_number "year" in
       Ok (mkAccountReport account_type account_number
             (py_round total_value 2) (py_round cash_balance 2)
             (py_round (dollars monthly_change) 2)
             (py_round (percent monthly_change) 2)
             (py_round (dollars ytd_change) 2)
             (py_round (percent ytd_change) 2)
             top_holdings (length holdings)))
  end.

(** The start date the analyzer uses for a span. *)
Definition period_start (today : date) (span : string) : date :=
  if String.eqb span "month" then replace_day today 1
  else replace_month_day today 1 1.

(** The snapshot tier: the change between the snapshots of the period
    start and of today, when the analyzer has a snapshot service and both
    snapshots are there. *)
Definition snapshot_tier (self : PortfolioAnalyzer) (today : date)
    (account_number span : string) : option PeriodChange :=
  match snapshot_service self with
  | Some service =>
      match calculate_period_change float_of_str service today account_number
              (period_start today span) (Some today) with
      | Ok r => r
      | Err _ => None
      end
  | None => None
  end.

(** The holdings tier: cost basis against current value. *)
Definition holdings_tier (self : PortfolioAnalyzer) (account_number : string)
    : option AccountPerformance :=
  match calculate_account_performance (client self) account_number with
  | Ok r => r
  | Err _ => None
  end.

(** The three tiers in order. *)
Definition three_tier_change (self : PortfolioAnalyzer) (today : date)
    (account_number span : string) : Change :=
  match snapshot_tier self today account_number span with
  | Some pc => mkChange (change_dollars pc) (change_percent pc)
  | None =>
      match holdings_tier self account_number with
      | Some perf => mkChange (gain_loss_dollars perf) (gain_loss_percent perf)
      | None => mkChange 0 0
      end
  end.

End WithFloat.
End Analyzer.

(** ** portfolio_analyzer.py: dividend totals *)

Module Dividends.
Local Open Scope Q_scope.

(** One dict of the list returned by [get_dividends]; [paid_at] and
    [payable_date] are [None] when the brokerage sent none. *)
Record Dividend : Type := mkDividend {
  div_symbol : string;
  div_amount : Q;
  paid_at : option string;
  payable_date : option string
}.

(** [s.replace("Z", "+00:00")] *)
Fixpoint replace_Z (s : string) : string :=
  match s with
  | EmptyString => EmptyString
  | String c rest =>
      if Ascii.eqb c "Z" then "+00:00" +:+ replace_Z rest
      else String c (replace_Z rest)
  end.

(** [a >= b] on naive datetimes: field by field, from the year down to
    the microsecond. *)
Definition datetime_fields (t : datetime) : list Z :=
  [year (dt_date t); month (dt_date t); day (dt_date t);
   hour t; minute t; second t; microsecond t].

Fixpoint lex_ge (a b : list Z) : bool :=
  match a, b with
  | x :: a', y :: b' => (y <? x)%Z || ((x =? y)%Z && lex_ge a' b')
  | _, _ => true
  end.

Definition datetime_ge (a b : datetime) : bool :=
  lex_ge (datetime_fields a) (datetime_fields b).

(** [now.replace(day=1, hour=0, minute=0, second=0, microsecond=0)] *)
Definition month_start (now : datetime) : datetime :=
  mkDatetime (replace_day (dt_date now) 1) 0 0 0 0.

(** [datetime(now.year, 1, 1)] *)
Definition year_start (now : datetime) : datetime :=
  mkDatetime (mkDate (year (dt_date now)) 1 1) 0 0 0 0.

Section WithParser.

(** [datetime.fromisoformat(s)] with the time zone dropped
    ([.replace(tzinfo=None)]); [None] stands for the [ValueError] raised
    on a string that is not an ISO date. *)
Variable fromisoformat : string -> option datetime.

(** The body of the loop of both totals: one dividend added to [total]
    when it was paid on or after [since]. *)
Definition add_if_paid_since (since : datetime) (total : Q) (div : Dividend) : Q :=
  match paid_at div with
  | Some paid =>
      if negb (String.eqb paid "") then
        match fromisoformat (replace_Z paid) with
        | Some paid_date =>
            if datetime_ge paid_date since then total + div_amount div
            else total
        | None => total
        end
      else total
  | None => total
  end.

(** [now] is [datetime.now()]. *)
Definition _calculate_monthly_dividends (now : datetime)
    (dividends : list Dividend) : Q :=
  fold_left (add_if_paid_since (month_start now)) dividends 0.

Definition _calculate_ytd_dividends (now : datetime)
    (dividends : list Dividend) : Q :=
  fold_left (add_if_paid_since (year_start now)) dividends 0.

End WithParser.
End Dividends.

(** ** scripts/local_test.py: the progress bar *)

Module LocalTest.
Local Open Scope Q_scope.

(** [int(x)] on a float: truncation toward zero. *)
Definition py_int (x : Q) : Z :=
  if Qle_bool 0 x then Qfloor x else Qceiling x.

(** [min(a, b)]: the second argument wins only when strictly smaller. *)
Definition py_min (a b : Q) : Q :=
  if py_gt a b then b else a.

Fixpoint repeat_string (s : string) (n : nat) : string :=
  match n with
  | O => EmptyString
  | S n' => s +:+ repeat_string s n'
  end.

(** [s * n]: the empty string when [n] is not positive. *)
Definition py_mul_str (s : string) (n : Z) : string :=
  repeat_string s (Z.to_nat n).

Definition bar_width : Z := 40.

(** The bar printed by [print_retirement_progress] for a
    [percent_complete]. *)
Definition progress_bar (percent_complete : Q) : string :=
  let filled :=
    py_int (inject_Z bar_width * py_min percent_complete 100 / 100) in
  "[" +:+ py_mul_str "#" filled +:+ py_mul_str "-" (bar_width - filled) +:+ "]".

End LocalTest.

(** ** Concrete inputs used by the examples *)

Module Examples.
Import Retirement Snapshot Client Analyzer.
Local Open Scope Q_scope.



Definition positive_rate_config : RetirementConfig :=
  mkRetirementConfig 2000000 65 35 1000 (7 # 100) None.

Definition negative_rate_config : RetirementConfig :=
  mkRetirementConfig 1000000 66 65 100 (-12 # 100) None.

Definition at_target_age_config : RetirementConfig :=
  mkRetirementConfig (1004 # 1000) 65 65 100 (7 # 100) None.

Definition zero_return_config : RetirementConfig :=
  mkRetirementConfig 100000 67 65 250 0 None.

Definition negative_return_config : RetirementConfig :=
  mkRetirementConfig 100000 67 65 0 (-6 # 100) None.

(** A return of 100% a month for one year: the growth factor [2 ** 12]
    and every amount derived from it are whole numbers, exact in
    binary64. *)
Definition doubling_config : RetirementConfig :=
  mkRetirementConfig 10000000 66 65 100 12 None.

(** A positive return too small to move [1.0]: [1 + 1e-17 / 12] is [1.0]
    in binary64. *)
Definition tiny_rate_config : RetirementConfig :=
  mkRetirementConfig 1000 66 65 100 (1 # 100000000000000000) None.

Definition negative_target_tiny_rate_config : RetirementConfig :=
  mkRetirementConfig (-1000) 66 65 100 (1 # 100000000000000000) None.

(** A return of 100% a month for a hundred years: [2 ** 1200] is out of
    the range of binary64. *)
Definition overflowing_config : RetirementConfig :=
  mkRetirementConfig 1000 165 65 0 12 None.

(** A string parser that accepts nothing, for stores whose numbers are
    JSON numbers. *)
Definition no_float (s : string) : result Q := Err ValueError.

(** A store with one bucket, reachable, first empty, then holding the
    snapshots of account A1. *)
Definition empty_service : SnapshotService :=
  mkSnapshotService "portfolio-bucket" (mkS3 ∅ true).

Definition at_time (y m d h mi : Z) : datetime :=
  mkDatetime (mkDate y m d) h mi 0 0.

Definition service_after_january : SnapshotService :=
  fst (save_snapshot empty_service (at_time 2024 1 1 9 0) "A1" 10000 50 None).

Definition service_after_morning : SnapshotService :=
  fst (save_snapshot service_after_january (at_time 2024 2 1 9 0) "A1"
         10400 60 None).

Definition service_after_evening : SnapshotService :=
  fst (save_snapshot service_after_morning (at_time 2024 2 1 8 0) "A1"
         10500 75 (Some (at_time 2024 2 1 17 30))).

Definition service_after_march : SnapshotService :=
  fst (save_snapshot service_after_evening (at_time 2024 3 1 9 0) "A1"
         9975 80 None).

(** The same store with an incomplete object written under the key of
    2024-04-01. *)
Definition service_with_incomplete_object : SnapshotService :=
  mkSnapshotService (bucket service_after_march)
    (mkS3 (<[(bucket service_after_march, snapshot_key "A1" "2024-04-01")
             := JsonObject (<["equity" := JNum 9000]> ∅)]>
             (objects (s3 service_after_march)))
          true).

(** A client that is logged in and holds one position of account A1. *)
Definition demo_client : RobinhoodClient :=
  mkRobinhoodClient true
    (fun _ => Ok (mkPortfolioValue 10500 10500 10425 75 75 "A1"))
    (fun _ => [mkHoldingData "VTI" "Vanguard Total Stock Market" 40 250
                 (2085 # 8) 10425 (425 # 100) (9929 # 100)]).

(** The same client when the brokerage answers with an error. *)
Definition failing_client : RobinhoodClient :=
  mkRobinhoodClient true (fun _ => Err (KeyError "equity")) (fun _ => []).

(** A client that never logged in. *)
Definition logged_out_client : RobinhoodClient :=
  mkRobinhoodClient false
    (fun _ => Ok (mkPortfolioValue 10500 10500 10425 75 75 "A1"))
    (fun _ => []).

Definition logged_out_analyzer : PortfolioAnalyzer :=
  mkPortfolioAnalyzer logged_out_client (Some empty_service).

Definition failing_analyzer_without_snapshots : PortfolioAnalyzer :=
  mkPortfolioAnalyzer failing_client None.

Definition demo_analyzer : PortfolioAnalyzer :=
  mkPortfolioAnalyzer demo_client (Some service_after_evening).

Definition analyzer_without_snapshots : PortfolioAnalyzer :=
  mkPortfolioAnalyzer demo_client None.

Definition analyzer_without_data : PortfolioAnalyzer :=
  mkPortfolioAnalyzer failing_client (Some empty_service).

(** A parser for the examples: the fields of
    [YYYY-MM-DDTHH:MM:SS], whatever follows; [None] when a field is not a
    number. *)
Fixpoint digits_value (s : string) (acc : Z) : option Z :=
  match s with
  | EmptyString => Some acc
  | String c rest =>
      let n := Z.of_nat (nat_of_ascii c) in
      if (48 <=? n)%Z && (n <=? 57)%Z
      then digits_value rest (acc * 10 + (n - 48))
      else None
  end.

Definition field_at (s : string) (start len : nat) : option Z :=
  if (start + len <=? String.length s)%nat
  then digits_value (substring start len s) 0
  else None.

Definition demo_fromisoformat (s : string) : option datetime :=
  match field_at s 0 4, field_at s 5 2, field_at s 8 2,
        field_at s 11 2, field_at s 14 2, field_at s 17 2 with
  | Some y, Some m, Some d, Some h, Some mi, Some se =>
      Some (mkDatetime (mkDate y m d) h mi se 0)
  | _, _, _, _, _, _ => None
  end.

Definition demo_dividends : list Dividends.Dividend :=
  [Dividends.mkDividend "VTI" (1250 # 100) (Some "2024-01-15T14:00:00Z") None;
   Dividends.mkDividend "VXUS" (830 # 100) (Some "2024-03-04T14:00:00Z") None;
   Dividends.mkDividend "BND" (410 # 100) None (Some "2024-03-20");
   Dividends.mkDividend "SCHD" (975 # 100) (Some "pending") None;
   Dividends.mkDividend "VTI" (1100 # 100) (Some "2023-12-20T14:00:00Z") None].

End Examples.
Import Examples.

(** ** Facts about the arithmetic *)

Section PyNumFacts.
Local Open Scope Q_scope.

Lemma py_div_ok (a b : Q) : ~ b == 0 -> py_div a b = Ok (a / b).
Proof.
  intros Hb. unfold py_div.
  destruct (Qeq_bool b 0) eqn:E; [|reflexivity].
  apply Qeq_bool_eq in E. contradiction.
Qed.

Lemma py_div_zero (a b : Q) : b == 0 -> py_div a b = Err ZeroDivisionError.
Proof.
  intros Hb. unfold py_div. now rewrite (Qeq_eq_bool _ _ Hb).
Qed.

Lemma py_div_12 (a : Q) : py_div a 12 = Ok (a / 12).
Proof. reflexivity. Qed.

Lemma py_div_float_12 (a : Q) : py_div_float a 12 = Ok (binary64 (a / 12)).
Proof. reflexivity. Qed.

Lemma py_gt_true (a b : Q) : py_gt a b = true <-> b < a.
Proof.
  unfold py_gt. rewrite negb_true_iff. split.
  - intros E. apply Qnot_le_lt. intros Hle.
    apply Qle_bool_iff in Hle. congruence.
  - intros Hlt. destruct (Qle_bool a b) eqn:E; [|reflexivity].
    apply Qle_bool_iff in E. exfalso. apply (Qlt_not_le _ _ Hlt E).
Qed.

Lemma py_gt_false (a b : Q) : py_gt a b = false <-> a <= b.
Proof.
  unfold py_gt. rewrite negb_false_iff. apply Qle_bool_iff.
Qed.

Lemma py_max_0_nonneg (x : Q) : 0 <= py_max 0 x.
Proof.
  unfold py_max. destruct (py_gt x 0) eqn:E.
  - apply py_gt_true in E. now apply Qlt_le_weak.
  - apply Qle_refl.
Qed.

Lemma py_max_0_idem (x : Q) : py_max 0 (py_max 0 x) = py_max 0 x.
Proof.
  unfold py_max. destruct (py_gt x 0) eqn:E.
  - now rewrite E.
  - reflexivity.
Qed.

Lemma round_half_even_nonneg (x : Q) : 0 <= x -> (0 <= round_half_even x)%Z.
Proof.
  intros Hx. apply Qfloor_resp_le in Hx.
  change (Qfloor 0) with 0%Z in Hx.
  unfold round_half_even.
  destruct (Qcompare _ _); [destruct (Z.even _)| |]; lia.
Qed.

Lemma py_round_nonneg (x : Q) (ndigits : Z) : 0 <= x -> 0 <= py_round x ndigits.
Proof.
  intros Hx. unfold py_round.
  assert (Hp : 0 < 10 ^ ndigits) by (now apply Qpower_0_lt).
  apply Qle_shift_div_l; [exact Hp|].
  rewrite Qmult_0_l.
  change 0 with (inject_Z 0). rewrite <- Zle_Qle.
  apply round_half_even_nonneg.
  apply Qmult_le_0_compat; [exact Hx | now apply Qlt_le_weak].
Qed.

Lemma py_le_true (a b : Q) : py_le a b = true <-> a <= b.
Proof. apply Qle_bool_iff. Qed.

Lemma py_le_false (a b : Q) : py_le a b = false <-> b < a.
Proof.
  unfold py_le. split.
  - intros E. apply Qnot_le_lt. intros Hle.
    apply Qle_bool_iff in Hle. congruence.
  - intros Hlt. destruct (Qle_bool a b) eqn:E; [|reflexivity].
    apply Qle_bool_iff in E. exfalso. lra.
Qed.

(** *** Rounding *)

Lemma round_half_even_cases (x : Q) :
  let f := Qfloor x in
  (round_half_even x = f /\ x - inject_Z f <= 1 # 2) \/
  (round_half_even x = (f + 1)%Z /\ 1 # 2 <= x - inject_Z f).
Proof.
  cbv zeta. unfold round_half_even.
  destruct (Qcompare_spec (x - inject_Z (Qfloor x)) (1 # 2)) as [E|E|E].
  - destruct (Z.even (Qfloor x)); [left|right]; split; try reflexivity;
      rewrite E; apply Qle_refl.
  - left. split; [reflexivity|now apply Qlt_le_weak].
  - right. split; [reflexivity|now apply Qlt_le_weak].
Qed.

Lemma round_half_even_mono (x y : Q) :
  x <= y -> (round_half_even x <= round_half_even y)%Z.
Proof.
  intros Hxy.
  pose proof (Qfloor_resp_le _ _ Hxy) as Hf.
  destruct (Z.eq_dec (Qfloor x) (Qfloor y)) as [E|NE].
  - unfold round_half_even. rewrite <- E.
    destruct (Qcompare_spec (x - inject_Z (Qfloor x)) (1 # 2)) as [Ex|Ex|Ex];
      destruct (Qcompare_spec (y - inject_Z (Qfloor x)) (1 # 2)) as [Ey|Ey|Ey];
      try destruct (Z.even (Qfloor x)); try lia; exfalso; lra.
  - destruct (round_half_even_cases x) as [[-> _]|[-> _]];
      destruct (round_half_even_cases y) as [[-> _]|[-> _]]; lia.
Qed.

Lemma py_round_mono (x y : Q) (n : Z) :
  x <= y -> py_round x n <= py_round y n.
Proof.
  intros Hxy. unfold py_round.
  assert (Hp : 0 < 10 ^ n) by (now apply Qpower_0_lt).
  apply Qmult_le_compat_r.
  - rewrite <- Zle_Qle. apply round_half_even_mono.
    apply Qmult_le_compat_r; [exact Hxy|now apply Qlt_le_weak].
  - apply Qlt_le_weak, Qinv_lt_0_compat, Hp.
Qed.

Lemma round_half_even_inject_Z (z : Z) : round_half_even (inject_Z z) = z.
Proof.
  unfold round_half_even. rewrite Qfloor_Z.
  destruct (Qcompare_spec (inject_Z z - inject_Z z) (1 # 2)) as [E|E|E];
    try reflexivity; exfalso; lra.
Qed.

Lemma round_half_even_comp (x y : Q) :
  x == y -> round_half_even x = round_half_even y.
Proof.
  intros E. unfold round_half_even. rewrite (Qfloor_comp _ _ E).
  replace (Qcompare (x - inject_Z (Qfloor y)) (1 # 2))
    with (Qcompare (y - inject_Z (Qfloor y)) (1 # 2)); [reflexivity|].
  apply Qcompare_comp; [now rewrite E | reflexivity].
Qed.

Lemma py_round_zero (n : Z) : py_round 0 n == 0.
Proof.
  unfold py_round.
  rewrite (round_half_even_comp (0 * 10 ^ n) (inject_Z 0))
    by (now rewrite Qmult_0_l).
  rewrite round_half_even_inject_Z. apply Qmult_0_l.
Qed.

Lemma py_round_nonpos (x : Q) (n : Z) : x <= 0 -> py_round x n <= 0.
Proof.
  intros Hx. rewrite <- (py_round_zero n). now apply py_round_mono.
Qed.

(** Rounding twice to the same number of places changes nothing. *)
Lemma py_round_idem (x : Q) (n : Z) : py_round (py_round x n) n = py_round x n.
Proof.
  unfold py_round at 1 3.
  assert (Hp : 0 < 10 ^ n) by (now apply Qpower_0_lt).
  rewrite (round_half_even_comp (py_round x n * 10 ^ n)
             (inject_Z (round_half_even (x * 10 ^ n)))).
  - now rewrite round_half_even_inject_Z.
  - unfold py_round. field. intros H0. rewrite H0 in Hp.
    exact (Qlt_irrefl _ Hp).
Qed.

(** *** Rounding to binary64 and the power *)

Lemma Qabs_of_pos (x : Q) : 0 < x -> Qabs x = x.
Proof.
  destruct x as [p q]. unfold Qlt. cbn. intros Hp.
  rewrite Z.abs_eq by lia. reflexivity.
Qed.

Lemma two_power_pos (e : Z) : 0 < 2 ^ e.
Proof. now apply Qpower_0_lt. Qed.

(** [ilog2] never overshoots: [2 ^ ilog2 x <= x]. *)
Lemma ilog2_lower (x : Q) : 0 < x -> 2 ^ ilog2 x <= x.
Proof.
  intros Hx. unfold ilog2.
  set (d := (Z.log2 (Qnum x) - Z.log2 (Z.pos (Qden x)))%Z).
  destruct (Qle_bool (2 ^ d) x) eqn:E; [now apply Qle_bool_iff|].
  destruct x as [p q]. cbn [Qnum Qden] in d.
  assert (Hp : (0 < p)%Z) by (unfold Qlt in Hx; cbn in Hx; lia).
  pose proof (Z.log2_spec p Hp) as [Hlp _].
  pose proof (Z.log2_spec (Z.pos q) (Pos2Z.is_pos q)) as [_ Hlq].
  pose proof (Z.log2_nonneg p) as Hp0.
  pose proof (Z.log2_nonneg (Z.pos q)) as Hq0.
  replace (d - 1)%Z with (Z.log2 p - Z.succ (Z.log2 (Z.pos q)))%Z
    by (unfold d; lia).
  rewrite Qpower_minus by discriminate.
  change 2 with (inject_Z 2).
  rewrite <- !Zpower_Qpower by lia.
  set (A := (2 ^ Z.log2 p)%Z) in *.
  set (B := (2 ^ Z.succ (Z.log2 (Z.pos q)))%Z) in *.
  assert (HB : 0 < inject_Z B).
  { change 0 with (inject_Z 0). rewrite <- Zlt_Qlt. lia. }
  apply Qle_shift_div_r; [exact HB|].
  unfold Qle, Qmult, inject_Z. cbn [Qnum Qden].
  rewrite !Pos.mul_1_r, !Z.mul_1_r. nia.
Qed.

Lemma binary64_comp (x y : Q) : x == y -> binary64 x = binary64 y.
Proof.
  intros E. unfold binary64. now rewrite (Qred_complete _ _ E).
Qed.

Lemma binary64_nonneg (x : Q) : 0 <= x -> 0 <= binary64 x.
Proof.
  intros Hx. unfold binary64.
  destruct (Qeq_bool (Qred x) 0); [apply Qle_refl|].
  rewrite Qred_correct.
  set (e := Z.max _ _).
  apply Qmult_le_0_compat; [|apply Qlt_le_weak, two_power_pos].
  change 0 with (inject_Z 0). rewrite <- Zle_Qle.
  apply round_half_even_nonneg.
  apply Qle_shift_div_l; [apply two_power_pos|].
  rewrite Qmult_0_l, Qred_correct. exact Hx.
Qed.

(** Rounding never takes a number from [1] upwards below [1]. *)
Lemma binary64_ge_1 (x : Q) : 1 <= x -> 1 <= binary64 x.
Proof.
  intros Hx. unfold binary64.
  assert (Hr : 1 <= Qred x) by (now rewrite Qred_correct).
  assert (Hpos : 0 < Qred x) by (apply Qlt_le_trans with 1; [reflexivity|exact Hr]).
  destruct (Qeq_bool (Qred x) 0) eqn:E0.
  { apply Qeq_bool_eq in E0. rewrite E0 in Hpos. discriminate. }
  rewrite Qred_correct, (Qabs_of_pos _ Hpos).
  set (e := Z.max (ilog2 (Qred x) - 52) (-1074)).
  pose proof (two_power_pos e) as He.
  assert (Hn : exists N : Z,
             inject_Z N <= Qred x / 2 ^ e /\ 1 <= inject_Z N * 2 ^ e).
  { destruct (Z_le_gt_dec e 0) as [Hle|Hgt].
    - exists (2 ^ (- e))%Z.
      assert (EN : inject_Z (2 ^ (- e)) == / 2 ^ e).
      { rewrite Zpower_Qpower by lia. change (inject_Z 2) with 2.
        apply Qpower_opp. }
      split.
      + rewrite EN. unfold Qdiv. rewrite <- (Qmult_1_l (/ 2 ^ e)) at 1.
        apply Qmult_le_compat_r; [exact Hr|].
        apply Qlt_le_weak, Qinv_lt_0_compat, He.
      + rewrite EN. rewrite Qmult_comm, Qmult_inv_r; [apply Qle_refl|].
        intros H0. rewrite H0 in He. discriminate.
    - exists 1%Z.
      assert (He1 : 1 <= 2 ^ e) by (apply Qpower_1_le; [discriminate|lia]).
      split.
      + apply Qle_shift_div_l; [exact He|]. rewrite Qmult_1_l.
        apply Qle_trans with (2 ^ ilog2 (Qred x)); [|now apply ilog2_lower].
        apply Qpower_le_compat_l; [unfold e; lia|discriminate].
      + rewrite Qmult_1_l. exact He1. }
  destruct Hn as (N & HN1 & HN2).
  apply Qle_trans with (inject_Z N * 2 ^ e); [exact HN2|].
  apply Qmult_le_compat_r; [|now apply Qlt_le_weak].
  rewrite <- Zle_Qle. rewrite <- (round_half_even_inject_Z N).
  now apply round_half_even_mono.
Qed.

Lemma binary64_1 : binary64 1 = 1.
Proof. vm_compute. reflexivity. Qed.

(** What [py_pow] returns, when it returns. *)
Lemma py_pow_inv (x : Q) (n : Z) (g : Q) :
  py_pow x n = Ok g ->
  g = binary64 (binary64 x ^ n) /\ Qabs g < FLOAT_OVERFLOW.
Proof.
  unfold py_pow.
  destruct ((n <? 0)%Z && Qeq_bool (binary64 x) 0); [discriminate|].
  destruct (Qle_bool FLOAT_OVERFLOW (Qabs (binary64 (binary64 x ^ n)))) eqn:E;
    [discriminate|].
  intros H. injection H as <-. split; [reflexivity|].
  apply Qnot_le_lt. intros Hle. apply Qle_bool_iff in Hle. congruence.
Qed.


(** [1.0 ** n] is [1.0]. *)
Lemma py_pow_one (x : Q) (n : Z) : x == 1 -> py_pow x n = Ok 1.
Proof.
  intros E. unfold py_pow.
  rewrite (binary64_comp x 1 E), binary64_1.
  change (Qeq_bool 1 0) with false. rewrite andb_false_r.
  rewrite (binary64_comp (1 ^ n) 1 (Qpower_1 n)), binary64_1.
  reflexivity.
Qed.

(** A base from [1.0] upwards with a non-negative exponent gives at
    least [1.0]. *)
Lemma py_pow_ge_1 (x : Q) (n : Z) (g : Q) :
  1 <= x -> (0 <= n)%Z -> py_pow x n = Ok g -> 1 <= g.
Proof.
  intros Hx Hn Hg. apply py_pow_inv in Hg as [-> _].
  apply binary64_ge_1, Qpower_1_le; [|exact Hn].
  now apply binary64_ge_1.
Qed.

(** An even power is never negative. *)
Lemma py_pow_even_nonneg (x : Q) (n : Z) (g : Q) :
  Z.even n = true -> py_pow x n = Ok g -> 0 <= g.
Proof.
  intros Hn Hg. apply py_pow_inv in Hg as [-> _].
  apply binary64_nonneg.
  apply Z.even_spec in Hn as [k ->].
  rewrite Z.mul_comm, Qpower_mult. apply Qsqr_nonneg.
Qed.

End PyNumFacts.

(** ** Facts about retirement_tracker.py *)

Import Retirement.

Section RetirementFacts.
Local Open Scope Q_scope.

Lemma project_future_value_elapsed (c mc : Q) (y : Z) (ar : Q) :
  (y <= 0)%Z -> _project_future_value c mc y ar = Ok c.
Proof.
  intros Hy. unfold _project_future_value.
  destruct (y <=? 0)%Z eqn:E; [reflexivity|].
  apply Z.leb_gt in E. lia.
Qed.

Lemma calculate_monthly_needed_elapsed (c t : Q) (y : Z) (ar : Q) :
  (y <= 0)%Z -> _calculate_monthly_needed c t y ar = Ok (py_max 0 (t - c)).
Proof.
  intros Hy. unfold _calculate_monthly_needed.
  destruct (y <=? 0)%Z eqn:E; [reflexivity|].
  apply Z.leb_gt in E. lia.
Qed.

Lemma inject_Z_months_pos (y : Z) : (0 < y)%Z -> 0 < inject_Z (y * 12).
Proof.
  intros Hy. change 0 with (inject_Z 0). rewrite <- Zlt_Qlt. lia.
Qed.

(** With years remaining, [_project_future_value] is the power followed
    by the two terms of the code. *)
Lemma project_future_value_running (c mc : Q) (y : Z) (ar : Q) :
  (0 < y)%Z ->
  _project_future_value c mc y ar =
  (let* g := py_pow (1 + binary64 (ar / 12)) (y * 12) in
   Ok (c * g +
       (if py_gt (binary64 (ar / 12)) 0 && py_gt mc 0
        then mc * ((g - 1) / (binary64 (ar / 12)))
        else mc * inject_Z (y * 12)))).
Proof.
  intros Hy. unfold _project_future_value.
  destruct (y <=? 0)%Z eqn:E; [apply Z.leb_le in E; lia|].
  rewrite py_div_float_12. cbn [rbind].
  destruct (py_pow (1 + binary64 (ar / 12)) (y * 12)) as [g|e]; cbn [rbind]; [|reflexivity].
  destruct (py_gt (binary64 (ar / 12)) 0) eqn:Er; cbn [andb]; [|reflexivity].
  destruct (py_gt mc 0) eqn:Em; [|reflexivity].
  apply py_gt_true in Er.
  rewrite py_div_ok; [reflexivity|].
  intros H0. rewrite H0 in Er. exact (Qlt_irrefl _ Er).
Qed.

(** With years remaining, [_calculate_monthly_needed] is the power
    followed by the three branches of the code; the only division that
    can fail is the one by [growth - 1]. *)
Lemma calculate_monthly_needed_running (c t : Q) (y : Z) (ar : Q) :
  (0 < y)%Z ->
  _calculate_monthly_needed c t y ar =
  (let* g := py_pow (1 + binary64 (ar / 12)) (y * 12) in
   if py_le (t - c * g) 0 then Ok 0
   else if py_gt (binary64 (ar / 12)) 0
        then py_div ((t - c * g) * (binary64 (ar / 12))) (g - 1)
        else Ok ((t - c * g) / inject_Z (y * 12))).
Proof.
  intros Hy. unfold _calculate_monthly_needed.
  destruct (y <=? 0)%Z eqn:E; [apply Z.leb_le in E; lia|].
  rewrite py_div_float_12. cbn [rbind].
  destruct (py_pow (1 + binary64 (ar / 12)) (y * 12)) as [g|e]; cbn [rbind]; [|reflexivity].
  destruct (py_le (t - c * g) 0); [reflexivity|].
  destruct (py_gt (binary64 (ar / 12)) 0); [reflexivity|].
  apply py_div_ok. intros H0.
  pose proof (inject_Z_months_pos y Hy) as Hm. rewrite H0 in Hm.
  exact (Qlt_irrefl _ Hm).
Qed.



(** When the power returns a factor other than [1.0], or the rate is not
    positive, the monthly amount is computed. *)
Lemma calculate_monthly_needed_returns (c t : Q) (y : Z) (ar g : Q) :
  (0 < y)%Z ->
  py_pow (1 + binary64 (ar / 12)) (y * 12) = Ok g ->
  (0 < binary64 (ar / 12) -> ~ g == 1) ->
  exists mn, _calculate_monthly_needed c t y ar = Ok mn.
Proof.
  intros Hy Hg Hne. rewrite calculate_monthly_needed_running by exact Hy.
  rewrite Hg. cbn [rbind].
  destruct (py_le _ 0); [eauto|].
  destruct (py_gt (binary64 (ar / 12)) 0) eqn:Er; [|eauto].
  apply py_gt_true in Er. rewrite py_div_ok; [eauto|].
  intros H0. apply (Hne Er). lra.
Qed.

(** [calculate_progress] builds its record from the two helper results. *)
Lemma calculate_progress_run (config : RetirementConfig) (v pv mn : Q) :
  ~ target_amount config == 0 ->
  _project_future_value v (monthly_contribution config)
    (years_left config) (assumed_annual_return config) = Ok pv ->
  _calculate_monthly_needed v (target_amount config)
    (years_left config) (assumed_annual_return config) = Ok mn ->
  calculate_progress config v =
  Ok (mkRetirementProgress
        (py_round v 2)
        (py_round (target_amount config) 2)
        (py_round (v / target_amount config * 100) 1)
        (years_left config)
        (py_round (py_max 0 mn) 2)
        (py_ge pv (target_amount config))
        (py_round pv 2)
        (py_round (pv - target_amount config) 2)).
Proof.
  intros Ht Hpv Hmn. unfold calculate_progress. fold (years_left config).
  rewrite py_div_ok by exact Ht. cbn [rbind].
  rewrite Hpv, Hmn. reflexivity.
Qed.

(** Every record it returns was built that way. *)
Lemma calculate_progress_inv (config : RetirementConfig) (v : Q)
    (res : RetirementProgress) :
  calculate_progress config v = Ok res ->
  exists pv mn,
    ~ target_amount config == 0 /\
    _project_future_value v (monthly_contribution config)
      (years_left config) (assumed_annual_return config) = Ok pv /\
    _calculate_monthly_needed v (target_amount config)
      (years_left config) (assumed_annual_return config) = Ok mn /\
    res = mkRetirementProgress
            (py_round v 2)
            (py_round (target_amount config) 2)
            (py_round (v / target_amount config * 100) 1)
            (years_left config)
            (py_round (py_max 0 mn) 2)
            (py_ge pv (target_amount config))
            (py_round pv 2)
            (py_round (pv - target_amount config) 2).
Proof.
  unfold calculate_progress. fold (years_left config). unfold py_div.
  destruct (Qeq_bool (target_amount config) 0) eqn:Et; [discriminate|].
  cbn [rbind].
  destruct (_project_future_value _ _ _ _) as [pv|]; [|discriminate].
  cbn [rbind].
  destruct (_calculate_monthly_needed _ _ _ _) as [mn|]; [|discriminate].
  cbn [rbind]. intros H. injection H as <-.
  exists pv, mn. split; [|auto].
  intros H0. apply Qeq_eq_bool in H0. congruence.
Qed.


(** [calculate_progress] returns whenever the target is not zero and
    either no years remain or the power returns a growth factor that,
    for a positive rate, is not [1.0]. *)
Lemma calculate_progress_returns (config : RetirementConfig) (v : Q) :
  ~ target_amount config == 0 ->
  (years_left config = 0%Z \/
   exists g, py_pow (1 + float_monthly_return config) (months_left config)
             = Ok g /\
             (0 < float_monthly_return config -> ~ g == 1)) ->
  exists pv mn,
    _project_future_value v (monthly_contribution config)
      (years_left config) (assumed_annual_return config) = Ok pv /\
    _calculate_monthly_needed v (target_amount config)
      (years_left config) (assumed_annual_return config) = Ok mn /\
    calculate_progress config v =
    Ok (mkRetirementProgress
          (py_round v 2)
          (py_round (target_amount config) 2)
          (py_round (v / target_amount config * 100) 1)
          (years_left config)
          (py_round (py_max 0 mn) 2)
          (py_ge pv (target_amount config))
          (py_round pv 2)
          (py_round (pv - target_amount config) 2)).
Proof.
  intros Ht Hcase.
  assert (H : exists pv mn,
            _project_future_value v (monthly_contribution config)
              (years_left config) (assumed_annual_return config) = Ok pv /\
            _calculate_monthly_needed v (target_amount config)
              (years_left config) (assumed_annual_return config) = Ok mn).
  { destruct (Z_le_gt_dec (years_left config) 0) as [Hy|Hy].
    - rewrite project_future_value_elapsed, calculate_monthly_needed_elapsed
        by exact Hy. eauto.
    - destruct Hcase as [H0|(g & Hg & Hne)]; [lia|].
      unfold float_monthly_return, months_left in *.
      destruct (calculate_monthly_needed_returns v (target_amount config)
                  (years_left config) (assumed_annual_return config) g)
        as [mn Hmn]; [lia|exact Hg|exact Hne|].
      rewrite project_future_value_running by lia.
      rewrite Hg. cbn [rbind]. eauto. }
  destruct H as (pv & mn & Hpv & Hmn).
  exists pv, mn. split; [exact Hpv|]. split; [exact Hmn|].
  now apply calculate_progress_run.
Qed.

End RetirementFacts.

(** ** Properties of retirement_tracker.py *)

Section RetirementClaims.
Local Open Scope Q_scope.

Lemma years_left_elapsed (config : RetirementConfig) :
  years_left config = 0%Z <-> (target_age config <= current_age config)%Z.
Proof. unfold years_left. lia. Qed.

Lemma py_round_comp (x y : Q) (n : Z) : x == y -> py_round x n = py_round y n.
Proof.
  intros E. unfold py_round, round_half_even.
  assert (E' : x * 10 ^ n == y * 10 ^ n) by (now rewrite E).
  cbv zeta. rewrite (Qfloor_comp _ _ E').
  replace (Qcompare (x * 10 ^ n - inject_Z (Qfloor (y * 10 ^ n))) (1 # 2))
    with (Qcompare (y * 10 ^ n - inject_Z (Qfloor (y * 10 ^ n))) (1 # 2));
    [reflexivity|].
  apply Qcompare_comp; [now rewrite E' | reflexivity].
Qed.




(** A negative target does not protect against the arithmetic faults:
    with a positive return too small to move [1.0] and a current value
    below the target, the division by [growth - 1] raises. *)
Example negative_target_tiny_rate_raises :
  calculate_progress negative_target_tiny_rate_config (-5000)
  = Err ZeroDivisionError.
Proof. vm_compute. reflexivity. Qed.

(** C2 (as the code has it).  With years remaining, let [r] be the
    monthly return the code holds and [g] the growth factor the power
    [(1 + r) ** months] returns.  For a positive [r] and a non-negative
    contribution the value projected inside [calculate_progress] is
    [current * g + contribution * ((g - 1) / r)]: the annuity formula
    with the quotient and the power as the code computes them, hence
    the formula itself when both are exact, and the current value alone
    when the rate is too small to move [1.0].  For a rate that is not
    positive the guard [monthly_return > 0] sends the contributions
    through the linear branch.  Every returned record carries the
    projection rounded to two places, and a record is returned whenever
    the target is not zero and, for a positive rate, [g] is not [1.0]. *)
Theorem projection_positive_rate (config : RetirementConfig) (v g : Q) :
  (0 < years_left config)%Z ->
  py_pow (1 + float_monthly_return config) (months_left config) = Ok g ->
  exists fv,
    _project_future_value v (monthly_contribution config)
      (years_left config) (assumed_annual_return config) = Ok fv /\
    (0 < float_monthly_return config -> 0 <= monthly_contribution config ->
       fv == v * g
             + monthly_contribution config
               * ((g - 1) / float_monthly_return config) /\
       (float_monthly_return config == monthly_rate config ->
        g == (1 + monthly_rate config) ^ months_left config ->
          fv == annuity_future_value v (monthly_contribution config)
                  (monthly_rate config) (months_left config)) /\
       (g == 1 -> fv == v)) /\
    (float_monthly_return config <= 0 ->
       fv == v * g
             + monthly_contribution config * inject_Z (months_left config)) /\
    (forall res, calculate_progress config v = Ok res ->
       projected_value res = py_round fv 2) /\
    (~ target_amount config == 0 ->
     (0 < float_monthly_return config -> ~ g == 1) ->
     exists res, calculate_progress config v = Ok res /\
                 projected_value res = py_round fv 2).
Proof.
  intros Hy Hg.
  pose proof (project_future_value_running v (monthly_contribution config)
                (years_left config) (assumed_annual_return config) Hy) as Hrun.
  unfold float_monthly_return, months_left in *.
  set (r := binary64 (assumed_annual_return config / 12)) in *.
  rewrite Hg in Hrun. cbn [rbind] in Hrun.
  eexists. split; [exact Hrun|].
  split; [|split; [|split]].
  - intros Hr Hmc.
    assert (Hfv : v * g +
                  (if py_gt r 0 && py_gt (monthly_contribution config) 0
                   then monthly_contribution config * ((g - 1) / r)
                   else monthly_contribution config
                        * inject_Z (years_left config * 12))
                  == v * g + monthly_contribution config * ((g - 1) / r)).
    { apply py_gt_true in Hr. rewrite Hr. cbn [andb].
      destruct (py_gt (monthly_contribution config) 0) eqn:Em; [reflexivity|].
      apply py_gt_false in Em.
      assert (E0 : monthly_contribution config == 0) by (now apply Qle_antisym).
      rewrite E0. ring. }
    split; [exact Hfv|]. split.
    + intros Er Eg. rewrite Hfv. unfold annuity_future_value.
      now rewrite Eg, Er.
    + intros E1. rewrite Hfv, E1. unfold Qdiv. ring.
  - intros Hr. apply py_gt_false in Hr. rewrite Hr. reflexivity.
  - intros res Hres.
    apply calculate_progress_inv in Hres as (pv & mn & _ & Hpv & _ & ->).
    rewrite Hrun in Hpv. injection Hpv as <-. reflexivity.
  - intros Ht Hne.
    destruct (calculate_progress_returns config v Ht) as (pv & mn & Hpv & _ & Hres).
    { right. exists g. auto. }
    rewrite Hrun in Hpv. injection Hpv as <-.
    eexists. split; [exact Hres|reflexivity].
Qed.

Lemma projection_positive_rate_witness :
  (0 < years_left doubling_config)%Z /\
  py_pow (1 + float_monthly_return doubling_config)
    (months_left doubling_config) = Ok 4096 /\
  exists fv,
    _project_future_value 1000 (monthly_contribution doubling_config)
      (years_left doubling_config) (assumed_annual_return doubling_config)
    = Ok fv /\
    fv == 4505500 /\
    fv == annuity_future_value 1000 (monthly_contribution doubling_config)
            (monthly_rate doubling_config) (months_left doubling_config) /\
    exists res, calculate_progress doubling_config 1000 = Ok res /\
                projected_value res = py_round fv 2.
Proof.
  split; [reflexivity|]. split; [vm_compute; reflexivity|].
  destruct (projection_positive_rate doubling_config 1000 4096)
    as (fv & Hfv & Hpos & _ & _ & Hres).
  - reflexivity.
  - vm_compute. reflexivity.
  - exists fv. split; [exact Hfv|].
    destruct Hpos as (Hval & Hformula & _).
    + vm_compute. reflexivity.
    + vm_compute. discriminate.
    + split; [rewrite Hval; vm_compute; reflexivity|].
      split; [apply Hformula; vm_compute; reflexivity|].
      apply Hres.
      * vm_compute. discriminate.
      * intros _ H. vm_compute in H. discriminate.
Defined.

(** C2 does not hold as stated: at a rate of -1% a month, one year of
    contributions of 100 is projected as 1200, where the annuity formula
    gives about 1136.15. *)
Lemma negative_rate_is_not_annuity_formula :
  ~ projection_is_annuity_formula negative_rate_config 0 /\
  forall res, calculate_progress negative_rate_config 0 = Ok res ->
    projected_value res == 1200 /\
    ~ projected_value res
      == py_round (annuity_future_value 0
                     (monthly_contribution negative_rate_config)
                     (monthly_rate negative_rate_config)
                     (months_left negative_rate_config)) 2.
Proof.
  split.
  - intros H.
    destruct H as (fv & res & Hfv & Heq & _).
    + reflexivity.
    + vm_compute. discriminate.
    + vm_compute in Hfv. injection Hfv as <-.
      vm_compute in Heq. discriminate.
  - intros res Hres. vm_compute in Hres. injection Hres as <-.
    split; [reflexivity|]. vm_compute. discriminate.
Qed.

(** The annuity formula does not describe tiny positive rates either:
    when [1 + r] is [1.0] the contributions drop out of the projection,
    and the monthly amount cannot be computed for a target that is still
    ahead. *)
Example tiny_rate_projection :
  (exists fv, _project_future_value 1000 100 1 (1 # 100000000000000000) = Ok fv
              /\ fv == 1000) /\
  calculate_progress tiny_rate_config 0 = Err ZeroDivisionError /\
  calculate_progress overflowing_config 1000 = Err OverflowError.
Proof.
  split; [|split; vm_compute; reflexivity].
  eexists. split; vm_compute; reflexivity.
Qed.

(** C3 (as the code has it).  At or past the target age and with a
    non-zero target, the helpers return [current] and
    [max(0, target - current)] unchanged, and [calculate_progress]
    reports both rounded to two places: [projected_value] is
    [round(current, 2)], which is the reported [current_value], and
    [monthly_needed] is [round(max(0, target - current), 2)]. *)
Theorem calculate_progress_at_target_age (config : RetirementConfig) (v : Q) :
  years_left config = 0%Z ->
  ~ target_amount config == 0 ->
  _project_future_value v (monthly_contribution config)
    (years_left config) (assumed_annual_return config) = Ok v /\
  _calculate_monthly_needed v (target_amount config)
    (years_left config) (assumed_annual_return config)
    = Ok (py_max 0 (target_amount config - v)) /\
  exists res,
    calculate_progress config v = Ok res /\
    projected_value res = py_round v 2 /\
    projected_value res = current_value res /\
    monthly_needed res = py_round (py_max 0 (target_amount config - v)) 2.
Proof.
  intros Hy Ht.
  destruct (calculate_progress_returns config v Ht)
    as (pv & mn & Hpv & Hmn & Hrun); [now left|].
  rewrite Hpv, Hmn.
  rewrite project_future_value_elapsed in Hpv by lia.
  rewrite calculate_monthly_needed_elapsed in Hmn by lia.
  injection Hpv as <-. injection Hmn as <-.
  split; [reflexivity|]. split; [reflexivity|].
  eexists. split; [exact Hrun|]. cbn.
  rewrite py_max_0_idem. auto.
Qed.

Lemma calculate_progress_at_target_age_witness :
  years_left at_target_age_config = 0%Z /\
  ~ target_amount at_target_age_config == 0 /\
  exists res,
    calculate_progress at_target_age_config (6 # 1000) = Ok res /\
    projected_value res = py_round (6 # 1000) 2 /\
    projected_value res = current_value res /\
    monthly_needed res
    = py_round (py_max 0 (target_amount at_target_age_config - (6 # 1000))) 2.
Proof.
  split; [reflexivity|]. split; [vm_compute; discriminate|].
  apply (calculate_progress_at_target_age at_target_age_config (6 # 1000)).
  - reflexivity.
  - vm_compute; discriminate.
Defined.

(** C3 does not hold as stated: with target 1.004 and current value
    0.006 at the target age, the record holds [projected_value = 0.01]
    and [monthly_needed = 1.00], neither the supplied 0.006 nor
    [max(0, 1.004 - 0.006) = 0.998]; [monthly_needed] also differs from
    the difference of the reported amounts, [1.00 - 0.01]. *)
Lemma at_target_age_values_are_rounded :
  ~ returns_unrounded_at_target_age at_target_age_config (6 # 1000) /\
  forall res, calculate_progress at_target_age_config (6 # 1000) = Ok res ->
    ~ monthly_needed res
      == py_max 0 (progress_target_amount res - current_value res).
Proof.
  split.
  - intros H. destruct H as (res & Hres & Hpv & _); [reflexivity|].
    vm_compute in Hres. injection Hres as <-.
    vm_compute in Hpv. discriminate.
  - intros res Hres. vm_compute in Hres. injection Hres as <-.
    vm_compute. discriminate.
Qed.

(** C6.  With a zero assumed return, a positive contribution, years
    remaining and a non-zero target, the value projected inside
    [calculate_progress] is
    [current_value + monthly_contribution * years_remaining * 12], and the
    returned record carries it rounded to two places. *)
Theorem projection_zero_return (config : RetirementConfig) (v : Q) :
  assumed_annual_return config == 0 ->
  0 < monthly_contribution config ->
  (0 < years_left config)%Z ->
  ~ target_amount config == 0 ->
  exists fv res,
    _project_future_value v (monthly_contribution config)
      (years_left config) (assumed_annual_return config) = Ok fv /\
    fv == v + monthly_contribution config * inject_Z (years_left config) * 12 /\
    calculate_progress config v = Ok res /\
    projected_value res = py_round fv 2 /\
    projected_value res
    = py_round (v + monthly_contribution config
                    * inject_Z (years_left config) * 12) 2.
Proof.
  intros Har Hmc Hy Ht.
  assert (Hr : binary64 (assumed_annual_return config / 12) = 0).
  { rewrite (binary64_comp _ 0); [reflexivity|]. rewrite Har. reflexivity. }
  assert (Hg : py_pow (1 + binary64 (assumed_annual_return config / 12))
                 (years_left config * 12) = Ok 1).
  { apply py_pow_one. rewrite Hr. reflexivity. }
  destruct (calculate_progress_returns config v Ht)
    as (pv & mn & Hpv & _ & Hrun).
  { right. exists 1. split; [exact Hg|].
    unfold float_monthly_return. rewrite Hr. intros Hpos.
    exfalso. exact (Qlt_irrefl _ Hpos). }
  assert (Hfv : pv == v + monthly_contribution config
                         * inject_Z (years_left config) * 12).
  { rewrite project_future_value_running in Hpv by exact Hy.
    rewrite Hg in Hpv. cbn [rbind] in Hpv.
    injection Hpv as <-. rewrite Hr.
    change (py_gt 0 0) with false. cbn [andb].
    rewrite inject_Z_mult. change (inject_Z 12) with 12. ring. }
  exists pv. eexists. split; [exact Hpv|]. split; [exact Hfv|].
  split; [exact Hrun|]. split; [reflexivity|].
  cbn. now apply py_round_comp.
Qed.

Lemma projection_zero_return_witness :
  assumed_annual_return zero_return_config == 0 /\
  0 < monthly_contribution zero_return_config /\
  (0 < years_left zero_return_config)%Z /\
  ~ target_amount zero_return_config == 0 /\
  exists fv res,
    _project_future_value 1000 (monthly_contribution zero_return_config)
      (years_left zero_return_config)
      (assumed_annual_return zero_return_config) = Ok fv /\
    fv == 1000 + monthly_contribution zero_return_config
                 * inject_Z (years_left zero_return_config) * 12 /\
    calculate_progress zero_return_config 1000 = Ok res /\
    projected_value res = py_round fv 2 /\
    projected_value res
    = py_round (1000 + monthly_contribution zero_return_config
                       * inject_Z (years_left zero_return_config) * 12) 2.
Proof.
  split; [reflexivity|]. split; [reflexivity|]. split; [reflexivity|].
  split; [vm_compute; discriminate|].
  apply (projection_zero_return zero_return_config 1000).
  - reflexivity.
  - reflexivity.
  - reflexivity.
  - vm_compute; discriminate.
Defined.

(** C8.  A config constructed with [birth_year] set has
    [current_age = now.year - birth_year], whatever [current_age] was
    supplied; without [birth_year] the supplied [current_age] is kept. *)
Theorem post_init_current_age (now_year : Z) (ta : Q) (tage cage : Z)
    (mc ar : Q) (born : Z) :
  current_age (new_RetirementConfig now_year ta tage cage mc ar (Some born))
  = (now_year - born)%Z /\
  current_age (new_RetirementConfig now_year ta tage cage mc ar None) = cage /\
  new_RetirementConfig now_year ta tage cage mc ar None
  = mkRetirementConfig ta tage cage mc ar None.
Proof. repeat split. Qed.

(** C9.  Every record [calculate_progress] returns has a
    [monthly_needed] that is [round(max(0, m), 2)] for the helper's
    result [m], and is never negative, whatever the rate and the current
    value.  A record is returned whenever the target is not zero and
    either no years remain or the power returns a growth factor that,
    for a positive rate, is not [1.0]. *)
Theorem monthly_needed_nonneg (config : RetirementConfig) (v : Q) :
  (forall res, calculate_progress config v = Ok res ->
     exists mn,
       _calculate_monthly_needed v (target_amount config)
         (years_left config) (assumed_annual_return config) = Ok mn /\
       monthly_needed res = py_round (py_max 0 mn) 2 /\
       0 <= monthly_needed res) /\
  (~ target_amount config == 0 ->
   (years_left config = 0%Z \/
    exists g, py_pow (1 + float_monthly_return config) (months_left config)
              = Ok g /\
              (0 < float_monthly_return config -> ~ g == 1)) ->
   exists res, calculate_progress config v = Ok res).
Proof.
  split.
  - intros res Hres.
    apply calculate_progress_inv in Hres as (pv & mn & _ & _ & Hmn & ->).
    exists mn. split; [exact Hmn|]. split; [reflexivity|]. cbn.
    apply py_round_nonneg, py_max_0_nonneg.
  - intros Ht Hcase.
    destruct (calculate_progress_returns config v Ht Hcase)
      as (pv & mn & _ & _ & Hrun).
    eauto.
Qed.

Lemma monthly_needed_nonneg_witness :
  exists res,
    calculate_progress negative_return_config (-1000) = Ok res /\
    0 <= monthly_needed res.
Proof.
  destruct (proj2 (monthly_needed_nonneg negative_return_config (-1000)))
    as [res Hres].
  - vm_compute. discriminate.
  - right. eexists. split; [vm_compute; reflexivity|].
    intros Hpos. vm_compute in Hpos. discriminate.
  - exists res. split; [exact Hres|].
    destruct (proj1 (monthly_needed_nonneg negative_return_config (-1000))
                res Hres) as (mn & _ & _ & Hnn).
    exact Hnn.
Defined.

End RetirementClaims.

Local Open Scope Q_scope.


(** ** Properties of snapshot_service.py *)

Import Snapshot.

Section SnapshotClaims.
Variable float_of_str : string -> result Q.
Local Open Scope Q_scope.

Lemma from_dict_to_dict_id (s : PortfolioSnapshot) :
  from_dict float_of_str (to_dict s) = Ok s.
Proof.
  destruct s as [a t e c].
  unfold from_dict, to_dict, getitem. cbn [account_number timestamp equity cash].
  rewrite lookup_insert_eq. cbn [rbind].
  rewrite lookup_insert_ne by done. rewrite lookup_insert_eq. cbn [rbind].
  do 2 rewrite lookup_insert_ne by done. rewrite lookup_insert_eq.
  cbn [rbind py_float].
  do 3 rewrite lookup_insert_ne by done. rewrite lookup_insert_eq.
  reflexivity.
Qed.

(** What a successful [save_snapshot] stored, read back by
    [get_snapshot] for the day of the timestamp. *)
Lemma get_snapshot_after_save (svc svc' : SnapshotService) (now : datetime)
    (acct : string) (e c : Q) (ts : option datetime) :
  save_snapshot svc now acct e c ts = (svc', true) ->
  get_snapshot float_of_str svc' acct (dt_date (default now ts))
  = Some (mkPortfolioSnapshot (JStr acct)
            (JStr (isoformat (default now ts))) e c).
Proof.
  unfold save_snapshot, get_snapshot, put_object, get_object.
  change (match ts with Some t => t | None => now end) with (default now ts).
  destruct (reachable (s3 svc)) eqn:Hr; cbn [rbind catch]; [|discriminate].
  intros H. injection H as <-. cbn [s3 bucket reachable objects].
  rewrite lookup_insert_eq. cbn [rbind json_dumps json_loads].
  rewrite from_dict_to_dict_id. reflexivity.
Qed.

(** C10.  [from_dict(s.to_dict())] is a snapshot with the account
    number, timestamp, equity and cash of [s]. *)
Theorem from_dict_to_dict (s : PortfolioSnapshot) :
  exists s',
    from_dict float_of_str (to_dict s) = Ok s' /\
    account_number s' = account_number s /\
    timestamp s' = timestamp s /\
    equity s' = equity s /\
    cash s' = cash s.
Proof.
  exists s. rewrite from_dict_to_dict_id. auto.
Qed.

(** C5.  After two saves for the same account and the same day, the
    second of which the store accepted, [get_snapshot] for that day
    returns the snapshot of the second save; when the saved amounts
    differ, what it returns is not the first save's amounts. *)
Theorem save_twice_get_latest (svc svc1 svc2 : SnapshotService)
    (now1 now2 : datetime) (acct : string) (e1 c1 e2 c2 : Q)
    (ts1 ts2 : option datetime) (ok1 : bool) :
  dt_date (default now1 ts1) = dt_date (default now2 ts2) ->
  save_snapshot svc now1 acct e1 c1 ts1 = (svc1, ok1) ->
  save_snapshot svc1 now2 acct e2 c2 ts2 = (svc2, true) ->
  get_snapshot float_of_str svc2 acct (dt_date (default now1 ts1))
  = Some (mkPortfolioSnapshot (JStr acct)
            (JStr (isoformat (default now2 ts2))) e2 c2) /\
  (~ (e1 == e2 /\ c1 == c2) ->
   forall r, get_snapshot float_of_str svc2 acct (dt_date (default now1 ts1)) = Some r ->
     ~ (equity r == e1 /\ cash r == c1)).
Proof.
  intros Hday _ H2.
  rewrite Hday, (get_snapshot_after_save _ _ _ _ _ _ _ H2).
  split; [reflexivity|].
  intros Hdiff r Hr. injection Hr as <-. cbn.
  intros [He Hc]. apply Hdiff. split; symmetry; assumption.
Qed.

(** C4.  [calculate_period_change] never raises; it returns [None]
    exactly when one of the two snapshots is absent; when both are there
    it returns the equity difference and the percentage of the start
    equity, or 0 when the start equity is not positive.  A missing
    [end_date] stands for today. *)
Theorem calculate_period_change_spec (svc : SnapshotService) (today : date)
    (acct : string) (start_date end_date : date) :
  let start_snapshot := get_snapshot float_of_str svc acct start_date in
  let end_snapshot := get_snapshot float_of_str svc acct end_date in
  let outcome :=
    calculate_period_change float_of_str svc today acct start_date (Some end_date) in
  (forall e, outcome <> Err e) /\
  (outcome = Ok None <-> start_snapshot = None \/ end_snapshot = None) /\
  (forall st en, start_snapshot = Some st -> end_snapshot = Some en ->
     exists pc,
       outcome = Ok (Some pc) /\
       change_dollars pc = equity en - equity st /\
       start_equity pc = equity st /\
       end_equity pc = equity en /\
       (0 < equity st ->
          change_percent pc = (equity en - equity st) / equity st * 100) /\
       (equity st <= 0 -> change_percent pc = 0)) /\
  calculate_period_change float_of_str svc today acct start_date None
  = calculate_period_change float_of_str svc today acct start_date (Some today).
Proof.
  cbv zeta. unfold calculate_period_change.
  destruct (get_snapshot float_of_str svc acct start_date) as [st|];
    destruct (get_snapshot float_of_str svc acct end_date) as [en|];
    try (repeat split; try discriminate; try tauto; auto;
         intros [?|?]; discriminate).
  assert (Hrun :
    exists p,
      (if py_gt (equity st) 0
       then let* ratio := py_div (equity en - equity st) (equity st) in
            Ok (ratio * 100)
       else Ok 0) = Ok p /\
      (0 < equity st -> p = (equity en - equity st) / equity st * 100) /\
      (equity st <= 0 -> p = 0)).
  { destruct (py_gt (equity st) 0) eqn:E.
    - apply py_gt_true in E.
      rewrite py_div_ok.
      + eexists. split; [reflexivity|]. split; [reflexivity|].
        intros Hle. exfalso. exact (Qlt_not_le _ _ E Hle).
      + intros H0. rewrite H0 in E. exact (Qlt_irrefl _ E).
    - apply py_gt_false in E.
      exists 0. split; [reflexivity|]. split; [|reflexivity].
      intros Hlt. exfalso. exact (Qlt_not_le _ _ Hlt E). }
  destruct Hrun as (p & Hp & Hpos & Hnonpos). rewrite Hp. cbn [rbind].
  repeat split; try discriminate.
  - intros [?|?]; discriminate.
  - intros st' en' Hst Hen. injection Hst as <-. injection Hen as <-.
    eexists. split; [reflexivity|]. cbn. auto.
Qed.

End SnapshotClaims.

Lemma save_twice_get_latest_witness :
  dt_date (default (at_time 2024 2 1 9 0) None)
  = dt_date (default (at_time 2024 2 1 8 0) (Some (at_time 2024 2 1 17 30))) /\
  save_snapshot service_after_january (at_time 2024 2 1 9 0) "A1" 10400 60 None
  = (service_after_morning, true) /\
  save_snapshot service_after_morning (at_time 2024 2 1 8 0) "A1" 10500 75
    (Some (at_time 2024 2 1 17 30))
  = (service_after_evening, true) /\
  get_snapshot no_float service_after_evening "A1" (mkDate 2024 2 1)
  = Some (mkPortfolioSnapshot (JStr "A1") (JStr "2024-02-01T17:30:00") 10500 75).
Proof.
  split; [reflexivity|]. split; [reflexivity|]. split; [reflexivity|].
  apply (save_twice_get_latest no_float service_after_january
           service_after_morning service_after_evening
           (at_time 2024 2 1 9 0) (at_time 2024 2 1 8 0) "A1"
           10400 60 10500 75 None (Some (at_time 2024 2 1 17 30)) true);
    reflexivity.
Defined.

Lemma calculate_period_change_spec_witness :
  get_snapshot no_float service_after_evening "A1" (mkDate 2024 1 1)
  = Some (mkPortfolioSnapshot (JStr "A1") (JStr "2024-01-01T09:00:00") 10000 50) /\
  get_snapshot no_float service_after_evening "A1" (mkDate 2024 2 1)
  = Some (mkPortfolioSnapshot (JStr "A1") (JStr "2024-02-01T17:30:00") 10500 75) /\
  exists pc,
    calculate_period_change no_float service_after_evening (mkDate 2024 2 1)
      "A1" (mkDate 2024 1 1) (Some (mkDate 2024 2 1)) = Ok (Some pc) /\
    change_dollars pc == 500 /\ change_percent pc == 5.
Proof.
  assert (Hst : get_snapshot no_float service_after_evening "A1" (mkDate 2024 1 1)
    = Some (mkPortfolioSnapshot (JStr "A1") (JStr "2024-01-01T09:00:00") 10000 50))
    by (vm_compute; reflexivity).
  assert (Hen : get_snapshot no_float service_after_evening "A1" (mkDate 2024 2 1)
    = Some (mkPortfolioSnapshot (JStr "A1") (JStr "2024-02-01T17:30:00") 10500 75))
    by (vm_compute; reflexivity).
  split; [exact Hst|]. split; [exact Hen|].
  destruct (calculate_period_change_spec no_float service_after_evening
              (mkDate 2024 2 1) "A1" (mkDate 2024 1 1) (mkDate 2024 2 1))
    as (_ & _ & Hboth & _).
  destruct (Hboth _ _ Hst Hen) as (pc & Hpc & Hd & _ & _ & Hp & _).
  exists pc. split; [exact Hpc|]. split.
  - rewrite Hd. reflexivity.
  - rewrite Hp; reflexivity.
Defined.

(** ** Properties of the period change in portfolio_analyzer.py *)

Import Client Analyzer.

Section AnalyzerClaims.
Variable float_of_str : string -> result Q.
Local Open Scope Q_scope.

Lemma ensure_logged_in_ok (c : RobinhoodClient) :
  _logged_in c = true -> _ensure_logged_in c = Ok tt.
Proof. unfold _ensure_logged_in. now intros ->. Qed.

Lemma portfolio_value_needs_login (c : RobinhoodClient) (acct : string)
    (pv : PortfolioValue) :
  get_portfolio_value_for_account c acct = Ok pv -> _logged_in c = true.
Proof.
  unfold get_portfolio_value_for_account, _ensure_logged_in.
  destruct (_logged_in c); [reflexivity|discriminate].
Qed.

(** The holdings tier as the analyzer sees it through
    [get_historical_portfolio_for_account]. *)
Lemma historical_is_holdings_tier (a : PortfolioAnalyzer) (acct span : string) :
  _logged_in (client a) = true ->
  get_historical_portfolio_for_account (client a) acct span
  = Ok (match holdings_tier a acct with
        | Some perf =>
            Some (mkHistorical (cost_basis perf) (perf_current_value perf)
                    (gain_loss_dollars perf) (gain_loss_percent perf)
                    (holdings_count perf) "holdings_based")
        | None => None
        end).
Proof.
  intros Hin. unfold get_historical_portfolio_for_account, holdings_tier.
  rewrite (ensure_logged_in_ok _ Hin). cbn [rbind].
  destruct (calculate_account_performance (client a) acct) as [[perf|]|e];
    reflexivity.
Qed.

(** The snapshot tier as [_calculate_period_change_from_snapshots]
    computes it for the two spans of the report. *)
Lemma from_snapshots_is_snapshot_tier (a : PortfolioAnalyzer) (today : date)
    (acct span : string) :
  span = "month" \/ span = "year" ->
  _calculate_period_change_from_snapshots float_of_str a today acct span
  = match snapshot_tier float_of_str a today acct span with
    | Some pc => Some (mkChange (change_dollars pc) (change_percent pc))
    | None => None
    end.
Proof.
  intros Hspan.
  unfold _calculate_period_change_from_snapshots, snapshot_tier, period_start.
  destruct Hspan as [-> | ->]; cbn [String.eqb Ascii.eqb Bool.eqb];
    (destruct (snapshot_service a) as [svc|]; cbn [rbind catch]; [|reflexivity];
     match goal with
     | |- context [calculate_period_change ?f ?s ?t ?ac ?st ?en] =>
         destruct (calculate_period_change f s t ac st en) as [[pc|]|e]
     end; reflexivity).
Qed.

Lemma period_change_for_account_run (a : PortfolioAnalyzer) (today : date)
    (acct span : string) :
  span = "month" \/ span = "year" ->
  _logged_in (client a) = true ->
  _calculate_period_change_for_account float_of_str a today acct span
  = Ok (three_tier_change float_of_str a today acct span).
Proof.
  intros Hspan Hin.
  unfold _calculate_period_change_for_account, three_tier_change.
  rewrite (from_snapshots_is_snapshot_tier _ _ _ _ Hspan).
  rewrite (historical_is_holdings_tier _ _ _ Hin). cbn [rbind].
  destruct (snapshot_service a) as [svc|] eqn:Hsvc.
  - destruct (snapshot_tier float_of_str a today acct span) as [pc|];
      [reflexivity|].
    destruct (holdings_tier a acct); reflexivity.
  - unfold snapshot_tier. rewrite Hsvc.
    destruct (holdings_tier a acct); reflexivity.
Qed.

(** C7.  For the spans [month] and [year] and an authenticated client,
    the period change of an account is the snapshot-based change from the
    first day of the month (or January 1) to today when there is one,
    otherwise the holdings-based change when there is one, otherwise
    zero, and no exception is raised.  Inside [_analyze_account] the only
    exception that can abort the account report is the one of the first
    portfolio fetch; once that fetch has succeeded the reported monthly
    and year-to-date changes are the three-tier changes, rounded. *)
Theorem period_change_three_tiers (a : PortfolioAnalyzer) (today : date)
    (acct span : string) :
  span = "month" \/ span = "year" ->
  (_logged_in (client a) = true ->
     _calculate_period_change_for_account float_of_str a today acct span
     = Ok (three_tier_change float_of_str a today acct span)) /\
  period_start today "month" = mkDate (year today) (month today) 1 /\
  period_start today "year" = mkDate (year today) 1 1 /\
  (forall (now : datetime) (account_type : string) (top_n : Z),
     let a' := fst (_analyze_account float_of_str a now acct account_type top_n) in
     match snd (_analyze_account float_of_str a now acct account_type top_n) with
     | Err e => get_portfolio_value_for_account (client a) acct = Err e
     | Ok report =>
         let monthly := three_tier_change float_of_str a' (dt_date now) acct "month" in
         let ytd := three_tier_change float_of_str a' (dt_date now) acct "year" in
         monthly_change_dollars report = py_round (dollars monthly) 2 /\
         monthly_change_percent report = py_round (percent monthly) 2 /\
         ytd_change_dollars report = py_round (dollars ytd) 2 /\
         ytd_change_percent report = py_round (percent ytd) 2
     end).
Proof.
  intros Hspan.
  split; [now apply period_change_for_account_run|].
  split; [reflexivity|]. split; [reflexivity|].
  intros now account_type top_n. cbv zeta.
  unfold _analyze_account.
  destruct (get_portfolio_value_for_account (client a) acct) as [pv|e] eqn:Hpv;
    [|reflexivity].
  pose proof (portfolio_value_needs_login _ _ _ Hpv) as Hin.
  cbn [fst snd].
  set (a' := match snapshot_service a with
             | Some service => _
             | None => a
             end).
  assert (Hin' : _logged_in (client a') = true).
  { subst a'. destruct (snapshot_service a); exact Hin. }
  unfold get_holdings_for_account.
  rewrite (ensure_logged_in_ok _ Hin'). cbn [rbind].
  rewrite !period_change_for_account_run by (auto using Hin').
  cbn. auto.
Qed.

End AnalyzerClaims.

Example snapshot_tier_wins :
  _calculate_period_change_for_account no_float demo_analyzer
    (mkDate 2024 2 1) "A1" "year" = Ok (mkChange (10500 - 10000) ((10500 - 10000) / 10000 * 100)).
Proof. vm_compute. reflexivity. Qed.

Lemma period_change_three_tiers_witness :
  ("year" = "month" \/ "year" = "year")%string /\
  _logged_in (client demo_analyzer) = true /\
  _calculate_period_change_for_account no_float demo_analyzer
    (mkDate 2024 2 1) "A1" "year"
  = Ok (three_tier_change no_float demo_analyzer (mkDate 2024 2 1) "A1" "year").
Proof.
  split; [right; reflexivity|]. split; [reflexivity|].
  apply (period_change_three_tiers no_float demo_analyzer (mkDate 2024 2 1)
           "A1" "year").
  - right; reflexivity.
  - reflexivity.
Defined.

(** Without a snapshot service the holdings tier answers: 40 shares
    bought at 250 and quoted at 260.625 gained 425, that is 4.25%. *)
Example holdings_tier_answers :
  exists c,
    _calculate_period_change_for_account no_float analyzer_without_snapshots
      (mkDate 2024 2 1) "A1" "month" = Ok c /\
    dollars c == 425 /\ percent c == 425 # 100.
Proof. eexists. split; [vm_compute; reflexivity|]. split; reflexivity. Qed.

(** With no snapshot of the period start and a brokerage error, the
    change is zero. *)
Example zero_tier_answers :
  _calculate_period_change_for_account no_float analyzer_without_data
    (mkDate 2024 2 1) "A1" "month" = Ok (mkChange 0 0).
Proof. vm_compute. reflexivity. Qed.

(** The same brokerage error aborts [_analyze_account] at its first
    fetch, before any period change is computed. *)
Example first_fetch_aborts :
  snd (_analyze_account no_float analyzer_without_data (at_time 2024 2 1 9 0)
         "A1" "individual" 5) = Err (KeyError "equity").
Proof. vm_compute. reflexivity. Qed.


(** ** Further properties of retirement_tracker.py *)

Section RetirementExtras.
Local Open Scope Q_scope.

(** The growth factor over whole years: the month count is even, so
    the factor is never negative, whatever the rate. *)
Lemma growth_factor_nonneg (x : Q) (y : Z) (g : Q) :
  py_pow x (y * 12) = Ok g -> 0 <= g.
Proof.
  apply py_pow_even_nonneg. rewrite Z.even_mul. apply orb_true_r.
Qed.

(** With a positive rate the growth factor is at least [1.0]. *)
Lemma growth_factor_ge_1 (r : Q) (y : Z) (g : Q) :
  0 < r -> (0 < y)%Z -> py_pow (1 + r) (y * 12) = Ok g -> 1 <= g.
Proof.
  intros Hr Hy. apply py_pow_ge_1; [lra|lia].
Qed.

Lemma Qdiv_pos (a b : Q) : 0 < a -> 0 < b -> 0 < a / b.
Proof.
  intros Ha Hb. apply Qlt_shift_div_l; [exact Hb|]. now rewrite Qmult_0_l.
Qed.

Lemma py_div_inv (a b q : Q) : py_div a b = Ok q -> q = a / b /\ ~ b == 0.
Proof.
  unfold py_div. destruct (Qeq_bool b 0) eqn:E; [discriminate|].
  intros H. injection H as <-. split; [reflexivity|].
  intros H0. apply Qeq_eq_bool in H0. congruence.
Qed.

(** Whatever [_calculate_monthly_needed] returns is not negative. *)
Lemma monthly_needed_result_nonneg (c t : Q) (y : Z) (ar mn : Q) :
  _calculate_monthly_needed c t y ar = Ok mn -> 0 <= mn.
Proof.
  destruct (Z_le_gt_dec y 0) as [Hy|Hy].
  - rewrite calculate_monthly_needed_elapsed by exact Hy.
    intros H. injection H as <-. apply py_max_0_nonneg.
  - assert (Hy' : (0 < y)%Z) by lia.
    rewrite calculate_monthly_needed_running by exact Hy'.
    set (r := binary64 (ar / 12)).
    destruct (py_pow (1 + r) (y * 12)) as [g|e] eqn:Eg; cbn [rbind];
      [|discriminate].
    destruct (py_le (t - c * g) 0) eqn:En.
    { intros H. injection H as <-. apply Qle_refl. }
    apply py_le_false in En.
    destruct (py_gt r 0) eqn:Er.
    + apply py_gt_true in Er.
      intros H. apply py_div_inv in H as [-> Hne].
      pose proof (growth_factor_ge_1 r y g Er Hy' Eg) as Hg.
      apply Qlt_le_weak, Qdiv_pos; [now apply Qmult_lt_0_compat|].
      destruct (Qlt_le_dec 0 (g - 1)) as [Hpos|Hle]; [exact Hpos|].
      exfalso. apply Hne. lra.
    + intros H. injection H as <-.
      apply Qlt_le_weak, Qdiv_pos; [exact En|].
      now apply inject_Z_months_pos.
Qed.

(** X1.  Whatever [_calculate_monthly_needed] returns is not negative,
    so the [max(0, ...)] in [calculate_progress] leaves it unchanged:
    every returned record reports the helper's result rounded to two
    places. *)
Theorem monthly_needed_helper_nonneg (config : RetirementConfig) (v mn : Q) :
  _calculate_monthly_needed v (target_amount config)
    (years_left config) (assumed_annual_return config) = Ok mn ->
  0 <= mn /\
  forall res, calculate_progress config v = Ok res ->
    monthly_needed res = py_round mn 2.
Proof.
  intros Hmn.
  pose proof (monthly_needed_result_nonneg _ _ _ _ _ Hmn) as Hpos.
  split; [exact Hpos|].
  intros res Hres.
  apply calculate_progress_inv in Hres as (pv & mn' & _ & _ & Hmn' & ->).
  rewrite Hmn in Hmn'. injection Hmn' as <-. cbn.
  apply py_round_comp. unfold py_max.
  destruct (py_gt mn 0) eqn:E; [reflexivity|].
  apply py_gt_false in E. now apply Qle_antisym.
Qed.

Lemma monthly_needed_helper_nonneg_witness :
  exists mn,
    _calculate_monthly_needed (-1000) (target_amount negative_return_config)
      (years_left negative_return_config)
      (assumed_annual_return negative_return_config) = Ok mn /\
    0 <= mn /\
    forall res, calculate_progress negative_return_config (-1000) = Ok res ->
      monthly_needed res = py_round mn 2.
Proof.
  eexists. split; [vm_compute; reflexivity|].
  apply (monthly_needed_helper_nonneg negative_return_config (-1000)).
  vm_compute. reflexivity.
Defined.

(** X2.  A positive return too small to move [1.0] makes the growth
    factor [1.0]; the monthly amount then divides by [growth - 1 = 0]:
    for every current value below a non-zero target both
    [_calculate_monthly_needed] and [calculate_progress] raise
    [ZeroDivisionError], and from the target upwards the record is
    returned with nothing needed. *)
Theorem tiny_rate_raises_zero_division (config : RetirementConfig) (v : Q) :
  (0 < years_left config)%Z ->
  0 < float_monthly_return config ->
  py_pow (1 + float_monthly_return config) (months_left config) = Ok 1 ->
  ~ target_amount config == 0 ->
  (v < target_amount config ->
     _calculate_monthly_needed v (target_amount config)
       (years_left config) (assumed_annual_return config)
     = Err ZeroDivisionError /\
     calculate_progress config v = Err ZeroDivisionError) /\
  (target_amount config <= v ->
     exists res, calculate_progress config v = Ok res /\
                 monthly_needed res == 0).
Proof.
  intros Hy Hr Hg Ht.
  unfold float_monthly_return, months_left in *.
  pose proof (calculate_monthly_needed_running v (target_amount config)
                (years_left config) (assumed_annual_return config) Hy) as Hmn.
  pose proof (project_future_value_running v (monthly_contribution config)
                (years_left config) (assumed_annual_return config) Hy) as Hpv.
  rewrite Hg in Hmn, Hpv. cbn [rbind] in Hmn, Hpv.
  apply py_gt_true in Hr. rewrite Hr in Hmn.
  split.
  - intros Hv.
    assert (En : py_le (target_amount config - v * 1) 0 = false)
      by (apply py_le_false; lra).
    rewrite En in Hmn.
    rewrite py_div_zero in Hmn by reflexivity.
    split; [exact Hmn|].
    unfold calculate_progress. fold (years_left config).
    rewrite py_div_ok by exact Ht. cbn [rbind].
    rewrite Hpv. cbn [rbind]. rewrite Hmn. reflexivity.
  - intros Hv.
    assert (En : py_le (target_amount config - v * 1) 0 = true)
      by (apply py_le_true; lra).
    rewrite En in Hmn.
    eexists. split.
    + apply calculate_progress_run; [exact Ht|exact Hpv|exact Hmn].
    + cbn. change (py_max 0 0) with 0. apply py_round_zero.
Qed.

Lemma tiny_rate_raises_zero_division_witness :
  (0 < years_left tiny_rate_config)%Z /\
  0 < float_monthly_return tiny_rate_config /\
  py_pow (1 + float_monthly_return tiny_rate_config)
    (months_left tiny_rate_config) = Ok 1 /\
  calculate_progress tiny_rate_config 0 = Err ZeroDivisionError /\
  exists res, calculate_progress tiny_rate_config 2000 = Ok res /\
              monthly_needed res == 0.
Proof.
  split; [reflexivity|]. split; [vm_compute; reflexivity|].
  split; [vm_compute; reflexivity|].
  destruct (tiny_rate_raises_zero_division tiny_rate_config 0)
    as [Hlow _]; [reflexivity|vm_compute; reflexivity|vm_compute; reflexivity
                 |vm_compute; discriminate|].
  destruct (tiny_rate_raises_zero_division tiny_rate_config 2000)
    as [_ Hhigh]; [reflexivity|vm_compute; reflexivity|vm_compute; reflexivity
                  |vm_compute; discriminate|].
  split.
  - apply Hlow. reflexivity.
  - apply Hhigh. vm_compute. discriminate.
Defined.

Lemma py_max_0_mono (a b : Q) : a <= b -> py_max 0 a <= py_max 0 b.
Proof.
  intros Hab. unfold py_max.
  destruct (py_gt a 0) eqn:Ea; destruct (py_gt b 0) eqn:Eb;
    try apply py_gt_true in Ea; try apply py_gt_true in Eb;
    try apply py_gt_false in Ea; try apply py_gt_false in Eb; lra.
Qed.

Lemma py_ge_true (a b : Q) : py_ge a b = true <-> b <= a.
Proof. apply Qle_bool_iff. Qed.

(** X3.  In every returned record [on_track] and the sign of
    [surplus_or_deficit] agree: an on-track result never reports a
    deficit and a behind result never reports a surplus; [on_track] is
    decided on the unrounded projection. *)
Theorem on_track_matches_surplus (config : RetirementConfig) (v : Q)
    (res : RetirementProgress) :
  calculate_progress config v = Ok res ->
  exists pv,
    _project_future_value v (monthly_contribution config)
      (years_left config) (assumed_annual_return config) = Ok pv /\
    (on_track res = true <-> target_amount config <= pv) /\
    (on_track res = true -> 0 <= surplus_or_deficit res) /\
    (on_track res = false -> surplus_or_deficit res <= 0).
Proof.
  intros Hres.
  apply calculate_progress_inv in Hres as (pv & mn & _ & Hpv & _ & ->).
  exists pv. split; [exact Hpv|]. cbn.
  split; [apply py_ge_true|]. split.
  - intros H. apply py_ge_true in H. apply py_round_nonneg. lra.
  - intros H. apply py_round_nonpos.
    destruct (Qlt_le_dec pv (target_amount config)) as [Hlt|Hge]; [lra|].
    apply py_ge_true in Hge. congruence.
Qed.

Lemma on_track_matches_surplus_witness :
  exists res pv,
    calculate_progress doubling_config 1000 = Ok res /\
    _project_future_value 1000 (monthly_contribution doubling_config)
      (years_left doubling_config)
      (assumed_annual_return doubling_config) = Ok pv /\
    (on_track res = true <-> target_amount doubling_config <= pv) /\
    (on_track res = true -> 0 <= surplus_or_deficit res) /\
    (on_track res = false -> surplus_or_deficit res <= 0).
Proof.
  eexists. 
  assert (H : forall res,
            calculate_progress doubling_config 1000 = Ok res ->
            exists pv,
              calculate_progress doubling_config 1000 = Ok res /\
              _project_future_value 1000 (monthly_contribution doubling_config)
                (years_left doubling_config)
                (assumed_annual_return doubling_config) = Ok pv /\
              (on_track res = true <-> target_amount doubling_config <= pv) /\
              (on_track res = true -> 0 <= surplus_or_deficit res) /\
              (on_track res = false -> surplus_or_deficit res <= 0)).
  { intros res Hres.
    destruct (on_track_matches_surplus doubling_config 1000 res Hres)
      as (pv & Hpv). exists pv. split; [exact Hres|exact Hpv]. }
  apply H. vm_compute. reflexivity.
Defined.

Lemma monthly_needed_antitone (c1 c2 t : Q) (y : Z) (ar : Q) (m1 m2 : Q) :
  c1 <= c2 ->
  _calculate_monthly_needed c1 t y ar = Ok m1 ->
  _calculate_monthly_needed c2 t y ar = Ok m2 ->
  m2 <= m1.
Proof.
  intros Hc H1 H2.
  destruct (Z_le_gt_dec y 0) as [Hy|Hy].
  - rewrite calculate_monthly_needed_elapsed in H1, H2 by exact Hy.
    injection H1 as <-. injection H2 as <-. apply py_max_0_mono. lra.
  - assert (Hy' : (0 < y)%Z) by lia.
    pose proof (monthly_needed_result_nonneg _ _ _ _ _ H1) as Hm1.
    rewrite calculate_monthly_needed_running in H1, H2 by exact Hy'.
    set (r := binary64 (ar / 12)) in *.
    destruct (py_pow (1 + r) (y * 12)) as [g|e] eqn:Eg; cbn [rbind] in H1, H2;
      [|discriminate].
    pose proof (growth_factor_nonneg _ _ _ Eg) as Hg0.
    assert (Hn : t - c2 * g <= t - c1 * g).
    { assert (c1 * g <= c2 * g) by (now apply Qmult_le_compat_r). lra. }
    assert (Hm : 0 < inject_Z (y * 12)) by (now apply inject_Z_months_pos).
    destruct (py_le (t - c2 * g) 0) eqn:En2.
    { injection H2 as <-. exact Hm1. }
    apply py_le_false in En2.
    assert (En1 : py_le (t - c1 * g) 0 = false) by (apply py_le_false; lra).
    rewrite En1 in H1.
    destruct (py_gt r 0) eqn:Er.
    + apply py_gt_true in Er.
      apply py_div_inv in H1 as [-> Hne]. apply py_div_inv in H2 as [-> _].
      pose proof (growth_factor_ge_1 r y g Er Hy' Eg) as Hg.
      assert (Hpos : 0 < g - 1).
      { destruct (Qlt_le_dec 0 (g - 1)) as [Hp|Hle]; [exact Hp|].
        exfalso. apply Hne. lra. }
      unfold Qdiv. apply Qmult_le_compat_r.
      * apply Qmult_le_compat_r; lra.
      * apply Qlt_le_weak, Qinv_lt_0_compat. exact Hpos.
    + injection H1 as <-. injection H2 as <-.
      unfold Qdiv. apply Qmult_le_compat_r; [exact Hn|].
      apply Qlt_le_weak, Qinv_lt_0_compat. exact Hm.
Qed.

Lemma project_future_value_mono (c1 c2 mc : Q) (y : Z) (ar : Q) (p1 p2 : Q) :
  c1 <= c2 ->
  _project_future_value c1 mc y ar = Ok p1 ->
  _project_future_value c2 mc y ar = Ok p2 ->
  p1 <= p2.
Proof.
  intros Hc H1 H2.
  destruct (Z_le_gt_dec y 0) as [Hy|Hy].
  - rewrite project_future_value_elapsed in H1, H2 by exact Hy.
    injection H1 as <-. injection H2 as <-. exact Hc.
  - rewrite project_future_value_running in H1, H2 by lia.
    destruct (py_pow (1 + binary64 (ar / 12)) (y * 12)) as [g|e] eqn:Eg;
      cbn [rbind] in H1, H2; [|discriminate].
    injection H1 as <-. injection H2 as <-.
    pose proof (growth_factor_nonneg _ _ _ Eg) as Hg0.
    apply Qplus_le_compat; [|apply Qle_refl].
    now apply Qmult_le_compat_r.
Qed.

(** X4.  For one configuration and two current values for which
    [calculate_progress] returns, the larger value never lowers the
    reported projection, never raises the reported monthly amount
    needed, and never turns an on-track result into a behind one; this
    holds for every assumed return, negative ones included. *)
Theorem progress_monotone_in_current_value (config : RetirementConfig)
    (v1 v2 : Q) (r1 r2 : RetirementProgress) :
  v1 <= v2 ->
  calculate_progress config v1 = Ok r1 ->
  calculate_progress config v2 = Ok r2 ->
  projected_value r1 <= projected_value r2 /\
  monthly_needed r2 <= monthly_needed r1 /\
  (on_track r1 = true -> on_track r2 = true).
Proof.
  intros Hv H1 H2.
  apply calculate_progress_inv in H1 as (p1 & m1 & _ & Hp1 & Hm1 & ->).
  apply calculate_progress_inv in H2 as (p2 & m2 & _ & Hp2 & Hm2 & ->).
  pose proof (project_future_value_mono _ _ _ _ _ _ _ Hv Hp1 Hp2) as Hp.
  pose proof (monthly_needed_antitone _ _ _ _ _ _ _ Hv Hm1 Hm2) as Hm.
  cbn.
  split; [now apply py_round_mono|].
  split; [now apply py_round_mono, py_max_0_mono|].
  rewrite !py_ge_true. lra.
Qed.

Lemma progress_monotone_in_current_value_witness :
  exists r1 r2,
    1000 <= 3000 /\
    calculate_progress doubling_config 1000 = Ok r1 /\
    calculate_progress doubling_config 3000 = Ok r2 /\
    projected_value r1 <= projected_value r2 /\
    monthly_needed r2 <= monthly_needed r1 /\
    (on_track r1 = true -> on_track r2 = true).
Proof.
  assert (H : forall r1 r2,
            calculate_progress doubling_config 1000 = Ok r1 ->
            calculate_progress doubling_config 3000 = Ok r2 ->
            1000 <= 3000 /\
            calculate_progress doubling_config 1000 = Ok r1 /\
            calculate_progress doubling_config 3000 = Ok r2 /\
            projected_value r1 <= projected_value r2 /\
            monthly_needed r2 <= monthly_needed r1 /\
            (on_track r1 = true -> on_track r2 = true)).
  { intros r1 r2 H1 H2.
    split; [vm_compute; discriminate|]. split; [exact H1|]. split; [exact H2|].
    apply (progress_monotone_in_current_value doubling_config 1000 3000 r1 r2);
      [vm_compute; discriminate|exact H1|exact H2]. }
  eexists. eexists. apply H; vm_compute; reflexivity.
Defined.

(** X5.  With years remaining, a non-negative assumed return, a
    non-negative current value and a non-negative contribution, a
    returned projection is never below the current value.  It can stay
    below what is paid in: when the return is positive but too small to
    move [1.0], the contributions drop out and the projection is the
    current value alone. *)
Theorem projection_at_least_current_value (c mc : Q) (y : Z) (ar fv : Q) :
  (0 < y)%Z -> 0 <= ar -> 0 <= c -> 0 <= mc ->
  _project_future_value c mc y ar = Ok fv ->
  c <= fv /\
  (0 < binary64 (ar / 12) -> 0 < mc ->
   py_pow (1 + binary64 (ar / 12)) (y * 12) = Ok 1 ->
   fv == c /\ fv < c + mc * inject_Z (y * 12)).
Proof.
  intros Hy Har Hc Hmc Hfv.
  rewrite project_future_value_running in Hfv by exact Hy.
  assert (Hr0 : 0 <= binary64 (ar / 12)).
  { apply binary64_nonneg. apply Qle_shift_div_l; [reflexivity|].
    now rewrite Qmult_0_l. }
  set (r := binary64 (ar / 12)) in *.
  destruct (py_pow (1 + r) (y * 12)) as [g|e] eqn:Eg; cbn [rbind] in Hfv;
    [|discriminate].
  injection Hfv as <-.
  assert (Hg : 1 <= g).
  { apply (py_pow_ge_1 (1 + r) (y * 12)); [lra|lia|exact Eg]. }
  assert (Hm : 0 < inject_Z (y * 12)) by (now apply inject_Z_months_pos).
  split.
  - assert (H1 : c * 1 <= c * g).
    { rewrite !(Qmult_comm c). now apply Qmult_le_compat_r. }
    assert (H2 : 0 <= (if py_gt r 0 && py_gt mc 0
                       then mc * ((g - 1) / r)
                       else mc * inject_Z (y * 12))).
    { destruct (py_gt r 0) eqn:Er; cbn [andb].
      - apply py_gt_true in Er.
        destruct (py_gt mc 0).
        + apply Qmult_le_0_compat; [exact Hmc|].
          apply Qle_shift_div_l; [exact Er|]. rewrite Qmult_0_l. lra.
        + apply Qmult_le_0_compat; [exact Hmc|now apply Qlt_le_weak].
      - apply Qmult_le_0_compat; [exact Hmc|now apply Qlt_le_weak]. }
    lra.
  - intros Hr Hpos E1. injection E1 as ->.
    apply py_gt_true in Hr. rewrite Hr.
    apply py_gt_true in Hpos. rewrite Hpos. cbn [andb].
    apply py_gt_true in Hpos.
    assert (E : c * 1 + mc * ((1 - 1) / r) == c) by (unfold Qdiv; ring).
    split; [exact E|]. rewrite E.
    assert (0 < mc * inject_Z (y * 12)) by (now apply Qmult_lt_0_compat).
    lra.
Qed.

Lemma projection_at_least_current_value_witness :
  exists fv,
    _project_future_value 1000 100 1 (1 # 100000000000000000) = Ok fv /\
    1000 <= fv /\ fv == 1000 /\ fv < 1000 + 100 * inject_Z (1 * 12).
Proof.
  eexists. split; [vm_compute; reflexivity|].
  destruct (projection_at_least_current_value 1000 100 1
              (1 # 100000000000000000)
              (4326914048779023000 # 4326914048779023))
    as [Hge Htiny].
  - reflexivity.
  - vm_compute. discriminate.
  - vm_compute. discriminate.
  - vm_compute. discriminate.
  - vm_compute. reflexivity.
  - split; [exact Hge|]. apply Htiny.
    + vm_compute. reflexivity.
    + reflexivity.
    + vm_compute. reflexivity.
Defined.

End RetirementExtras.

(** ** Further properties of snapshot_service.py *)

Section SnapshotExtras.
Variable float_of_str : string -> result Q.
Local Open Scope Q_scope.

Lemma period_change_of_snapshots (svc : SnapshotService) (today : date)
    (acct : string) (start_date end_date : date) (st en : PortfolioSnapshot) :
  get_snapshot float_of_str svc acct start_date = Some st ->
  get_snapshot float_of_str svc acct end_date = Some en ->
  exists pc,
    calculate_period_change float_of_str svc today acct start_date (Some end_date)
    = Ok (Some pc) /\
    change_dollars pc = equity en - equity st /\
    start_equity pc = equity st /\
    end_equity pc = equity en /\
    (0 < equity st ->
       change_percent pc = (equity en - equity st) / equity st * 100) /\
    (equity st <= 0 -> change_percent pc = 0).
Proof.
  intros Hst Hen. unfold calculate_period_change. rewrite Hst, Hen.
  destruct (py_gt (equity st) 0) eqn:E.
  - apply py_gt_true in E. rewrite py_div_ok by lra. cbn [rbind].
    eexists. split; [reflexivity|]. cbn. repeat split; auto.
    intros. exfalso. lra.
  - apply py_gt_false in E. cbn [rbind].
    eexists. split; [reflexivity|]. cbn. repeat split; auto.
    intros. exfalso. lra.
Qed.

Lemma period_change_without_snapshot (svc : SnapshotService) (today : date)
    (acct : string) (start_date end_date : date) :
  get_snapshot float_of_str svc acct start_date = None \/
  get_snapshot float_of_str svc acct end_date = None ->
  calculate_period_change float_of_str svc today acct start_date (Some end_date)
  = Ok None.
Proof.
  unfold calculate_period_change. intros [-> | ->]; [reflexivity|].
  now destruct (get_snapshot float_of_str svc acct start_date).
Qed.

(** A period change that was returned comes from two snapshots that are
    there. *)
Lemma period_change_inv (svc : SnapshotService) (today : date) (acct : string)
    (start_date end_date : date) (pc : PeriodChange) :
  calculate_period_change float_of_str svc today acct start_date (Some end_date)
  = Ok (Some pc) ->
  exists st en,
    get_snapshot float_of_str svc acct start_date = Some st /\
    get_snapshot float_of_str svc acct end_date = Some en /\
    change_dollars pc = equity en - equity st /\
    start_equity pc = equity st /\
    end_equity pc = equity en /\
    (0 < equity st ->
       change_percent pc = (equity en - equity st) / equity st * 100) /\
    (equity st <= 0 -> change_percent pc = 0).
Proof.
  intros Hpc.
  destruct (get_snapshot float_of_str svc acct start_date) as [st|] eqn:Hst;
    [|rewrite period_change_without_snapshot in Hpc by auto; discriminate].
  destruct (get_snapshot float_of_str svc acct end_date) as [en|] eqn:Hen;
    [|rewrite period_change_without_snapshot in Hpc by auto; discriminate].
  destruct (period_change_of_snapshots svc today acct _ _ _ _ Hst Hen)
    as (pc' & Hpc' & Hrest).
  rewrite Hpc in Hpc'. injection Hpc' as <-.
  exists st, en. auto.
Qed.

(** X6.  The signs of a returned period change give the direction of
    the equity: the dollar change is negative, zero or positive exactly
    when the end equity is below, equal to or above the start equity,
    and with a positive start equity the percentage has the same sign;
    with a start equity of zero or less the percentage is [0], whatever
    the dollar change. *)
Theorem period_change_consistent (svc : SnapshotService) (today : date)
    (acct : string) (start_date end_date : date) (pc : PeriodChange) :
  calculate_period_change float_of_str svc today acct start_date (Some end_date)
  = Ok (Some pc) ->
  (change_dollars pc < 0 <-> end_equity pc < start_equity pc) /\
  (change_dollars pc == 0 <-> end_equity pc == start_equity pc) /\
  (0 < start_equity pc ->
     (change_percent pc < 0 <-> end_equity pc < start_equity pc) /\
     (change_percent pc == 0 <-> end_equity pc == start_equity pc) /\
     (0 < change_percent pc <-> start_equity pc < end_equity pc)) /\
  (start_equity pc <= 0 -> change_percent pc = 0).
Proof.
  intros Hpc.
  destruct (period_change_inv _ _ _ _ _ _ Hpc)
    as (st & en & _ & _ & Hd & Hs & He & Hpos & Hnonpos).
  rewrite Hd, Hs, He.
  split; [split; intros H; lra|].
  split; [split; intros H; lra|].
  split; [|exact Hnonpos].
  intros Hst. rewrite (Hpos Hst).
  assert (E : (equity en - equity st) / equity st * 100
              == (equity en - equity st) * (100 / equity st)) by (field; lra).
  rewrite E.
  assert (Hk : 0 < 100 / equity st).
  { apply Qlt_shift_div_l; [exact Hst|]. lra. }
  set (d := equity en - equity st). set (k := 100 / equity st) in *.
  assert (Hneg : d < 0 -> d * k < 0).
  { intros H. assert (d * k < 0 * k) by (apply Qmult_lt_compat_r; lra). lra. }
  assert (Hzero : d == 0 -> d * k == 0).
  { intros H. rewrite H. ring. }
  assert (Hplus : 0 < d -> 0 < d * k).
  { intros H. now apply Qmult_lt_0_compat. }
  assert (Hd3 : d < 0 \/ d == 0 \/ 0 < d).
  { destruct (Q_dec d 0) as [[H|H]|H]; auto. }
  assert (Ed : equity en == d + equity st) by (unfold d; ring).
  split; [|split]; split; intros H;
    destruct Hd3 as [H3|[H3|H3]];
    try (specialize (Hneg H3)); try (specialize (Hzero H3));
    try (specialize (Hplus H3)); try lra.
Qed.

(** *** Keys of different days and accounts are different *)

Lemma append_inj_length (s1 s2 t1 t2 : string) :
  String.length s1 = String.length s2 ->
  s1 +:+ t1 = s2 +:+ t2 -> s1 = s2 /\ t1 = t2.
Proof.
  revert s2. induction s1 as [|a s1 IH]; intros [|b s2] Hlen H;
    try discriminate.
  - auto.
  - cbn in Hlen, H. injection H as -> H. injection Hlen as Hlen.
    destruct (IH _ Hlen H) as [-> ->]. auto.
Qed.

Lemma length_append (s t : string) :
  String.length (s +:+ t) = (String.length s + String.length t)%nat.
Proof. induction s as [|a s IH]; [reflexivity|]. simpl. now f_equal. Qed.

Lemma append_inj_suffix_length (s1 s2 t1 t2 : string) :
  String.length t1 = String.length t2 ->
  s1 +:+ t1 = s2 +:+ t2 -> s1 = s2 /\ t1 = t2.
Proof.
  intros Hlen H. apply append_inj_length; [|exact H].
  apply (f_equal String.length) in H. rewrite !length_append in H. lia.
Qed.

Lemma zfill_length (w : nat) (n : Z) : String.length (zfill w n) = w.
Proof.
  revert n. induction w as [|w IH]; intros n; cbn; [reflexivity|].
  rewrite length_append, IH. cbn. lia.
Qed.

Lemma digit_inj (a b : Z) : digit a = digit b -> (a mod 10 = b mod 10)%Z.
Proof.
  unfold digit. intros H.
  apply (f_equal nat_of_ascii) in H.
  pose proof (Z.mod_pos_bound a 10) as Ha.
  pose proof (Z.mod_pos_bound b 10) as Hb.
  rewrite !nat_ascii_embedding in H by lia. lia.
Qed.

Lemma zfill_inj (w : nat) (a b : Z) :
  (0 <= a < 10 ^ Z.of_nat w)%Z -> (0 <= b < 10 ^ Z.of_nat w)%Z ->
  zfill w a = zfill w b -> a = b.
Proof.
  revert a b. induction w as [|w IH]; intros a b Ha Hb H.
  - change (10 ^ Z.of_nat 0)%Z with 1%Z in Ha, Hb. lia.
  - cbn [zfill] in H.
    apply append_inj_length in H; [|now rewrite !zfill_length].
    destruct H as [Hhi Hlo]. injection Hlo as Hlo. apply digit_inj in Hlo.
    rewrite Nat2Z.inj_succ, Z.pow_succ_r in Ha, Hb by lia.
    assert (Hq : (a / 10 = b / 10)%Z).
    { apply IH; [| |exact Hhi].
      - split; [apply Z.div_pos; lia|apply Z.div_lt_upper_bound; lia].
      - split; [apply Z.div_pos; lia|apply Z.div_lt_upper_bound; lia]. }
    rewrite (Z.div_mod a 10), (Z.div_mod b 10) by lia. lia.
Qed.

Lemma date_in_range_bounds (d : date) :
  date_in_range d = true ->
  (1 <= year d <= 9999 /\ 1 <= month d <= 12 /\ 1 <= day d <= 31)%Z.
Proof.
  unfold date_in_range. rewrite !andb_true_iff, !Z.leb_le. lia.
Qed.

Lemma strftime_ymd_length (d : date) : String.length (strftime_ymd d) = 10%nat.
Proof.
  unfold strftime_ymd. rewrite !length_append, !zfill_length. reflexivity.
Qed.

Lemma strftime_ymd_inj (d1 d2 : date) :
  date_in_range d1 = true -> date_in_range d2 = true ->
  strftime_ymd d1 = strftime_ymd d2 -> d1 = d2.
Proof.
  intros H1 H2 H.
  apply date_in_range_bounds in H1, H2.
  unfold strftime_ymd in H.
  apply append_inj_length in H; [|now rewrite !zfill_length].
  destruct H as [Hy H]. apply (String.app_inj "-") in H.
  apply append_inj_length in H; [|now rewrite !zfill_length].
  destruct H as [Hm Hd]. apply (String.app_inj "-") in Hd.
  apply (zfill_inj 4) in Hy; [|cbn; lia|cbn; lia].
  apply (zfill_inj 2) in Hm; [|cbn; lia|cbn; lia].
  apply (zfill_inj 2) in Hd; [|cbn; lia|cbn; lia].
  destruct d1, d2; cbn in *; congruence.
Qed.

Lemma snapshot_key_inj (a1 a2 : string) (d1 d2 : date) :
  snapshot_key a1 (strftime_ymd d1) = snapshot_key a2 (strftime_ymd d2) ->
  a1 = a2 /\ strftime_ymd d1 = strftime_ymd d2.
Proof.
  unfold snapshot_key. intros H.
  apply String.app_inj in H. apply String.app_inj in H.
  apply append_inj_suffix_length in H.
  - destruct H as [-> H]. apply (String.app_inj "/") in H.
    apply append_inj_length in H; [tauto|].
    now rewrite !strftime_ymd_length.
  - cbn. rewrite !length_append, !strftime_ymd_length. reflexivity.
Qed.

(** A save leaves every other key as it was. *)
Lemma get_snapshot_other_key (svc svc' : SnapshotService) (now : datetime)
    (acct : string) (e c : Q) (ts : option datetime) (ok : bool)
    (acct' : string) (d' : date) :
  date_in_range (dt_date (default now ts)) = true ->
  date_in_range d' = true ->
  (acct', d') <> (acct, dt_date (default now ts)) ->
  save_snapshot svc now acct e c ts = (svc', ok) ->
  get_snapshot float_of_str svc' acct' d' = get_snapshot float_of_str svc acct' d'.
Proof.
  intros Hr Hr' Hne.
  unfold save_snapshot, put_object.
  change (match ts with Some t => t | None => now end) with (default now ts).
  destruct (reachable (s3 svc)) eqn:Hreach; cbn [rbind catch];
    intros H; injection H as <- <-; [|reflexivity].
  unfold get_snapshot, get_object. cbn [s3 bucket reachable objects].
  rewrite Hreach. rewrite lookup_insert_ne; [reflexivity|].
  intros Hk. apply (f_equal snd) in Hk. cbn [snd] in Hk.
  apply snapshot_key_inj in Hk.
  destruct Hk as [-> Hd]. apply strftime_ymd_inj in Hd; [|assumption..].
  apply Hne. now rewrite Hd.
Qed.

(** X7.  Saving a snapshot touches one key only: the snapshot read for
    any other account or any other day is what it was before the save,
    whether the save succeeded or not, and so is every period change
    between two such days. *)
Theorem save_snapshot_frame (svc svc' : SnapshotService) (now : datetime)
    (acct : string) (e c : Q) (ts : option datetime) (ok : bool)
    (acct' : string) (d' : date) :
  date_in_range (dt_date (default now ts)) = true ->
  date_in_range d' = true ->
  (acct', d') <> (acct, dt_date (default now ts)) ->
  save_snapshot svc now acct e c ts = (svc', ok) ->
  get_snapshot float_of_str svc' acct' d' = get_snapshot float_of_str svc acct' d' /\
  forall today d'',
    date_in_range d'' = true ->
    (acct', d'') <> (acct, dt_date (default now ts)) ->
    calculate_period_change float_of_str svc' today acct' d' (Some d'')
    = calculate_period_change float_of_str svc today acct' d' (Some d'').
Proof.
  intros Hr Hr' Hne Hsave.
  pose proof (get_snapshot_other_key _ _ _ _ _ _ _ _ _ _ Hr Hr' Hne Hsave) as H1.
  split; [exact H1|].
  intros today d'' Hr'' Hne''.
  pose proof (get_snapshot_other_key _ _ _ _ _ _ _ _ _ _ Hr Hr'' Hne'' Hsave) as H2.
  unfold calculate_period_change. now rewrite H1, H2.
Qed.

(** X8.  A period that starts and ends on the same day, for which a
    snapshot is there, has a dollar change of zero and a percentage of
    zero. *)
Theorem same_day_change_is_zero (svc : SnapshotService) (today : date)
    (acct : string) (d : date) (st : PortfolioSnapshot) :
  get_snapshot float_of_str svc acct d = Some st ->
  exists pc,
    calculate_period_change float_of_str svc today acct d (Some d) = Ok (Some pc) /\
    change_dollars pc == 0 /\ change_percent pc == 0 /\
    start_equity pc = end_equity pc.
Proof.
  intros Hst.
  destruct (period_change_of_snapshots svc today acct d d st st Hst Hst)
    as (pc & Hpc & Hd & Hs & He & Hpos & Hnonpos).
  exists pc. split; [exact Hpc|]. rewrite Hd, Hs, He.
  split; [ring|]. split; [|reflexivity].
  destruct (Qlt_le_dec 0 (equity st)) as [H|H].
  - rewrite (Hpos H). field. lra.
  - rewrite (Hnonpos H). reflexivity.
Qed.

(** X9.  Period changes over adjoining periods are computed from the
    same three snapshots: the first period ends on the equity the second
    starts from, the whole period starts and ends where the two do, and
    the directions compose: when neither part reports a fall the whole
    reports none, and when neither reports a rise the whole reports
    none. *)
Theorem period_changes_compose (svc : SnapshotService) (today : date)
    (acct : string) (d1 d2 d3 : date) (p12 p23 p13 : PeriodChange) :
  calculate_period_change float_of_str svc today acct d1 (Some d2) = Ok (Some p12) ->
  calculate_period_change float_of_str svc today acct d2 (Some d3) = Ok (Some p23) ->
  calculate_period_change float_of_str svc today acct d1 (Some d3) = Ok (Some p13) ->
  end_equity p12 = start_equity p23 /\
  start_equity p13 = start_equity p12 /\
  end_equity p13 = end_equity p23 /\
  (0 <= change_dollars p12 -> 0 <= change_dollars p23 ->
     0 <= change_dollars p13) /\
  (change_dollars p12 <= 0 -> change_dollars p23 <= 0 ->
     change_dollars p13 <= 0).
Proof.
  intros H12 H23 H13.
  destruct (period_change_inv _ _ _ _ _ _ H12)
    as (s1 & s2 & Ha1 & Ha2 & Hd12 & Hs12 & He12 & _ & _).
  destruct (period_change_inv _ _ _ _ _ _ H23)
    as (s2' & s3 & Hb2 & Hb3 & Hd23 & Hs23 & He23 & _ & _).
  destruct (period_change_inv _ _ _ _ _ _ H13)
    as (s1' & s3' & Hc1 & Hc3 & Hd13 & Hs13 & He13 & _ & _).
  rewrite Ha2 in Hb2. injection Hb2 as <-.
  rewrite Ha1 in Hc1. injection Hc1 as <-.
  rewrite Hb3 in Hc3. injection Hc3 as <-.
  rewrite Hd12, Hd23, Hd13, Hs12, Hs23, Hs13, He12, He23, He13.
  split; [reflexivity|]. split; [reflexivity|]. split; [reflexivity|].
  split; intros; lra.
Qed.

Lemma from_dict_missing_field (data : gmap string jvalue) (field : string) :
  field = "account_number" \/ field = "timestamp" \/
  field = "equity" \/ field = "cash" ->
  data !! field = None ->
  exists e, from_dict float_of_str data = Err e.
Proof.
  intros Hf Hnone. unfold from_dict, getitem.
  destruct (data !! "account_number") as [a|] eqn:Ea; cbn [rbind]; [|eauto].
  destruct (data !! "timestamp") as [t|] eqn:Et; cbn [rbind]; [|eauto].
  destruct (data !! "equity") as [e|] eqn:Ee; cbn [rbind]; [|eauto].
  destruct (py_float float_of_str e) as [eq|err]; cbn [rbind]; [|eauto].
  destruct (data !! "cash") as [c|] eqn:Ec; cbn [rbind]; [|eauto].
  destruct Hf as [ -> | [ -> | [ -> | -> ] ] ]; congruence.
Qed.

(** X10.  A snapshot that cannot be read counts as absent and raises
    nothing: when the store does not answer, the key is missing, the body
    is not a JSON object, or the object lacks one of the four fields,
    [get_snapshot] returns [None] and every period change that starts or
    ends on that day is [None]. *)
Theorem unreadable_snapshot_is_absent (svc : SnapshotService) (acct : string)
    (d : date) :
  let key := (bucket svc, snapshot_key acct (strftime_ymd d)) in
  reachable (s3 svc) = false \/
  objects (s3 svc) !! key = None \/
  objects (s3 svc) !! key = Some NotJson \/
  objects (s3 svc) !! key = Some JsonOther \/
  (exists data field,
     objects (s3 svc) !! key = Some (JsonObject data) /\
     (field = "account_number" \/ field = "timestamp" \/
      field = "equity" \/ field = "cash") /\
     data !! field = None) ->
  get_snapshot float_of_str svc acct d = None /\
  forall today other,
    calculate_period_change float_of_str svc today acct d (Some other) = Ok None /\
    calculate_period_change float_of_str svc today acct other (Some d) = Ok None.
Proof.
  cbv zeta. intros Hcase.
  assert (Hnone : get_snapshot float_of_str svc acct d = None).
  { unfold get_snapshot, get_object.
    destruct Hcase as [ -> | Hcase ]; [reflexivity|].
    destruct (reachable (s3 svc)); [|reflexivity].
    destruct Hcase as [ -> | [ -> | [ -> | (data & field & -> & Hf & Hnone) ] ] ];
      try reflexivity.
    cbn [rbind json_loads].
    destruct (from_dict_missing_field data field Hf Hnone) as [e ->].
    cbn [rbind catch]. now destruct e. }
  split; [exact Hnone|]. intros today other. split.
  - apply period_change_without_snapshot. now left.
  - apply period_change_without_snapshot. now right.
Qed.

End SnapshotExtras.

Lemma period_change_consistent_witness :
  exists pc,
    calculate_period_change no_float service_after_evening (mkDate 2024 2 1)
      "A1" (mkDate 2024 1 1) (Some (mkDate 2024 2 1)) = Ok (Some pc) /\
    (change_dollars pc < 0 <-> end_equity pc < start_equity pc) /\
    (change_dollars pc == 0 <-> end_equity pc == start_equity pc) /\
    (0 < start_equity pc ->
       (change_percent pc < 0 <-> end_equity pc < start_equity pc) /\
       (change_percent pc == 0 <-> end_equity pc == start_equity pc) /\
       (0 < change_percent pc <-> start_equity pc < end_equity pc)) /\
    (start_equity pc <= 0 -> change_percent pc = 0).
Proof.
  eexists. split; [vm_compute; reflexivity|].
  apply (period_change_consistent no_float service_after_evening
           (mkDate 2024 2 1) "A1" (mkDate 2024 1 1) (mkDate 2024 2 1)).
  vm_compute; reflexivity.
Defined.

Lemma save_snapshot_frame_witness :
  date_in_range (dt_date (default (at_time 2024 3 1 9 0) None)) = true /\
  date_in_range (mkDate 2024 2 1) = true /\
  ("A1", mkDate 2024 2 1) <> ("A1", dt_date (default (at_time 2024 3 1 9 0) None)) /\
  save_snapshot service_after_evening (at_time 2024 3 1 9 0) "A1" 9975 80 None
  = (service_after_march, true) /\
  get_snapshot no_float service_after_march "A1" (mkDate 2024 2 1)
  = get_snapshot no_float service_after_evening "A1" (mkDate 2024 2 1).
Proof.
  assert (Hne : ("A1", mkDate 2024 2 1)
                <> ("A1", dt_date (default (at_time 2024 3 1 9 0) None)))
    by discriminate.
  split; [reflexivity|]. split; [reflexivity|]. split; [exact Hne|].
  split; [reflexivity|].
  apply (save_snapshot_frame no_float service_after_evening service_after_march
           (at_time 2024 3 1 9 0) "A1" 9975 80 None true "A1" (mkDate 2024 2 1));
    [reflexivity|reflexivity|exact Hne|reflexivity].
Defined.

Lemma same_day_change_is_zero_witness :
  get_snapshot no_float service_after_march "A1" (mkDate 2024 3 1)
  = Some (mkPortfolioSnapshot (JStr "A1") (JStr "2024-03-01T09:00:00") 9975 80) /\
  exists pc,
    calculate_period_change no_float service_after_march (mkDate 2024 3 1) "A1"
      (mkDate 2024 3 1) (Some (mkDate 2024 3 1)) = Ok (Some pc) /\
    change_dollars pc == 0 /\ change_percent pc == 0 /\
    start_equity pc = end_equity pc.
Proof.
  split; [vm_compute; reflexivity|].
  apply (same_day_change_is_zero no_float service_after_march (mkDate 2024 3 1)
           "A1" (mkDate 2024 3 1)
           (mkPortfolioSnapshot (JStr "A1") (JStr "2024-03-01T09:00:00") 9975 80)).
  vm_compute; reflexivity.
Defined.

Lemma period_changes_compose_witness :
  exists p12 p23 p13,
    calculate_period_change no_float service_after_march (mkDate 2024 3 1) "A1"
      (mkDate 2024 1 1) (Some (mkDate 2024 2 1)) = Ok (Some p12) /\
    calculate_period_change no_float service_after_march (mkDate 2024 3 1) "A1"
      (mkDate 2024 2 1) (Some (mkDate 2024 3 1)) = Ok (Some p23) /\
    calculate_period_change no_float service_after_march (mkDate 2024 3 1) "A1"
      (mkDate 2024 1 1) (Some (mkDate 2024 3 1)) = Ok (Some p13) /\
    end_equity p12 = start_equity p23 /\
    start_equity p13 = start_equity p12 /\
    end_equity p13 = end_equity p23 /\
    (0 <= change_dollars p12 -> 0 <= change_dollars p23 ->
       0 <= change_dollars p13) /\
    (change_dollars p12 <= 0 -> change_dollars p23 <= 0 ->
       change_dollars p13 <= 0).
Proof.
  eexists. eexists. eexists.
  split; [vm_compute; reflexivity|]. split; [vm_compute; reflexivity|].
  split; [vm_compute; reflexivity|].
  apply (period_changes_compose no_float service_after_march (mkDate 2024 3 1)
           "A1" (mkDate 2024 1 1) (mkDate 2024 2 1) (mkDate 2024 3 1));
    vm_compute; reflexivity.
Defined.

Lemma unreadable_snapshot_is_absent_witness :
  get_snapshot no_float service_with_incomplete_object "A1" (mkDate 2024 4 1) = None /\
  forall today other,
    calculate_period_change no_float service_with_incomplete_object today "A1"
      (mkDate 2024 4 1) (Some other) = Ok None /\
    calculate_period_change no_float service_with_incomplete_object today "A1"
      other (Some (mkDate 2024 4 1)) = Ok None.
Proof.
  apply (unreadable_snapshot_is_absent no_float service_with_incomplete_object
           "A1" (mkDate 2024 4 1)).
  right. right. right. right.
  exists (<["equity" := JNum 9000]> ∅), "cash"%string.
  split; [vm_compute; reflexivity|]. split; [tauto|]. reflexivity.
Defined.

(** ** Further properties of the per-account performance path *)

Section ClientExtras.
Variable float_of_str : string -> result Q.
Local Open Scope Q_scope.

Lemma ensure_logged_in_err (c : RobinhoodClient) :
  _logged_in c = false -> _ensure_logged_in c = Err NOT_LOGGED_IN.
Proof. unfold _ensure_logged_in. now intros ->. Qed.

(** X11.  With a client that is not logged in, every per-account call
    raises the [RuntimeError] of [_ensure_logged_in]; [_analyze_account]
    raises it before it saves a snapshot, and the period change raises
    it whenever the snapshot tier has no answer. *)
Theorem logged_out_client_raises (a : PortfolioAnalyzer) (now : datetime)
    (acct span account_type : string) (top_n : Z) :
  _logged_in (client a) = false ->
  get_portfolio_value_for_account (client a) acct = Err NOT_LOGGED_IN /\
  get_holdings_for_account (client a) acct = Err NOT_LOGGED_IN /\
  calculate_account_performance (client a) acct = Err NOT_LOGGED_IN /\
  get_historical_portfolio_for_account (client a) acct span = Err NOT_LOGGED_IN /\
  _analyze_account float_of_str a now acct account_type top_n
  = (a, Err NOT_LOGGED_IN) /\
  (_calculate_period_change_from_snapshots float_of_str a (dt_date now) acct span
   = None ->
   _calculate_period_change_for_account float_of_str a (dt_date now) acct span
   = Err NOT_LOGGED_IN).
Proof.
  intros Hout.
  assert (Hpv : get_portfolio_value_for_account (client a) acct = Err NOT_LOGGED_IN).
  { unfold get_portfolio_value_for_account.
    now rewrite (ensure_logged_in_err _ Hout). }
  assert (Hh : get_historical_portfolio_for_account (client a) acct span
               = Err NOT_LOGGED_IN).
  { unfold get_historical_portfolio_for_account.
    now rewrite (ensure_logged_in_err _ Hout). }
  split; [exact Hpv|]. split.
  { unfold get_holdings_for_account. now rewrite (ensure_logged_in_err _ Hout). }
  split.
  { unfold calculate_account_performance.
    now rewrite (ensure_logged_in_err _ Hout). }
  split; [exact Hh|]. split.
  - unfold _analyze_account. now rewrite Hpv.
  - intros Hnone. unfold _calculate_period_change_for_account.
    rewrite Hnone, Hh. now destruct (snapshot_service a).
Qed.

(** The loop keeps the sign of the gain: positions that are all worth
    at least their cost never lower it, positions that are all worth at
    most their cost never raise it. *)
Lemma accumulate_gain_sign (holdings : list HoldingData) (a b g : Q) :
  let '(_, _, g') := fold_left accumulate_holding holdings (a, b, g) in
  (Forall (fun h => 0 <= hd_quantity h /\
                    hd_average_buy_price h <= hd_current_price h) holdings ->
   g <= g') /\
  (Forall (fun h => 0 <= hd_quantity h /\
                    hd_current_price h <= hd_average_buy_price h) holdings ->
   g' <= g).
Proof.
  revert a b g. induction holdings as [|h hs IH]; intros a b g.
  - cbn. split; intros _; apply Qle_refl.
  - cbn [fold_left accumulate_holding].
    specialize (IH (a + hd_quantity h * hd_average_buy_price h)
                   (b + hd_quantity h * hd_current_price h)
                   (g + (hd_quantity h * hd_current_price h
                         - hd_quantity h * hd_average_buy_price h))).
    destruct (fold_left accumulate_holding hs _) as [[a' b'] g'].
    destruct IH as [IHup IHdown].
    split; intros HF; apply Forall_cons in HF as [[Hq Hp] HF].
    + specialize (IHup HF).
      assert (hd_quantity h * hd_average_buy_price h
              <= hd_quantity h * hd_current_price h).
      { rewrite !(Qmult_comm (hd_quantity h)).
        now apply Qmult_le_compat_r. }
      lra.
    + specialize (IHdown HF).
      assert (hd_quantity h * hd_current_price h
              <= hd_quantity h * hd_average_buy_price h).
      { rewrite !(Qmult_comm (hd_quantity h)).
        now apply Qmult_le_compat_r. }
      lra.
Qed.

(** X12.  For a logged-in client whose portfolio fetch succeeds, the
    account performance is there: the count is the number of holdings,
    and the percentage is the gain relative to a positive cost basis and
    [0] otherwise, so no division by zero occurs.  Without holdings
    everything but the cash is zero.  The signs follow the positions:
    when every position is held in a non-negative quantity and priced at
    or above its average cost, neither the gain nor the percentage is
    negative; when every one is priced at or below its cost, neither is
    positive. *)
Theorem account_performance_consistent (c : RobinhoodClient) (acct : string)
    (pv : PortfolioValue) :
  _logged_in c = true ->
  api_portfolio_value c acct = Ok pv ->
  exists perf,
    calculate_account_performance c acct = Ok (Some perf) /\
    holdings_count perf = length (api_holdings c acct) /\
    (0 < cost_basis perf ->
       gain_loss_percent perf = gain_loss_dollars perf / cost_basis perf * 100) /\
    (cost_basis perf <= 0 -> gain_loss_percent perf = 0) /\
    (api_holdings c acct = [] ->
       cost_basis perf = 0 /\ gain_loss_dollars perf = 0 /\
       gain_loss_percent perf = 0 /\ perf_current_value perf = 0 + pv_cash pv) /\
    (Forall (fun h => 0 <= hd_quantity h /\
                      hd_average_buy_price h <= hd_current_price h)
       (api_holdings c acct) ->
     0 <= gain_loss_dollars perf /\ 0 <= gain_loss_percent perf) /\
    (Forall (fun h => 0 <= hd_quantity h /\
                      hd_current_price h <= hd_average_buy_price h)
       (api_holdings c acct) ->
     gain_loss_dollars perf <= 0 /\ gain_loss_percent perf <= 0).
Proof.
  intros Hin Hpv.
  unfold calculate_account_performance, get_portfolio_value_for_account,
    get_holdings_for_account.
  rewrite (ensure_logged_in_ok _ Hin). cbn [rbind]. rewrite Hpv. cbn [rbind].
  pose proof (accumulate_gain_sign (api_holdings c acct) 0 0 0) as Hsign.
  destruct (fold_left accumulate_holding (api_holdings c acct) (0, 0, 0))
    as [[cost cur] gain] eqn:Hfold.
  destruct Hsign as [Hup Hdown].
  destruct (py_gt cost 0) eqn:Ec.
  - apply py_gt_true in Ec. rewrite py_div_ok by lra. cbn [rbind catch].
    eexists. split; [reflexivity|]. cbn.
    split; [reflexivity|]. split; [reflexivity|].
    split; [intros; exfalso; lra|].
    split.
    { intros Hnil. rewrite Hnil in Hfold. cbn in Hfold.
      injection Hfold as <- <- <-. exfalso. lra. }
    assert (Hk : 0 < 100 / cost).
    { apply Qlt_shift_div_l; [exact Ec|]. lra. }
    assert (E : gain / cost * 100 == gain * (100 / cost)) by (field; lra).
    split; intros HF.
    + specialize (Hup HF). split; [exact Hup|]. rewrite E.
      apply Qmult_le_0_compat; lra.
    + specialize (Hdown HF). split; [exact Hdown|]. rewrite E.
      assert (gain * (100 / cost) <= 0 * (100 / cost))
        by (apply Qmult_le_compat_r; lra).
      lra.
  - apply py_gt_false in Ec. cbn [rbind catch].
    eexists. split; [reflexivity|]. cbn.
    split; [reflexivity|].
    split; [intros; exfalso; lra|]. split; [reflexivity|].
    split.
    { intros Hnil. rewrite Hnil in Hfold. cbn in Hfold.
      injection Hfold as <- <- <-. auto. }
    split; intros HF.
    + split; [exact (Hup HF)|apply Qle_refl].
    + split; [exact (Hdown HF)|apply Qle_refl].
Qed.

(** X13.  A brokerage error during the portfolio fetch is re-raised by
    [get_portfolio_value_for_account] but swallowed by the performance
    path: [calculate_account_performance] and
    [get_historical_portfolio_for_account] return [None], and an analyzer
    without a snapshot service reports a zero change. *)
Theorem api_error_is_swallowed (a : PortfolioAnalyzer) (today : date)
    (acct span : string) (e : exn) :
  _logged_in (client a) = true ->
  api_portfolio_value (client a) acct = Err e ->
  get_portfolio_value_for_account (client a) acct = Err e /\
  calculate_account_performance (client a) acct = Ok None /\
  get_historical_portfolio_for_account (client a) acct span = Ok None /\
  (snapshot_service a = None ->
   _calculate_period_change_for_account float_of_str a today acct span
   = Ok (mkChange 0 0)).
Proof.
  intros Hin Herr.
  assert (Hpv : get_portfolio_value_for_account (client a) acct = Err e).
  { unfold get_portfolio_value_for_account.
    now rewrite (ensure_logged_in_ok _ Hin). }
  assert (Hperf : calculate_account_performance (client a) acct = Ok None).
  { unfold calculate_account_performance.
    rewrite (ensure_logged_in_ok _ Hin), Hpv. reflexivity. }
  assert (Hh : get_historical_portfolio_for_account (client a) acct span = Ok None).
  { unfold get_historical_portfolio_for_account.
    rewrite (ensure_logged_in_ok _ Hin), Hperf. reflexivity. }
  repeat split; try assumption.
  intros Hsvc. unfold _calculate_period_change_for_account.
  rewrite Hsvc, Hh. reflexivity.
Qed.

(** X14.  Snapshots are consulted for the spans [month] and [year]
    only: for any other span the period change is what an analyzer
    without a snapshot service computes; and without a snapshot service
    the result is the same for every span, since the holdings tier
    ignores the span. *)
Theorem snapshots_only_for_month_and_year (a : PortfolioAnalyzer) (today : date)
    (acct span span' : string) :
  (span <> "month" -> span <> "year" ->
   _calculate_period_change_from_snapshots float_of_str a today acct span = None /\
   _calculate_period_change_for_account float_of_str a today acct span
   = _calculate_period_change_for_account float_of_str
       (mkPortfolioAnalyzer (client a) None) today acct span) /\
  _calculate_period_change_for_account float_of_str
    (mkPortfolioAnalyzer (client a) None) today acct span
  = _calculate_period_change_for_account float_of_str
      (mkPortfolioAnalyzer (client a) None) today acct span'.
Proof.
  split; [|reflexivity].
  intros Hm Hy.
  assert (Hnone : _calculate_period_change_from_snapshots float_of_str a today
                    acct span = None).
  { unfold _calculate_period_change_from_snapshots.
    destruct (String.eqb_spec span "month") as [E|_]; [contradiction|].
    destruct (String.eqb_spec span "year") as [E|_]; [contradiction|].
    reflexivity. }
  split; [exact Hnone|].
  unfold _calculate_period_change_for_account. rewrite Hnone.
  cbn [snapshot_service client]. now destruct (snapshot_service a).
Qed.

End ClientExtras.

Lemma logged_out_client_raises_witness :
  _logged_in (client logged_out_analyzer) = false /\
  _analyze_account no_float logged_out_analyzer (at_time 2024 2 1 9 0) "A1"
    "individual" 5
  = (logged_out_analyzer, Err NOT_LOGGED_IN).
Proof.
  split; [reflexivity|].
  apply (logged_out_client_raises no_float logged_out_analyzer
           (at_time 2024 2 1 9 0) "A1" "month" "individual" 5).
  reflexivity.
Defined.

Lemma account_performance_consistent_witness :
  _logged_in demo_client = true /\
  api_portfolio_value demo_client "A1"
  = Ok (mkPortfolioValue 10500 10500 10425 75 75 "A1") /\
  exists perf,
    calculate_account_performance demo_client "A1" = Ok (Some perf) /\
    holdings_count perf = 1%nat /\
    0 <= gain_loss_dollars perf /\ 0 <= gain_loss_percent perf.
Proof.
  split; [reflexivity|]. split; [reflexivity|].
  destruct (account_performance_consistent demo_client "A1"
              (mkPortfolioValue 10500 10500 10425 75 75 "A1")
              eq_refl eq_refl) as (perf & Hperf & Hcount & _ & _ & _ & Hup & _).
  exists perf. split; [exact Hperf|]. split; [exact Hcount|].
  apply Hup. unfold demo_client. cbn [api_holdings].
  constructor; [split; vm_compute; discriminate|constructor].
Defined.

Lemma api_error_is_swallowed_witness :
  _logged_in (client failing_analyzer_without_snapshots) = true /\
  api_portfolio_value (client failing_analyzer_without_snapshots) "A1"
  = Err (KeyError "equity") /\
  get_portfolio_value_for_account (client failing_analyzer_without_snapshots) "A1"
  = Err (KeyError "equity") /\
  calculate_account_performance (client failing_analyzer_without_snapshots) "A1"
  = Ok None /\
  _calculate_period_change_for_account no_float
    failing_analyzer_without_snapshots (mkDate 2024 2 1) "A1" "month"
  = Ok (mkChange 0 0).
Proof.
  split; [reflexivity|]. split; [reflexivity|].
  destruct (api_error_is_swallowed no_float failing_analyzer_without_snapshots
              (mkDate 2024 2 1) "A1" "month" (KeyError "equity")
              eq_refl eq_refl) as (H1 & H2 & _ & H4).
  split; [exact H1|]. split; [exact H2|]. apply H4. reflexivity.
Defined.

Lemma snapshots_only_for_month_and_year_witness :
  ("week" <> "month")%string /\ ("week" <> "year")%string /\
  _calculate_period_change_for_account no_float demo_analyzer
    (mkDate 2024 2 1) "A1" "week"
  = _calculate_period_change_for_account no_float
      (mkPortfolioAnalyzer (client demo_analyzer) None) (mkDate 2024 2 1) "A1" "week".
Proof.
  assert (Hm : ("week" <> "month")%string) by discriminate.
  assert (Hy : ("week" <> "year")%string) by discriminate.
  split; [exact Hm|]. split; [exact Hy|].
  apply (snapshots_only_for_month_and_year no_float demo_analyzer
           (mkDate 2024 2 1) "A1" "week" "week"); assumption.
Defined.

(** ** The account report and today's snapshot *)

Section AnalyzerExtras.
Variable float_of_str : string -> result Q.
Local Open Scope Q_scope.

Lemma save_snapshot_reachable (svc : SnapshotService) (now : datetime)
    (acct : string) (e c : Q) (ts : option datetime) :
  reachable (s3 svc) = true ->
  snd (save_snapshot svc now acct e c ts) = true /\
  bucket (fst (save_snapshot svc now acct e c ts)) = bucket svc /\
  reachable (s3 (fst (save_snapshot svc now acct e c ts))) = true.
Proof.
  intros Hr. unfold save_snapshot, put_object. rewrite Hr. cbn. auto.
Qed.

(** What [_analyze_account] returns once the portfolio fetch succeeded. *)
Lemma analyze_account_run (a : PortfolioAnalyzer) (now : datetime)
    (acct account_type : string) (top_n : Z) (pv : PortfolioValue) :
  get_portfolio_value_for_account (client a) acct = Ok pv ->
  let a' :=
    match snapshot_service a with
    | Some service =>
        mkPortfolioAnalyzer (client a)
          (Some (fst (save_snapshot service now acct (pv_equity pv)
                        (pv_cash pv) None)))
    | None => a
    end in
  let monthly := three_tier_change float_of_str a' (dt_date now) acct "month" in
  let ytd := three_tier_change float_of_str a' (dt_date now) acct "year" in
  _analyze_account float_of_str a now acct account_type top_n
  = (a',
     Ok (mkAccountReport account_type acct
           (py_round (pv_equity pv) 2) (py_round (pv_cash pv) 2)
           (py_round (dollars monthly) 2) (py_round (percent monthly) 2)
           (py_round (dollars ytd) 2) (py_round (percent ytd) 2)
           (_convert_holdings (api_holdings (client a) acct))
           (length (_convert_holdings (api_holdings (client a) acct))))).
Proof.
  intros Hpv. cbv zeta. unfold _analyze_account. rewrite Hpv.
  pose proof (portfolio_value_needs_login _ _ _ Hpv) as Hin.
  set (a' := match snapshot_service a with
             | Some service => _
             | None => a
             end).
  assert (Hc : client a' = client a).
  { subst a'. now destruct (snapshot_service a). }
  assert (Hin' : _logged_in (client a') = true) by (now rewrite Hc).
  unfold get_holdings_for_account.
  rewrite (ensure_logged_in_ok _ Hin'). cbn [rbind].
  rewrite !period_change_for_account_run by (auto using Hin').
  cbn [rbind]. now rewrite Hc.
Qed.

Lemma first_of_month_is_today (d : date) :
  day d = 1%Z -> replace_day d 1 = d.
Proof. destruct d as [y m dd]. cbn. now intros ->. Qed.

Lemma date_in_range_replace_day (d : date) :
  date_in_range d = true -> date_in_range (replace_day d 1) = true.
Proof.
  intros H. apply date_in_range_bounds in H. unfold date_in_range. cbn.
  rewrite !andb_true_iff, !Z.leb_le. lia.
Qed.

(** X15.  With a reachable snapshot service and a successful portfolio
    fetch, [_analyze_account] stores today's snapshot first and measures
    the month against it: on the first day of a month the reported
    monthly change is zero; on any other day, when the snapshot of the
    first is there, the reported dollar change is the fetched equity less
    that snapshot's equity, rounded to two places. *)
Theorem analyze_account_monthly_change (a : PortfolioAnalyzer) (now : datetime)
    (acct account_type : string) (top_n : Z) (svc : SnapshotService)
    (pv : PortfolioValue) :
  snapshot_service a = Some svc ->
  reachable (s3 svc) = true ->
  get_portfolio_value_for_account (client a) acct = Ok pv ->
  date_in_range (dt_date now) = true ->
  exists a' svc' report,
    _analyze_account float_of_str a now acct account_type top_n = (a', Ok report) /\
    snapshot_service a' = Some svc' /\
    (exists today_snapshot,
       get_snapshot float_of_str svc' acct (dt_date now) = Some today_snapshot /\
       equity today_snapshot = pv_equity pv /\
       cash today_snapshot = pv_cash pv) /\
    (day (dt_date now) = 1%Z ->
       monthly_change_dollars report == 0 /\
       monthly_change_percent report == 0) /\
    (forall st,
       day (dt_date now) <> 1%Z ->
       get_snapshot float_of_str svc acct (replace_day (dt_date now) 1) = Some st ->
       monthly_change_dollars report = py_round (pv_equity pv - equity st) 2 /\
       (0 < equity st ->
          monthly_change_percent report
          = py_round ((pv_equity pv - equity st) / equity st * 100) 2)).
Proof.
  intros Hsvc Hreach Hpv Hrange.
  pose proof (analyze_account_run a now acct account_type top_n pv Hpv) as Hrun.
  cbv zeta in Hrun. rewrite Hsvc in Hrun.
  set (svc' := fst (save_snapshot svc now acct (pv_equity pv) (pv_cash pv) None)) in *.
  destruct (save_snapshot_reachable svc now acct (pv_equity pv) (pv_cash pv)
              None Hreach) as (Hok & _ & _).
  assert (Hsave : save_snapshot svc now acct (pv_equity pv) (pv_cash pv) None
                  = (svc', true)).
  { subst svc'. rewrite <- Hok. now destruct (save_snapshot _ _ _ _ _ _). }
  pose proof (get_snapshot_after_save float_of_str _ _ _ _ _ _ _ Hsave) as Htoday.
  cbn [default] in Htoday.
  eexists. exists svc'. eexists. split; [exact Hrun|].
  split; [reflexivity|]. split; [eexists; split; [exact Htoday|]; auto|].
  cbn [monthly_change_dollars monthly_change_percent].
  unfold three_tier_change, snapshot_tier, period_start.
  cbn [snapshot_service String.eqb Ascii.eqb Bool.eqb].
  split.
  - intros Hday. rewrite (first_of_month_is_today _ Hday).
    destruct (period_change_of_snapshots float_of_str svc' (dt_date now) acct
                _ _ _ _ Htoday Htoday) as (pc & Hpc & Hd & _ & _ & Hpos & Hnonpos).
    rewrite Hpc. cbn [dollars percent equity] in *.
    assert (Hd0 : change_dollars pc == 0) by (rewrite Hd; ring).
    assert (Hp0 : change_percent pc == 0).
    { destruct (Qlt_le_dec 0 (pv_equity pv)) as [H|H].
      - rewrite (Hpos H). field. lra.
      - rewrite (Hnonpos H). reflexivity. }
    rewrite (py_round_comp _ 0 2 Hd0), (py_round_comp _ 0 2 Hp0).
    split; apply py_round_zero.
  - intros st Hday Hst.
    assert (Hst' : get_snapshot float_of_str svc' acct (replace_day (dt_date now) 1)
                   = Some st).
    { rewrite <- Hst.
      apply (get_snapshot_other_key float_of_str svc svc' now acct
               (pv_equity pv) (pv_cash pv) None true).
      - exact Hrange.
      - now apply date_in_range_replace_day.
      - cbn [default]. intros E. injection E as E. apply Hday.
        rewrite <- E. reflexivity.
      - exact Hsave. }
    destruct (period_change_of_snapshots float_of_str svc' (dt_date now) acct
                _ _ _ _ Hst' Htoday) as (pc & Hpc & Hd & _ & _ & Hpos & _).
    rewrite Hpc. cbn [dollars percent equity] in *.
    rewrite Hd. split; [reflexivity|].
    intros H. now rewrite (Hpos H).
Qed.

End AnalyzerExtras.

Lemma analyze_account_monthly_change_witness :
  snapshot_service demo_analyzer = Some service_after_evening /\
  reachable (s3 service_after_evening) = true /\
  get_portfolio_value_for_account (client demo_analyzer) "A1"
  = Ok (mkPortfolioValue 10500 10500 10425 75 75 "A1") /\
  date_in_range (dt_date (at_time 2024 2 1 18 0)) = true /\
  exists a' report,
    _analyze_account no_float demo_analyzer (at_time 2024 2 1 18 0) "A1"
      "individual" 5 = (a', Ok report) /\
    monthly_change_dollars report == 0 /\
    monthly_change_percent report == 0.
Proof.
  split; [reflexivity|]. split; [reflexivity|]. split; [reflexivity|].
  split; [reflexivity|].
  destruct (analyze_account_monthly_change no_float demo_analyzer
              (at_time 2024 2 1 18 0) "A1" "individual" 5 service_after_evening
              (mkPortfolioValue 10500 10500 10425 75 75 "A1")
              eq_refl eq_refl eq_refl eq_refl)
    as (a' & svc' & report & Hrun & _ & _ & Hfirst & _).
  exists a', report. split; [exact Hrun|]. apply Hfirst. reflexivity.
Defined.

(** ** Properties of the dividend totals *)

Import Dividends.

Section DividendFacts.
Variable fromisoformat : string -> option datetime.
Local Open Scope Q_scope.

(** Whatever was paid since the start of the month was paid since the
    start of the year. *)
Lemma since_month_start_since_year_start (now paid : datetime) :
  (1 <= month (dt_date now))%Z ->
  datetime_ge paid (month_start now) = true ->
  datetime_ge paid (year_start now) = true.
Proof.
  unfold datetime_ge, datetime_fields, month_start, year_start. cbn.
  intros Hm.
  rewrite !orb_true_iff, !andb_true_iff, !orb_true_iff, !andb_true_iff,
    !orb_true_iff, !andb_true_iff, !Z.ltb_lt, !Z.eqb_eq.
  lia.
Qed.

Lemma add_if_paid_since_cases (since : datetime) (total : Q) (d : Dividend) :
  add_if_paid_since fromisoformat since total d = total \/
  (add_if_paid_since fromisoformat since total d = total + div_amount d /\
   exists paid paid_date,
     paid_at d = Some paid /\ paid <> EmptyString /\
     fromisoformat (replace_Z paid) = Some paid_date /\
     datetime_ge paid_date since = true).
Proof.
  unfold add_if_paid_since.
  destruct (paid_at d) as [paid|]; [|now left].
  destruct (String.eqb_spec paid "") as [->|Hne]; cbn [negb]; [now left|].
  destruct (fromisoformat (replace_Z paid)) as [pd|] eqn:Hp; [|now left].
  destruct (datetime_ge pd since) eqn:Hge; [|now left].
  right. split; [reflexivity|]. eauto 10.
Qed.

Lemma dividend_totals_ordered (now : datetime) (dividends : list Dividend)
    (m y : Q) :
  (1 <= month (dt_date now))%Z ->
  Forall (fun d => 0 <= div_amount d) dividends ->
  0 <= m -> m <= y ->
  0 <= fold_left (add_if_paid_since fromisoformat (month_start now)) dividends m /\
  fold_left (add_if_paid_since fromisoformat (month_start now)) dividends m
  <= fold_left (add_if_paid_since fromisoformat (year_start now)) dividends y.
Proof.
  intros Hm HF. revert m y.
  induction HF as [|d ds Hd _ IH]; intros m y H0 Hmy; [cbn; auto|].
  cbn [fold_left]. apply IH.
  - destruct (add_if_paid_since_cases (month_start now) m d) as [->|[-> _]]; lra.
  - destruct (add_if_paid_since_cases (month_start now) m d)
      as [->|[-> (paid & pd & Hpaid & Hne & Hparse & Hge)]].
    + destruct (add_if_paid_since_cases (year_start now) y d) as [->|[-> _]]; lra.
    + unfold add_if_paid_since. rewrite Hpaid.
      destruct (String.eqb_spec paid "") as [E|_]; [contradiction|].
      cbn [negb]. rewrite Hparse.
      rewrite (since_month_start_since_year_start _ _ Hm Hge). lra.
Qed.

(** X16.  When no dividend amount is negative, the monthly total is
    never negative and never exceeds the year-to-date total. *)
Theorem monthly_dividends_within_ytd (now : datetime) (dividends : list Dividend) :
  (1 <= month (dt_date now))%Z ->
  Forall (fun d => 0 <= div_amount d) dividends ->
  0 <= _calculate_monthly_dividends fromisoformat now dividends /\
  _calculate_monthly_dividends fromisoformat now dividends
  <= _calculate_ytd_dividends fromisoformat now dividends.
Proof.
  intros Hm HF. unfold _calculate_monthly_dividends, _calculate_ytd_dividends.
  apply dividend_totals_ordered; try assumption; apply Qle_refl.
Qed.

(** X17.  A dividend without [paid_at], with an empty one, or with one
    that is not an ISO date is skipped without an error: removing it
    from the list changes neither total. *)
Theorem unusable_paid_at_is_skipped (now : datetime) (before after : list Dividend)
    (d : Dividend) :
  paid_at d = None \/ paid_at d = Some EmptyString \/
  (exists paid, paid_at d = Some paid /\ fromisoformat (replace_Z paid) = None) ->
  _calculate_monthly_dividends fromisoformat now (before ++ d :: after)
  = _calculate_monthly_dividends fromisoformat now (before ++ after) /\
  _calculate_ytd_dividends fromisoformat now (before ++ d :: after)
  = _calculate_ytd_dividends fromisoformat now (before ++ after).
Proof.
  intros Hd.
  assert (Hskip : forall since total,
            add_if_paid_since fromisoformat since total d = total).
  { intros since total. unfold add_if_paid_since.
    destruct Hd as [ -> | [ -> | (paid & -> & Hp) ] ]; try reflexivity.
    rewrite Hp. now destruct (negb (String.eqb paid "")). }
  unfold _calculate_monthly_dividends, _calculate_ytd_dividends.
  rewrite !fold_left_app. cbn [fold_left]. now rewrite !Hskip.
Qed.

End DividendFacts.

Lemma monthly_dividends_within_ytd_witness :
  (1 <= month (dt_date (at_time 2024 3 15 9 0)))%Z /\
  Forall (fun d => 0 <= div_amount d) demo_dividends /\
  _calculate_monthly_dividends demo_fromisoformat (at_time 2024 3 15 9 0)
    demo_dividends == 830 # 100 /\
  _calculate_ytd_dividends demo_fromisoformat (at_time 2024 3 15 9 0)
    demo_dividends == 2080 # 100 /\
  _calculate_monthly_dividends demo_fromisoformat (at_time 2024 3 15 9 0)
    demo_dividends
  <= _calculate_ytd_dividends demo_fromisoformat (at_time 2024 3 15 9 0)
       demo_dividends.
Proof.
  assert (HF : Forall (fun d => 0 <= div_amount d) demo_dividends).
  { repeat constructor; vm_compute; discriminate. }
  split; [vm_compute; discriminate|]. split; [exact HF|].
  split; [reflexivity|]. split; [reflexivity|].
  apply (monthly_dividends_within_ytd demo_fromisoformat
           (at_time 2024 3 15 9 0) demo_dividends).
  - vm_compute; discriminate.
  - exact HF.
Defined.

Lemma unusable_paid_at_is_skipped_witness :
  (exists paid,
     paid_at (mkDividend "SCHD" (975 # 100) (Some "pending") None) = Some paid /\
     demo_fromisoformat (replace_Z paid) = None) /\
  _calculate_ytd_dividends demo_fromisoformat (at_time 2024 3 15 9 0)
    ([mkDividend "VTI" (1250 # 100) (Some "2024-01-15T14:00:00Z") None]
     ++ mkDividend "SCHD" (975 # 100) (Some "pending") None :: [])
  = _calculate_ytd_dividends demo_fromisoformat (at_time 2024 3 15 9 0)
      ([mkDividend "VTI" (1250 # 100) (Some "2024-01-15T14:00:00Z") None] ++ []).
Proof.
  assert (H : exists paid,
     paid_at (mkDividend "SCHD" (975 # 100) (Some "pending") None) = Some paid /\
     demo_fromisoformat (replace_Z paid) = None).
  { exists "pending"%string. split; reflexivity. }
  split; [exact H|].
  apply (unusable_paid_at_is_skipped demo_fromisoformat (at_time 2024 3 15 9 0)
           [mkDividend "VTI" (1250 # 100) (Some "2024-01-15T14:00:00Z") None] []
           (mkDividend "SCHD" (975 # 100) (Some "pending") None)).
  right. right. exact H.
Defined.

(** ** The latest snapshot *)

Section KeyOrder.

Lemma string_compare_trans (s1 s2 s3 : string) :
  String.compare s1 s2 <> Gt -> String.compare s2 s3 <> Gt ->
  String.compare s1 s3 <> Gt.
Proof.
  revert s2 s3. induction s1 as [|a s1 IH]; intros [|b s2] [|c s3];
    cbn; try congruence.
  unfold Ascii.compare.
  destruct (N.compare_spec (N_of_ascii a) (N_of_ascii b)) as [E1|E1|E1];
    destruct (N.compare_spec (N_of_ascii b) (N_of_ascii c)) as [E2|E2|E2];
    destruct (N.compare_spec (N_of_ascii a) (N_of_ascii c)) as [E3|E3|E3];
    try congruence; try lia.
  apply IH.
Qed.

Lemma key_le_alt (a b : string) : key_le a b <-> String.compare a b <> Gt.
Proof.
  unfold key_le, String.leb. destruct (String.compare a b); split; congruence.
Qed.

#[local] Instance key_le_total : Total key_le.
Proof. intros a b. apply String.leb_total. Qed.

#[local] Instance key_le_trans : Transitive key_le.
Proof.
  intros a b c. rewrite !key_le_alt. apply string_compare_trans.
Qed.

#[local] Instance key_le_antisym : AntiSymm (=) key_le.
Proof. intros a b. apply String.leb_antisym. Qed.

Lemma key_le_refl (a : string) : key_le a a.
Proof. now destruct (String.leb_total a a). Qed.

Lemma last_in (l : list string) (d : string) :
  l <> [] -> List.last l d ∈ l.
Proof.
  induction l as [|x [|y l] IH]; intros Hne; [done| |].
  - cbn. apply list_elem_of_here.
  - apply list_elem_of_further. apply IH. discriminate.
Qed.

Lemma last_of_sorted_is_greatest (l : list string) (d : string) :
  StronglySorted key_le l ->
  forall k, k ∈ l -> key_le k (List.last l d).
Proof.
  induction 1 as [|x l Hs IH Hall]; intros k Hk; [inversion Hk|].
  destruct l as [|y l].
  - apply list_elem_of_singleton in Hk as ->. apply key_le_refl.
  - change (List.last (x :: y :: l) d) with (List.last (y :: l) d).
    apply elem_of_cons in Hk as [->|Hk]; [|now apply IH].
    rewrite Forall_forall in Hall. apply Hall.
    apply last_in. discriminate.
Qed.

(** The last key of a sorted listing is one of the listed keys and no
    listed key is greater. *)
Lemma latest_key_is_greatest (keys : list string) (d : string) :
  keys <> [] ->
  List.last (merge_sort key_le keys) d ∈ keys /\
  forall k, k ∈ keys -> key_le k (List.last (merge_sort key_le keys) d).
Proof.
  intros Hne.
  pose proof (merge_sort_Permutation key_le keys) as Hperm.
  assert (Hne' : merge_sort key_le keys <> []).
  { intros E. rewrite E in Hperm. symmetry in Hperm.
    apply Permutation_nil_r in Hperm. contradiction. }
  split.
  - apply (elem_of_Permutation_proper _ _ _ Hperm). now apply last_in.
  - intros k Hk. apply last_of_sorted_is_greatest.
    + apply StronglySorted_merge_sort; apply _.
    + now apply (elem_of_Permutation_proper _ _ _ Hperm).
Qed.

Lemma elem_of_keys_with_prefix (s : S3) (b p k : string) :
  k ∈ keys_with_prefix s b p <->
  is_Some (objects s !! (b, k)) /\ String.prefix p k = true.
Proof.
  unfold keys_with_prefix. rewrite list_elem_of_fmap. split.
  - intros ([b' k'] & -> & Hin).
    apply list_elem_of_filter in Hin as [[Hb Hp] Hin]. cbn in Hb, Hp. subst b'.
    apply list_elem_of_fmap in Hin as ([kk v] & Heq & Hin). cbn in Heq. subst kk.
    apply elem_of_map_to_list in Hin. cbn. split; [eauto|exact Hp].
  - intros [[v Hv] Hp]. exists (b, k). split; [reflexivity|].
    apply list_elem_of_filter. split; [split; [reflexivity|exact Hp]|].
    apply list_elem_of_fmap. exists ((b, k), v). split; [reflexivity|].
    now apply elem_of_map_to_list.
Qed.

Lemma NoDup_keys_with_prefix (s : S3) (b p : string) :
  NoDup (keys_with_prefix s b p).
Proof.
  unfold keys_with_prefix. apply NoDup_fmap_2_strong.
  - intros [b1 k1] [b2 k2] H1 H2 E. cbn in E. subst k2.
    apply list_elem_of_filter in H1 as [[Hb1 _] _].
    apply list_elem_of_filter in H2 as [[Hb2 _] _].
    cbn in Hb1, Hb2. congruence.
  - apply NoDup_filter, NoDup_fst_map_to_list.
Qed.

Lemma prefix_append (a b c : string) :
  String.prefix (a +:+ b) (a +:+ c) = String.prefix b c.
Proof.
  induction a as [|x a IH]; [reflexivity|].
  simpl. destruct (Ascii.ascii_dec x x); [exact IH|contradiction].
Qed.

Lemma snapshot_key_has_prefix (acct ds : string) :
  String.prefix (SNAPSHOT_PREFIX +:+ "/account-" +:+ acct +:+ "/")
    (snapshot_key acct ds) = true.
Proof.
  unfold snapshot_key. rewrite !prefix_append.
  change (String.prefix "/" ("/" +:+ ds +:+ ".json"))
    with (String.prefix ("/" +:+ "") ("/" +:+ (ds +:+ ".json"))).
  rewrite prefix_append. now destruct (ds +:+ ".json").
Qed.

End KeyOrder.

Section KeyDates.

(** *** Keys sort by date *)

Lemma ascii_compare_refl (c : ascii) : Ascii.compare c c = Eq.
Proof. apply N.compare_refl. Qed.

Lemma compare_append_same (a x y : string) :
  String.compare (a +:+ x) (a +:+ y) = String.compare x y.
Proof.
  induction a as [|c a IH]; [reflexivity|].
  simpl. now rewrite ascii_compare_refl.
Qed.

Lemma compare_append_length (x y s t : string) :
  String.length x = String.length y ->
  String.compare (x +:+ s) (y +:+ t)
  = match String.compare x y with
    | Eq => String.compare s t
    | c => c
    end.
Proof.
  revert y. induction x as [|a x IH]; intros [|b y] Hlen; try discriminate.
  - reflexivity.
  - simpl. injection Hlen as Hlen.
    destruct (Ascii.compare a b); [now apply IH|reflexivity..].
Qed.

Lemma digit_compare (a b : Z) :
  Ascii.compare (digit a) (digit b) = Z.compare (a mod 10) (b mod 10).
Proof.
  unfold Ascii.compare, digit, ascii_of_nat.
  pose proof (Z.mod_pos_bound a 10) as Ha.
  pose proof (Z.mod_pos_bound b 10) as Hb.
  rewrite !N_ascii_embedding by lia.
  destruct (Z.compare_spec (a mod 10) (b mod 10)) as [E|E|E].
  - rewrite E. apply N.compare_refl.
  - apply N.compare_lt_iff. lia.
  - apply N.compare_gt_iff. lia.
Qed.

Lemma Z_compare_by_digits (a b : Z) :
  Z.compare a b
  = match Z.compare (a / 10) (b / 10) with
    | Eq => Z.compare (a mod 10) (b mod 10)
    | c => c
    end.
Proof.
  pose proof (Z.div_mod a 10) as Da. pose proof (Z.div_mod b 10) as Db.
  pose proof (Z.mod_pos_bound a 10) as Ha.
  pose proof (Z.mod_pos_bound b 10) as Hb.
  destruct (Z.compare_spec (a / 10) (b / 10)) as [E|E|E].
  - destruct (Z.compare_spec (a mod 10) (b mod 10)) as [E'|E'|E'].
    + apply Z.compare_eq_iff. lia.
    + apply Z.compare_lt_iff. lia.
    + apply Z.compare_gt_iff. lia.
  - apply Z.compare_lt_iff. lia.
  - apply Z.compare_gt_iff. lia.
Qed.

Lemma zfill_compare (w : nat) (a b : Z) :
  (0 <= a < 10 ^ Z.of_nat w)%Z -> (0 <= b < 10 ^ Z.of_nat w)%Z ->
  String.compare (zfill w a) (zfill w b) = Z.compare a b.
Proof.
  revert a b. induction w as [|w IH]; intros a b Ha Hb.
  - change (10 ^ Z.of_nat 0)%Z with 1%Z in Ha, Hb.
    assert (a = 0%Z) by lia. assert (b = 0%Z) by lia. subst. reflexivity.
  - cbn [zfill].
    rewrite compare_append_length by (now rewrite !zfill_length).
    rewrite Nat2Z.inj_succ, Z.pow_succ_r in Ha, Hb by lia.
    rewrite IH.
    + rewrite (Z_compare_by_digits a b).
      destruct (Z.compare (a / 10) (b / 10)); try reflexivity.
      cbn [String.compare]. rewrite digit_compare.
      now destruct (Z.compare (a mod 10) (b mod 10)).
    + split; [apply Z.div_pos; lia|apply Z.div_lt_upper_bound; lia].
    + split; [apply Z.div_pos; lia|apply Z.div_lt_upper_bound; lia].
Qed.

Lemma strftime_ymd_compare (d1 d2 : date) :
  date_in_range d1 = true -> date_in_range d2 = true ->
  String.compare (strftime_ymd d1) (strftime_ymd d2) = date_compare d1 d2.
Proof.
  intros H1 H2. apply date_in_range_bounds in H1, H2.
  unfold strftime_ymd, date_compare.
  rewrite compare_append_length by (now rewrite !zfill_length).
  rewrite (zfill_compare 4) by (cbn; lia).
  destruct (Z.compare (year d1) (year d2)); try reflexivity.
  rewrite (compare_append_same "-").
  rewrite compare_append_length by (now rewrite !zfill_length).
  rewrite (zfill_compare 2) by (cbn; lia).
  destruct (Z.compare (month d1) (month d2)); try reflexivity.
  rewrite (compare_append_same "-").
  apply (zfill_compare 2); cbn; lia.
Qed.

Lemma snapshot_key_compare (acct : string) (d1 d2 : date) :
  date_in_range d1 = true -> date_in_range d2 = true ->
  String.compare (snapshot_key acct (strftime_ymd d1))
    (snapshot_key acct (strftime_ymd d2))
  = date_compare d1 d2.
Proof.
  intros H1 H2. unfold snapshot_key.
  rewrite !compare_append_same.
  rewrite compare_append_length by (now rewrite !strftime_ymd_length).
  rewrite strftime_ymd_compare by assumption.
  now destruct (date_compare d1 d2).
Qed.

(** X19.  The keys of an account sort by date: for two dates in
    Python's range whose years have four digits (from 1000 on, [%Y] is
    four characters on every platform), one key is lexicographically at
    most the other exactly when its date is not later, and the same holds
    for the date strings themselves. *)
Theorem keys_sort_by_date (acct : string) (d1 d2 : date) :
  date_in_range d1 = true -> date_in_range d2 = true ->
  (1000 <= year d1)%Z -> (1000 <= year d2)%Z ->
  (key_le (snapshot_key acct (strftime_ymd d1))
     (snapshot_key acct (strftime_ymd d2)) <-> date_le d1 d2 = true) /\
  String.leb (strftime_ymd d1) (strftime_ymd d2) = date_le d1 d2.
Proof.
  intros H1 H2 _ _. unfold key_le, String.leb, date_le.
  rewrite snapshot_key_compare, strftime_ymd_compare by assumption.
  split; [reflexivity|reflexivity].
Qed.

Lemma snapshot_key_le_of_date_le (acct : string) (d1 d2 : date) :
  date_in_range d1 = true -> date_in_range d2 = true ->
  date_le d1 d2 = true ->
  key_le (snapshot_key acct (strftime_ymd d1)) (snapshot_key acct (strftime_ymd d2)).
Proof.
  intros H1 H2 Hle. unfold key_le, String.leb.
  rewrite snapshot_key_compare by assumption. exact Hle.
Qed.

End KeyDates.

Section LatestSnapshot.
Variable float_of_str : string -> result Q.

(** The prefix under which the snapshots of an account are listed. *)
Abbreviation account_prefix acct :=
  (SNAPSHOT_PREFIX +:+ "/account-" +:+ acct +:+ "/").

Lemma get_latest_snapshot_greatest (svc : SnapshotService) (acct : string)
    (d : date) :
  (length (keys_with_prefix (s3 svc) (bucket svc) (account_prefix acct))
     <= MAX_KEYS)%nat ->
  is_Some (objects (s3 svc)
             !! (bucket svc, snapshot_key acct (strftime_ymd d))) ->
  (forall k, k ∈ keys_with_prefix (s3 svc) (bucket svc) (account_prefix acct) ->
             key_le k (snapshot_key acct (strftime_ymd d))) ->
  get_latest_snapshot float_of_str svc acct = get_snapshot float_of_str svc acct d.
Proof.
  intros Hlen Hsome Hmax.
  unfold get_latest_snapshot, list_objects_v2, get_snapshot.
  destruct (reachable (s3 svc)) eqn:Hr;
    [|unfold get_object; rewrite Hr; reflexivity].
  cbn [rbind].
  set (keys := keys_with_prefix (s3 svc) (bucket svc) (account_prefix acct)) in *.
  set (K := snapshot_key acct (strftime_ymd d)) in *.
  pose proof (merge_sort_Permutation key_le keys) as Hperm.
  rewrite take_ge by (now rewrite (Permutation_length Hperm)).
  assert (HK : K ∈ keys).
  { apply elem_of_keys_with_prefix. split; [exact Hsome|].
    apply snapshot_key_has_prefix. }
  assert (HKc : K ∈ merge_sort key_le keys)
    by (now apply (elem_of_Permutation_proper _ _ _ Hperm)).
  destruct (merge_sort key_le keys) as [|first_key rest] eqn:Hsorted;
    [inversion HKc|].
  destruct (latest_key_is_greatest (first_key :: rest) first_key)
    as [Hin Hgreatest]; [discriminate|].
  set (latest := List.last (merge_sort key_le (first_key :: rest)) first_key) in *.
  assert (E : latest = K).
  { apply (key_le_antisym latest K).
    - apply Hmax. now apply (elem_of_Permutation_proper _ _ _ Hperm).
    - now apply Hgreatest. }
  now rewrite E.
Qed.

(** X18.  [get_latest_snapshot] returns [None], without an error, when
    the store does not answer or holds no object under the account's
    prefix.  Otherwise, as long as the account's keys fit one page of a
    listing, it returns what [get_snapshot] returns for the day whose key
    is the greatest one stored under the prefix. *)
Theorem latest_snapshot_is_greatest_key (svc : SnapshotService) (acct : string) :
  (reachable (s3 svc) = false \/
   (forall k, String.prefix (account_prefix acct) k = true ->
              objects (s3 svc) !! (bucket svc, k) = None) ->
   get_latest_snapshot float_of_str svc acct = None) /\
  (forall d,
     (length (keys_with_prefix (s3 svc) (bucket svc) (account_prefix acct))
        <= MAX_KEYS)%nat ->
     is_Some (objects (s3 svc)
                !! (bucket svc, snapshot_key acct (strftime_ymd d))) ->
     (forall k, String.prefix (account_prefix acct) k = true ->
                is_Some (objects (s3 svc) !! (bucket svc, k)) ->
                key_le k (snapshot_key acct (strftime_ymd d))) ->
     get_latest_snapshot float_of_str svc acct
     = get_snapshot float_of_str svc acct d).
Proof.
  split.
  - intros Hcase. unfold get_latest_snapshot, list_objects_v2.
    destruct Hcase as [ -> | Hnone ]; [reflexivity|].
    destruct (reachable (s3 svc)); [|reflexivity]. cbn [rbind].
    assert (E : keys_with_prefix (s3 svc) (bucket svc) (account_prefix acct) = []).
    { apply elem_of_nil_inv. intros k Hk.
      apply elem_of_keys_with_prefix in Hk as [[v Hv] Hp].
      rewrite (Hnone k Hp) in Hv. discriminate. }
    rewrite E. reflexivity.
  - intros d Hlen Hsome Hmax.
    apply get_latest_snapshot_greatest; [assumption..|].
    intros k Hk. apply elem_of_keys_with_prefix in Hk as [Hs Hp]. now apply Hmax.
Qed.

(** X20.  After a successful save dated [d], when every key stored under
    the account's prefix is the key of a date in range that is not after
    [d], all years have four digits and fewer than 1000 such keys are
    stored, [get_latest_snapshot] returns the snapshot just saved. *)
Theorem latest_snapshot_after_save (svc svc' : SnapshotService) (now : datetime)
    (acct : string) (e c : Q) (ts : option datetime) :
  save_snapshot svc now acct e c ts = (svc', true) ->
  date_in_range (dt_date (default now ts)) = true ->
  (1000 <= year (dt_date (default now ts)))%Z ->
  (length (keys_with_prefix (s3 svc) (bucket svc) (account_prefix acct))
     < MAX_KEYS)%nat ->
  (forall k, String.prefix (account_prefix acct) k = true ->
             is_Some (objects (s3 svc) !! (bucket svc, k)) ->
             exists d0, date_in_range d0 = true /\ (1000 <= year d0)%Z /\
                        k = snapshot_key acct (strftime_ymd d0) /\
                        date_le d0 (dt_date (default now ts)) = true) ->
  get_latest_snapshot float_of_str svc' acct
  = Some (mkPortfolioSnapshot (JStr acct)
            (JStr (isoformat (default now ts))) e c).
Proof.
  intros Hsave Hrange _ Hlen Hkeys.
  rewrite <- (get_snapshot_after_save float_of_str _ _ _ _ _ _ _ Hsave).
  set (d := dt_date (default now ts)) in *.
  set (K := snapshot_key acct (strftime_ymd d)).
  assert (Hsvc' : bucket svc' = bucket svc /\
                  objects (s3 svc')
                  = <[(bucket svc, K) :=
                        json_dumps (to_dict
                          (mkPortfolioSnapshot (JStr acct)
                             (JStr (isoformat (default now ts))) e c))]>
                      (objects (s3 svc))).
  { revert Hsave. unfold save_snapshot, put_object.
    change (match ts with Some t => t | None => now end) with (default now ts).
    destruct (reachable (s3 svc)); cbn [rbind catch]; [|discriminate].
    intros H. injection H as <-. split; reflexivity. }
  destruct Hsvc' as [Hb Hobj].
  assert (Hsub : forall k,
            k ∈ keys_with_prefix (s3 svc') (bucket svc') (account_prefix acct) ->
            k = K \/
            k ∈ keys_with_prefix (s3 svc) (bucket svc) (account_prefix acct)).
  { intros k Hk. apply elem_of_keys_with_prefix in Hk as [Hs Hp].
    rewrite Hb, Hobj in Hs.
    destruct (decide (k = K)) as [->|Hne]; [now left|right].
    rewrite lookup_insert_ne in Hs by congruence.
    apply elem_of_keys_with_prefix. auto. }
  apply get_latest_snapshot_greatest.
  - assert (Hle : (length (keys_with_prefix (s3 svc') (bucket svc')
                             (account_prefix acct))
                   <= length (K :: keys_with_prefix (s3 svc) (bucket svc)
                                     (account_prefix acct)))%nat).
    { apply submseteq_length, NoDup_submseteq;
        [apply NoDup_keys_with_prefix|].
      intros k Hk. apply elem_of_cons. now apply Hsub. }
    cbn [length] in Hle. lia.
  - rewrite Hb, Hobj. fold K. rewrite lookup_insert_eq. eauto.
  - intros k Hk. destruct (Hsub k Hk) as [->|Hold]; [apply key_le_refl|].
    apply elem_of_keys_with_prefix in Hold as [Hs Hp].
    destruct (Hkeys k Hp Hs) as (d0 & Hr0 & _ & -> & Hle).
    now apply snapshot_key_le_of_date_le.
Qed.

End LatestSnapshot.

Lemma latest_snapshot_is_greatest_key_witness :
  get_latest_snapshot no_float empty_service "A1" = None /\
  get_latest_snapshot no_float service_after_march "A1"
  = get_snapshot no_float service_after_march "A1" (mkDate 2024 3 1).
Proof.
  destruct (latest_snapshot_is_greatest_key no_float empty_service "A1")
    as [Hnone _].
  destruct (latest_snapshot_is_greatest_key no_float service_after_march "A1")
    as [_ Hlatest].
  split.
  - apply Hnone. right. intros k _. reflexivity.
  - apply Hlatest.
    + apply Nat.leb_le. vm_compute. reflexivity.
    + vm_compute. eauto.
    + intros k Hp Hs.
      assert (Hk : k ∈ keys_with_prefix (s3 service_after_march)
                        (bucket service_after_march)
                        (SNAPSHOT_PREFIX +:+ "/account-" +:+ "A1" +:+ "/"))
        by (apply elem_of_keys_with_prefix; auto).
      assert (E : keys_with_prefix (s3 service_after_march)
                    (bucket service_after_march)
                    (SNAPSHOT_PREFIX +:+ "/account-" +:+ "A1" +:+ "/")
                  = [snapshot_key "A1" "2024-03-01";
                     snapshot_key "A1" "2024-01-01";
                     snapshot_key "A1" "2024-02-01"])
        by (vm_compute; reflexivity).
      rewrite E in Hk.
      repeat (apply elem_of_cons in Hk as [->|Hk]; [vm_compute; reflexivity|]).
      inversion Hk.
Defined.

Lemma keys_sort_by_date_witness :
  date_in_range (mkDate 2023 12 31) = true /\
  date_in_range (mkDate 2024 1 1) = true /\
  (1000 <= year (mkDate 2023 12 31))%Z /\
  (1000 <= year (mkDate 2024 1 1))%Z /\
  (key_le (snapshot_key "A1" (strftime_ymd (mkDate 2023 12 31)))
     (snapshot_key "A1" (strftime_ymd (mkDate 2024 1 1)))
   <-> date_le (mkDate 2023 12 31) (mkDate 2024 1 1) = true) /\
  String.leb (strftime_ymd (mkDate 2023 12 31)) (strftime_ymd (mkDate 2024 1 1))
  = date_le (mkDate 2023 12 31) (mkDate 2024 1 1).
Proof.
  split; [reflexivity|]. split; [reflexivity|].
  split; [cbn; lia|]. split; [cbn; lia|].
  apply (keys_sort_by_date "A1" (mkDate 2023 12 31) (mkDate 2024 1 1));
    [reflexivity|reflexivity|cbn; lia|cbn; lia].
Defined.

Lemma latest_snapshot_after_save_witness :
  save_snapshot service_after_evening (at_time 2024 3 1 9 0) "A1" 9975 80 None
  = (service_after_march, true) /\
  date_in_range (dt_date (default (at_time 2024 3 1 9 0) None)) = true /\
  (1000 <= year (dt_date (default (at_time 2024 3 1 9 0) None)))%Z /\
  get_latest_snapshot no_float service_after_march "A1"
  = Some (mkPortfolioSnapshot (JStr "A1") (JStr "2024-03-01T09:00:00") 9975 80).
Proof.
  split; [reflexivity|]. split; [reflexivity|]. split; [cbn; lia|].
  apply (latest_snapshot_after_save no_float service_after_evening
           service_after_march (at_time 2024 3 1 9 0) "A1" 9975 80 None).
  - reflexivity.
  - reflexivity.
  - cbn; lia.
  - apply Nat.ltb_lt. vm_compute. reflexivity.
  - intros k Hp Hs.
    assert (Hk : k ∈ keys_with_prefix (s3 service_after_evening)
                      (bucket service_after_evening)
                      (SNAPSHOT_PREFIX +:+ "/account-" +:+ "A1" +:+ "/"))
      by (apply elem_of_keys_with_prefix; auto).
    assert (E : keys_with_prefix (s3 service_after_evening)
                  (bucket service_after_evening)
                  (SNAPSHOT_PREFIX +:+ "/account-" +:+ "A1" +:+ "/")
                = [snapshot_key "A1" (strftime_ymd (mkDate 2024 1 1));
                   snapshot_key "A1" (strftime_ymd (mkDate 2024 2 1))])
      by (vm_compute; reflexivity).
    rewrite E in Hk.
    apply elem_of_cons in Hk as [->|Hk];
      [exists (mkDate 2024 1 1);
       split; [reflexivity|split; [cbn; lia|split; reflexivity]]|].
    apply elem_of_cons in Hk as [->|Hk];
      [exists (mkDate 2024 2 1);
       split; [reflexivity|split; [cbn; lia|split; reflexivity]]|].
    inversion Hk.
Defined.


(** ** Further properties of the snapshot store and the account report *)

Section StoreExtras.
Variable float_of_str : string -> result Q.
Local Open Scope Q_scope.

(** X22.  Saving is idempotent: repeating a successful save with the
    same account, amounts and timestamp leaves the store exactly as the
    first save left it. *)
Theorem save_snapshot_idempotent (svc svc1 : SnapshotService) (now : datetime)
    (acct : string) (e c : Q) (ts : option datetime) :
  save_snapshot svc now acct e c ts = (svc1, true) ->
  save_snapshot svc1 now acct e c ts = (svc1, true).
Proof.
  unfold save_snapshot, put_object.
  destruct (reachable (s3 svc)) eqn:Hr; cbn [rbind catch]; [|discriminate].
  intros H. injection H as <-. cbn [s3 bucket reachable objects catch rbind].
  now rewrite insert_insert_eq.
Qed.

(** X23.  [from_dict] reads the four fields only: a dict with any
    further key gives the same snapshot, or the same error. *)
Theorem from_dict_ignores_other_keys (data : gmap string jvalue)
    (key : string) (v : jvalue) :
  key <> "account_number" -> key <> "timestamp" ->
  key <> "equity" -> key <> "cash" ->
  from_dict float_of_str (<[key := v]> data) = from_dict float_of_str data.
Proof.
  intros H1 H2 H3 H4. unfold from_dict, getitem.
  now rewrite !lookup_insert_ne by assumption.
Qed.

Lemma account_performance_run (c : RobinhoodClient) (acct : string)
    (pv : PortfolioValue) :
  _logged_in c = true ->
  api_portfolio_value c acct = Ok pv ->
  exists perf, calculate_account_performance c acct = Ok (Some perf).
Proof.
  intros Hin Hpv.
  unfold calculate_account_performance, get_portfolio_value_for_account,
    get_holdings_for_account.
  rewrite (ensure_logged_in_ok _ Hin). cbn [rbind]. rewrite Hpv. cbn [rbind].
  destruct (fold_left accumulate_holding (api_holdings c acct) (0, 0, 0))
    as [[cost cur] gain].
  destruct (py_gt cost 0) eqn:Ec.
  - apply py_gt_true in Ec. rewrite py_div_ok by lra. cbn [rbind catch]. eauto.
  - cbn [rbind catch]. eauto.
Qed.

Lemma first_of_year_is_today (d : date) :
  month d = 1%Z -> day d = 1%Z -> replace_month_day d 1 1 = d.
Proof. destruct d as [y m dd]. cbn. now intros -> ->. Qed.

Lemma date_in_range_replace_month_day (d : date) :
  date_in_range d = true -> date_in_range (replace_month_day d 1 1) = true.
Proof.
  intros H. apply date_in_range_bounds in H. unfold date_in_range. cbn.
  rewrite !andb_true_iff, !Z.leb_le. lia.
Qed.

(** X24.  The year-to-date change of [_analyze_account] is measured the
    same way against the snapshot of January 1: on January 1 it is zero;
    on any other day, when the snapshot of January 1 is there, the
    reported dollar change is the fetched equity less that snapshot's
    equity, rounded to two places; when it is missing, the change falls
    back to the holdings-based gain. *)
Theorem analyze_account_ytd_change (a : PortfolioAnalyzer) (now : datetime)
    (acct account_type : string) (top_n : Z) (svc : SnapshotService)
    (pv : PortfolioValue) :
  snapshot_service a = Some svc ->
  reachable (s3 svc) = true ->
  get_portfolio_value_for_account (client a) acct = Ok pv ->
  date_in_range (dt_date now) = true ->
  exists a' report,
    _analyze_account float_of_str a now acct account_type top_n = (a', Ok report) /\
    (month (dt_date now) = 1%Z -> day (dt_date now) = 1%Z ->
       ytd_change_dollars report == 0 /\ ytd_change_percent report == 0) /\
    (forall st,
       replace_month_day (dt_date now) 1 1 <> dt_date now ->
       get_snapshot float_of_str svc acct (replace_month_day (dt_date now) 1 1)
       = Some st ->
       ytd_change_dollars report = py_round (pv_equity pv - equity st) 2 /\
       (0 < equity st ->
          ytd_change_percent report
          = py_round ((pv_equity pv - equity st) / equity st * 100) 2)) /\
    (replace_month_day (dt_date now) 1 1 <> dt_date now ->
     get_snapshot float_of_str svc acct (replace_month_day (dt_date now) 1 1)
     = None ->
     exists perf,
       calculate_account_performance (client a) acct = Ok (Some perf) /\
       ytd_change_dollars report = py_round (gain_loss_dollars perf) 2 /\
       ytd_change_percent report = py_round (gain_loss_percent perf) 2).
Proof.
  intros Hsvc Hreach Hpv Hrange.
  pose proof (analyze_account_run float_of_str a now acct account_type top_n
                pv Hpv) as Hrun.
  cbv zeta in Hrun. rewrite Hsvc in Hrun.
  set (svc' := fst (save_snapshot svc now acct (pv_equity pv) (pv_cash pv) None)) in *.
  destruct (save_snapshot_reachable svc now acct (pv_equity pv) (pv_cash pv)
              None Hreach) as (Hok & _ & _).
  assert (Hsave : save_snapshot svc now acct (pv_equity pv) (pv_cash pv) None
                  = (svc', true)).
  { subst svc'. rewrite <- Hok. now destruct (save_snapshot _ _ _ _ _ _). }
  pose proof (get_snapshot_after_save float_of_str _ _ _ _ _ _ _ Hsave) as Htoday.
  cbn [default] in Htoday.
  assert (Hframe : replace_month_day (dt_date now) 1 1 <> dt_date now ->
            get_snapshot float_of_str svc' acct (replace_month_day (dt_date now) 1 1)
            = get_snapshot float_of_str svc acct (replace_month_day (dt_date now) 1 1)).
  { intros Hne.
    apply (get_snapshot_other_key float_of_str svc svc' now acct
             (pv_equity pv) (pv_cash pv) None true).
    - exact Hrange.
    - now apply date_in_range_replace_month_day.
    - cbn [default]. intros E. injection E as E. now apply Hne.
    - exact Hsave. }
  eexists. eexists. split; [exact Hrun|].
  cbn [ytd_change_dollars ytd_change_percent].
  unfold three_tier_change, snapshot_tier, period_start.
  cbn [snapshot_service String.eqb Ascii.eqb Bool.eqb].
  split; [|split].
  - intros Hm Hd. rewrite (first_of_year_is_today _ Hm Hd).
    destruct (period_change_of_snapshots float_of_str svc' (dt_date now) acct
                _ _ _ _ Htoday Htoday) as (pc & Hpc & Hdl & _ & _ & Hpos & Hnonpos).
    rewrite Hpc. cbn [dollars percent equity] in *.
    assert (Hd0 : change_dollars pc == 0) by (rewrite Hdl; ring).
    assert (Hp0 : change_percent pc == 0).
    { destruct (Qlt_le_dec 0 (pv_equity pv)) as [H|H].
      - rewrite (Hpos H). field. lra.
      - rewrite (Hnonpos H). reflexivity. }
    rewrite (py_round_comp _ 0 2 Hd0), (py_round_comp _ 0 2 Hp0).
    split; apply py_round_zero.
  - intros st Hne Hst. rewrite <- (Hframe Hne) in Hst.
    destruct (period_change_of_snapshots float_of_str svc' (dt_date now) acct
                _ _ _ _ Hst Htoday) as (pc & Hpc & Hdl & _ & _ & Hpos & _).
    rewrite Hpc. cbn [dollars percent equity] in *.
    rewrite Hdl. split; [reflexivity|].
    intros H. now rewrite (Hpos H).
  - intros Hne Hnone. rewrite <- (Hframe Hne) in Hnone.
    rewrite (period_change_without_snapshot float_of_str svc' (dt_date now) acct)
      by (now left).
    pose proof (portfolio_value_needs_login _ _ _ Hpv) as Hin.
    assert (Hapi : api_portfolio_value (client a) acct = Ok pv).
    { revert Hpv. unfold get_portfolio_value_for_account.
      now rewrite (ensure_logged_in_ok _ Hin). }
    destruct (account_performance_run (client a) acct pv Hin Hapi)
      as (perf & Hperf).
    exists perf. split; [exact Hperf|].
    unfold holdings_tier. cbn [client]. rewrite Hperf. auto.
Qed.

End StoreExtras.

Lemma save_snapshot_idempotent_witness :
  save_snapshot service_after_evening (at_time 2024 3 1 9 0) "A1" 9975 80 None
  = (service_after_march, true) /\
  save_snapshot service_after_march (at_time 2024 3 1 9 0) "A1" 9975 80 None
  = (service_after_march, true).
Proof.
  split; [reflexivity|].
  apply (save_snapshot_idempotent service_after_evening service_after_march
           (at_time 2024 3 1 9 0) "A1" 9975 80 None).
  reflexivity.
Defined.

Lemma from_dict_ignores_other_keys_witness :
  ("note" <> "account_number")%string /\ ("note" <> "timestamp")%string /\
  ("note" <> "equity")%string /\ ("note" <> "cash")%string /\
  from_dict no_float
    (<["note" := JStr "manual"]>
       (to_dict (mkPortfolioSnapshot (JStr "A1") (JStr "2024-03-01T09:00:00") 9975 80)))
  = from_dict no_float
      (to_dict (mkPortfolioSnapshot (JStr "A1") (JStr "2024-03-01T09:00:00") 9975 80)).
Proof.
  assert (H1 : ("note" <> "account_number")%string) by discriminate.
  assert (H2 : ("note" <> "timestamp")%string) by discriminate.
  assert (H3 : ("note" <> "equity")%string) by discriminate.
  assert (H4 : ("note" <> "cash")%string) by discriminate.
  split; [exact H1|]. split; [exact H2|]. split; [exact H3|]. split; [exact H4|].
  apply (from_dict_ignores_other_keys no_float); assumption.
Defined.

Lemma analyze_account_ytd_change_witness :
  snapshot_service demo_analyzer = Some service_after_evening /\
  reachable (s3 service_after_evening) = true /\
  get_portfolio_value_for_account (client demo_analyzer) "A1"
  = Ok (mkPortfolioValue 10500 10500 10425 75 75 "A1") /\
  date_in_range (dt_date (at_time 2024 2 1 18 0)) = true /\
  exists a' report,
    _analyze_account no_float demo_analyzer (at_time 2024 2 1 18 0) "A1"
      "individual" 5 = (a', Ok report) /\
    ytd_change_dollars report = py_round (10500 - 10000) 2.
Proof.
  split; [reflexivity|]. split; [reflexivity|]. split; [reflexivity|].
  split; [reflexivity|].
  destruct (analyze_account_ytd_change no_float demo_analyzer
              (at_time 2024 2 1 18 0) "A1" "individual" 5 service_after_evening
              (mkPortfolioValue 10500 10500 10425 75 75 "A1")
              eq_refl eq_refl eq_refl eq_refl)
    as (a' & report & Hrun & _ & Hjan & _).
  exists a', report. split; [exact Hrun|].
  apply (Hjan (mkPortfolioSnapshot (JStr "A1") (JStr "2024-01-01T09:00:00") 10000 50)).
  - discriminate.
  - vm_compute. reflexivity.
Defined.

Import LocalTest.


(** ** Properties of the progress bar of scripts/local_test.py *)

Section ProgressBar.
Local Open Scope Q_scope.

Lemma repeat_string_length (s : string) (n : nat) :
  String.length (repeat_string s n) = (n * String.length s)%nat.
Proof.
  induction n as [|n IH]; [reflexivity|].
  cbn [repeat_string]. rewrite length_append, IH. lia.
Qed.

Lemma progress_bar_length (p : Q) :
  let filled := py_int (inject_Z bar_width * py_min p 100 / 100) in
  String.length (progress_bar p)
  = (2 + Z.to_nat filled + Z.to_nat (bar_width - filled))%nat.
Proof.
  cbv zeta. unfold progress_bar, py_mul_str.
  rewrite !length_append, !repeat_string_length.
  change (String.length "[") with 1%nat. change (String.length "#") with 1%nat.
  change (String.length "-") with 1%nat. change (String.length "]") with 1%nat.
  lia.
Qed.

Lemma py_min_le_100 (p : Q) : py_min p 100 <= 100 /\ py_min p 100 <= p /\
  (p <= 100 -> py_min p 100 = p).
Proof.
  unfold py_min. destruct (py_gt p 100) eqn:E.
  - apply py_gt_true in E. repeat split; try lra; intros; exfalso; lra.
  - apply py_gt_false in E. repeat split; try lra; intros; reflexivity.
Qed.

Lemma py_int_bounds (x : Q) :
  (0 <= x -> inject_Z (py_int x) <= x /\ x < inject_Z (py_int x) + 1) /\
  (x < 0 -> x <= inject_Z (py_int x) /\ inject_Z (py_int x) < x + 1).
Proof.
  unfold py_int. split; intros Hx.
  - rewrite (proj2 (Qle_bool_iff 0 x) Hx).
    split; [apply Qfloor_le|].
    pose proof (Qlt_floor x) as H. rewrite inject_Z_plus in H. exact H.
  - destruct (Qle_bool 0 x) eqn:E; [apply Qle_bool_iff in E; lra|].
    split; [apply Qle_ceiling|].
    pose proof (Qceiling_lt x) as H.
    replace (Qceiling x - 1)%Z with (Qceiling x + (-1))%Z in H by lia.
    rewrite inject_Z_plus in H.
    assert (E1 : inject_Z (-1) == - 1) by reflexivity.
    rewrite E1 in H. lra.
Qed.

(** X21.  The progress bar of [print_retirement_progress] has its 40
    cells between the brackets exactly when [percent_complete] is above
    -2.5; at -2.5 or below the bar grows beyond 40 cells, and from 100
    upwards it is completely filled. *)
Theorem progress_bar_width (p : Q) :
  (- (5 # 2) < p -> String.length (progress_bar p) = 42%nat) /\
  (p <= - (5 # 2) -> (42 < String.length (progress_bar p))%nat) /\
  (100 <= p -> progress_bar p = "[" +:+ repeat_string "#" 40 +:+ "]").
Proof.
  pose proof (progress_bar_length p) as Hlen. cbv zeta in Hlen.
  destruct (py_min_le_100 p) as (H100 & Hp & Hid).
  set (x := inject_Z bar_width * py_min p 100 / 100) in *.
  assert (Hx : x == (2 # 5) * py_min p 100).
  { subst x. unfold bar_width. field. }
  destruct (py_int_bounds x) as [Hnonneg Hneg].
  assert (Hz : forall a b : Z, inject_Z a < inject_Z b + 1 -> (a <= b)%Z).
  { intros a b H. change 1 with (inject_Z 1) in H.
    rewrite <- inject_Z_plus, <- Zlt_Qlt in H. lia. }
  split; [|split].
  - intros Hlow. rewrite Hlen.
    assert (H0 : (0 <= py_int x)%Z).
    { destruct (Qlt_le_dec x 0) as [Hx0|Hx0].
      - destruct (Hneg Hx0) as [Hlo _].
        assert (Hm1 : - 1 < x).
        { rewrite Hx. unfold py_min in *. destruct (py_gt p 100); lra. }
        assert (Hq : inject_Z (-1) < inject_Z (py_int x)).
        { assert (E1 : inject_Z (-1) == - 1) by reflexivity. rewrite E1. lra. }
        rewrite <- Zlt_Qlt in Hq. lia.
      - destruct (Hnonneg Hx0) as [_ Hup].
        apply (Hz 0%Z). change (inject_Z 0) with 0. lra. }
    assert (H40 : (py_int x <= 40)%Z).
    { destruct (Qlt_le_dec x 0) as [Hx0|Hx0].
      - destruct (Hneg Hx0) as [_ Hup].
        apply (Hz _ 40%Z). change (inject_Z 40) with 40. lra.
      - destruct (Hnonneg Hx0) as [Hlo _].
        apply (Hz _ 40%Z). change (inject_Z 40) with 40. lra. }
    unfold bar_width. lia.
  - intros Hlow. rewrite Hlen.
    assert (Hx0 : x <= - 1).
    { rewrite Hx. rewrite Hid by lra. lra. }
    destruct Hneg as [_ Hup]; [lra|].
    assert (Hneg1 : (py_int x <= -1)%Z).
    { apply (Hz _ (-1)%Z). change (inject_Z (-1)) with (-1). lra. }
    unfold bar_width. lia.
  - intros Hhigh.
    assert (Hx40 : x == inject_Z 40).
    { rewrite Hx. change (inject_Z 40) with 40. unfold py_min in *.
      destruct (py_gt p 100); lra. }
    assert (Hfilled : py_int x = 40%Z).
    { unfold py_int.
      rewrite (proj2 (Qle_bool_iff 0 x))
        by (rewrite Hx40; change (inject_Z 40) with 40; lra).
      rewrite (Qfloor_comp _ _ Hx40). apply Qfloor_Z. }
    unfold progress_bar. fold x. rewrite Hfilled. reflexivity.
Qed.

End ProgressBar.

Lemma progress_bar_width_witness :
  String.length (progress_bar (- 50)) = 62%nat /\
  (- 50 <= - (5 # 2) -> (42 < String.length (progress_bar (- 50)))%nat).
Proof.
  split; [reflexivity|].
  apply (progress_bar_width (- 50)).
Defined.
